(** * webcapture: a shallow embedding of [webcapture/webcapture.py]

    The program is a thin front end around a browser-automation library.
    Its own logic is string processing (URL validation, file names, width
    and format parsing), a keypress reader with a small menu, and the
    sequencing of fallible browser calls.  The development follows that
    outline:

    - [PyStr]: the Python [str] methods and built-ins the program calls;
    - [Urllib]: [urllib.parse.urlparse], as far as scheme and netloc go;
    - the exception/state monad [M] over a [World] (stdin, stdout, files
      on disk, the browser and the image converter);
    - the program's functions, under their own names;
    - the properties.

    Characters are 8-bit code points (Rocq's [ascii]); a Python string is
    a [string].  Integers are [Z]. *)

From Stdlib Require Import ZArith Ascii String.
From stdpp Require Import base tactics option list strings gmap pretty sorting.

Local Open Scope Z_scope.

(** ** Python [str] methods *)

Module PyStr.

Definition code (c : ascii) : N := N_of_ascii c.

Definition between (lo hi : N) (c : ascii) : bool :=
  ((lo <=? code c) && (code c <=? hi))%N.

(** [str.isspace] on code points below 256: TAB..CR, FS..US, space,
    NEL (0x85) and NBSP (0xa0). *)
Definition isspace (c : ascii) : bool :=
  between 9 13 c || between 28 32 c || (code c =? 133)%N || (code c =? 160)%N.

Definition isdigit (c : ascii) : bool := between 48 57 c.

(** [c.isascii() and c.isalpha()] *)
Definition is_ascii_alpha (c : ascii) : bool :=
  between 65 90 c || between 97 122 c.

(** [str.lower] on one code point below 256: A-Z, and the Latin-1
    capitals 0xc0..0xde except the multiplication sign 0xd7. *)
Definition lower_char (c : ascii) : ascii :=
  if between 65 90 c || (between 192 222 c && negb (code c =? 215)%N)
  then ascii_of_N (code c + 32)
  else c.

Fixpoint lower (s : string) : string :=
  match s with
  | EmptyString => EmptyString
  | String c r => String (lower_char c) (lower r)
  end.

(** [s.startswith(p)] *)
Definition startswith (p s : string) : bool := String.prefix p s.

Fixpoint drop (n : nat) (s : string) : string :=
  match n, s with
  | O, _ => s
  | S k, EmptyString => EmptyString
  | S k, String _ r => drop k r
  end.

Fixpoint take (n : nat) (s : string) : string :=
  match n, s with
  | O, _ => EmptyString
  | S k, EmptyString => EmptyString
  | S k, String c r => String c (take k r)
  end.

(** [c in s] for a single character [c] *)
Fixpoint contains (c : ascii) (s : string) : bool :=
  match s with
  | EmptyString => false
  | String d r => if Ascii.eqb c d then true else contains c r
  end.

(** [s.find(c)] for a single character: [None] stands for -1. *)
Fixpoint find (c : ascii) (s : string) : option nat :=
  match s with
  | EmptyString => None
  | String d r => if Ascii.eqb c d then Some O else S <$> find c r
  end.

(** [s.lstrip(chars)] with the set of characters given as a predicate *)
Fixpoint lstrip_with (p : ascii -> bool) (s : string) : string :=
  match s with
  | EmptyString => EmptyString
  | String c r => if p c then lstrip_with p r else s
  end.

(** [s.rstrip(chars)] *)
Fixpoint rstrip_with (p : ascii -> bool) (s : string) : string :=
  match s with
  | EmptyString => EmptyString
  | String c r =>
      match rstrip_with p r with
      | EmptyString => if p c then EmptyString else String c EmptyString
      | r' => String c r'
      end
  end.

(** [s.strip()] *)
Definition strip (s : string) : string :=
  rstrip_with isspace (lstrip_with isspace s).

(** The longest prefix without a character of [p], and what follows it. *)
Fixpoint span_until (p : ascii -> bool) (s : string) : string * string :=
  match s with
  | EmptyString => (EmptyString, EmptyString)
  | String c r =>
      if p c then (EmptyString, s)
      else let '(a, b) := span_until p r in (String c a, b)
  end.

(** [s.replace(old, new)] for a non-empty [old]: occurrences are replaced
    from left to right and do not overlap.  [skip] counts the characters
    of the occurrence just replaced that are still to be passed over. *)
Fixpoint replace_go (old new : string) (skip : nat) (s : string) : string :=
  match s with
  | EmptyString => EmptyString
  | String c r =>
      match skip with
      | S k => replace_go old new k r
      | O =>
          if String.prefix old s
          then new +:+ replace_go old new (Nat.pred (String.length old)) r
          else String c (replace_go old new O r)
      end
  end.

Definition replace (old new s : string) : string := replace_go old new O s.

(** [s.split(sep)] for a single-character separator: never empty. *)
Fixpoint split (sep : ascii) (s : string) : list string :=
  match s with
  | EmptyString => [EmptyString]
  | String c r =>
      if Ascii.eqb c sep then EmptyString :: split sep r
      else match split sep r with
           | h :: t => String c h :: t
           | [] => [String c EmptyString]
           end
  end.

(** The digits of an integer literal, most significant first; a single
    underscore may separate two digits.  [prev] tells whether the
    previous character was a digit. *)
Fixpoint digits_value (acc : Z) (prev : bool) (s : string) : option Z :=
  match s with
  | EmptyString => if prev then Some acc else None
  | String c r =>
      if isdigit c
      then digits_value (10 * acc + Z.of_N (code c - 48)) true r
      else if Ascii.eqb c "_" && prev
           then match r with
                | String d _ => if isdigit d then digits_value acc false r else None
                | EmptyString => None
                end
           else None
  end.

Fixpoint count_digits (s : string) : N :=
  match s with
  | EmptyString => 0
  | String c r => ((if isdigit c then 1 else 0) + count_digits r)%N
  end.

(** The digits after the sign: more than [sys.int_info.default_max_str_digits]
    (4300) of them are refused. *)
Definition literal_value (r : string) : option Z :=
  if (4300 <? count_digits r)%N then None else digits_value 0 false r.

(** The white space that [int] skips around a literal: TAB..CR and the
    space, and, since [int] first turns the Unicode spaces of a string
    that is not ASCII into spaces, NEL (0x85) and NBSP (0xa0).  FS..US are
    white space for [str.strip] and [str.isspace], not for [int]. *)
Definition int_space (c : ascii) : bool :=
  between 9 13 c || (code c =? 32)%N || (code c =? 133)%N || (code c =? 160)%N.

Definition int_strip (s : string) : string :=
  rstrip_with int_space (lstrip_with int_space s).

(** [int(s)] in base ten: surrounding white space, an optional sign,
    digits.  [None] stands for [ValueError]. *)
Definition int (s : string) : option Z :=
  match int_strip s with
  | String "-" r => Z.opp <$> literal_value r
  | String "+" r => literal_value r
  | r => literal_value r
  end.

(** [str(n)] *)
Definition str (n : Z) : string := pretty n.

(** [repr(s)] of a string.  The quote is the single one, unless the
    string holds a single and no double quote.  The quote in use and the
    backslash are escaped, TAB, LF and CR are written as letters, and the
    other characters that are not printable (below 256: the controls,
    DEL, 0x80..0xa0 and the soft hyphen 0xad) as [\xhh]. *)
Definition SQUOTE : ascii := ascii_of_N 39.
Definition DQUOTE : ascii := ascii_of_N 34.
Definition BACKSLASH : ascii := ascii_of_N 92.

Definition hex_digit (n : N) : ascii :=
  if (n <? 10)%N then ascii_of_N (48 + n) else ascii_of_N (87 + n).

(** [c.isprintable()] on a code point below 256 *)
Definition isprintable (c : ascii) : bool :=
  between 32 126 c || (between 161 255 c && negb (code c =? 173)%N).

Definition repr_char (quote c : ascii) : string :=
  if Ascii.eqb c quote || Ascii.eqb c BACKSLASH
  then String BACKSLASH (String c EmptyString)
  else if (code c =? 9)%N then String BACKSLASH "t"
  else if (code c =? 10)%N then String BACKSLASH "n"
  else if (code c =? 13)%N then String BACKSLASH "r"
  else if isprintable c then String c EmptyString
  else String BACKSLASH
         (String "x" (String (hex_digit (code c / 16))
                        (String (hex_digit (code c mod 16)) EmptyString))).

Fixpoint repr_body (quote : ascii) (s : string) : string :=
  match s with
  | EmptyString => EmptyString
  | String c r => repr_char quote c +:+ repr_body quote r
  end.

Definition repr (s : string) : string :=
  let quote := if contains SQUOTE s && negb (contains DQUOTE s)
               then DQUOTE else SQUOTE in
  String quote (repr_body quote s) +:+ String quote EmptyString.

(** What is left of the argument of [int] without white space and sign *)
Definition unsigned (s : string) : string :=
  match int_strip s with
  | String "-" r => r
  | String "+" r => r
  | r => r
  end.

(** Whether the argument of [int] is a literal, of any length *)
Definition is_int_literal (s : string) : bool :=
  match digits_value 0 false (unsigned s) with
  | Some _ => true
  | None => false
  end.

(** [str(e)] for the [ValueError] that [int(s)] raises: the argument is
    no literal (it is shown with [%.200R]), or it is one of more than
    4300 digits. *)
Definition int_error (s : string) : string :=
  match digits_value 0 false (unsigned s) with
  | None => "invalid literal for int() with base 10: " +:+ take 200 (repr s)
  | Some _ =>
      "Exceeds the limit (4300 digits) for integer string conversion: value has "
      +:+ str (Z.of_N (count_digits (unsigned s)))
      +:+ " digits; use sys.set_int_max_str_digits() to increase the limit"
  end.

(** [s.partition(c)] for a single character: the head, whether the
    separator was found, and the tail. *)
Definition partition (c : ascii) (s : string) : string * bool * string :=
  match span_until (Ascii.eqb c) s with
  | (a, String _ r) => (a, true, r)
  | (a, EmptyString) => (a, false, EmptyString)
  end.

(** [s.rpartition(c)[2]]: what follows the last [c], all of [s] when
    there is none. *)
Fixpoint after_last (c : ascii) (s : string) : string :=
  match s with
  | EmptyString => EmptyString
  | String d r =>
      if contains c r then after_last c r
      else if Ascii.eqb d c then r else s
  end.

End PyStr.

(** ** Exceptions *)

(** The exception classes that occur in the program and in the library
    calls it makes. *)
Inductive exn_class : Type :=
  | ValueError
  | ImportError
  | FileNotFoundError
  | CalledProcessError
  | PlaywrightError        (* navigation timeout, screenshot failure, ... *)
  | EOFError
  | IndexError
  | TermiosError
  | KeyboardInterrupt
  | SystemExit (status : Z).

Record exn : Type := Exn { exn_cls : exn_class; exn_msg : string }.

(** [except Exception] catches everything but the [BaseException]-only
    classes; a bare [except:] catches all. *)
Definition is_Exception (e : exn) : bool :=
  match exn_cls e with
  | KeyboardInterrupt | SystemExit _ => false
  | _ => true
  end.

Inductive result (A : Type) : Type :=
  | Ok (a : A)
  | Raise (e : exn).
Arguments Ok {A} a.
Arguments Raise {A} e.

Definition rbind {A B} (r : result A) (k : A -> result B) : result B :=
  match r with
  | Ok a => k a
  | Raise e => Raise e
  end.

(** [try: body / except <handles>: handler] *)
Definition rtry {A} (body : result A) (handles : exn -> bool)
    (handler : exn -> result A) : result A :=
  match body with
  | Ok a => Ok a
  | Raise e => if handles e then handler e else Raise e
  end.

(** Python truthiness of a string and of [None]-or-string *)
Definition truthy (s : string) : bool := negb (String.eqb s EmptyString).

(** ** The parts of the platform that are left open

    Three library computations are not reproduced: the validation of a
    bracketed IP literal and the NFKC check of a non-ASCII netloc inside
    [urllib.parse] (each can only make the parser raise [ValueError]), and
    the rendering of a float with one decimal.  Everything below holds for
    any behaviour of these. *)
Class Platform : Type := {
  check_bracketed_host : string -> bool;   (* false: raises ValueError *)
  checknetloc_nfkc : string -> bool;       (* false: raises ValueError *)
  format_kb : Z -> string;                 (* f"{st_size / 1024:.1f}" *)
}.

(** ** [urllib.parse.urlparse] (CPython 3.12), scheme and netloc *)

Module Urllib.
Import PyStr.

Record ParseResult : Type := {
  scheme : string;
  netloc : string;
  rest : string;       (* path, params, query and fragment, not split *)
}.

(** [_WHATWG_C0_CONTROL_OR_SPACE] *)
Definition c0_control_or_space (c : ascii) : bool := (code c <=? 32)%N.

Definition TAB : string := String (ascii_of_N 9) EmptyString.
Definition CR : string := String (ascii_of_N 13) EmptyString.
Definition LF : string := String (ascii_of_N 10) EmptyString.

(** [scheme_chars]: letters, digits and "+-." *)
Definition scheme_char (c : ascii) : bool :=
  is_ascii_alpha c || isdigit c
  || Ascii.eqb c "+" || Ascii.eqb c "-" || Ascii.eqb c ".".

Fixpoint all_chars (p : ascii -> bool) (s : string) : bool :=
  match s with
  | EmptyString => true
  | String c r => p c && all_chars p r
  end.

Definition isascii (s : string) : bool := all_chars (fun c => (code c <? 128)%N) s.

(** The scheme split of [urlsplit]: [i = url.find(':')], taken when
    [i > 0], the first character is an ASCII letter and [url[:i]] has
    scheme characters only. *)
Definition split_scheme (url : string) : string * string :=
  match find ":" url, url with
  | Some (S i), String c0 _ =>
      if is_ascii_alpha c0 && all_chars scheme_char (take (S i) url)
      then (lower (take (S i) url), drop (S (S i)) url)
      else (EmptyString, url)
  | _, _ => (EmptyString, url)
  end.

(** [_splitnetloc(url, 2)]: up to the first of "/", "?" and "#". *)
Definition splitnetloc (url : string) : string * string :=
  span_until (fun c => Ascii.eqb c "/" || Ascii.eqb c "?" || Ascii.eqb c "#")
             (drop 2 url).

(** [netloc.partition('[')[2].partition(']')[0]] *)
Definition bracketed_host (nl : string) : string :=
  let after := snd (span_until (Ascii.eqb "[") nl) in
  fst (span_until (Ascii.eqb "]") (drop 1 after)).

Definition invalid (msg : string) {A} : result A := Raise (Exn ValueError msg).

Definition check_brackets `{Platform} (nl : string) : result unit :=
  if (contains "[" nl && negb (contains "]" nl))
     || (contains "]" nl && negb (contains "[" nl))
  then invalid "Invalid IPv6 URL"
  else if contains "[" nl && contains "]" nl
       then if check_bracketed_host (bracketed_host nl) then Ok tt
            else invalid "bracketed host is invalid"
       else Ok tt.

(** [_checknetloc] *)
Definition checknetloc `{Platform} (nl : string) : result unit :=
  if negb (truthy nl) || isascii nl then Ok tt
  else if checknetloc_nfkc nl then Ok tt
       else invalid "netloc contains invalid characters under NFKC normalization".

(** [for b in _UNSAFE_URL_BYTES_TO_REMOVE: url = url.replace(b, "")] *)
Definition clean (url : string) : string :=
  replace LF "" (replace CR "" (replace TAB "" url)).

Definition urlsplit `{Platform} (url : string) : result ParseResult :=
  let url := lstrip_with c0_control_or_space url in
  let url := clean url in
  let '(sch, url) := split_scheme url in
  if startswith "//" url then
    let '(nl, url) := splitnetloc url in
    rbind (check_brackets nl) (fun _ =>
    rbind (checknetloc nl) (fun _ =>
    Ok {| scheme := sch; netloc := nl; rest := url |}))
  else
    Ok {| scheme := sch; netloc := EmptyString; rest := url |}.

(** [urlparse] splits the parameters off the path of what [urlsplit]
    returns; scheme and netloc are those of [urlsplit]. *)
Definition urlparse `{Platform} (url : string) : result ParseResult :=
  urlsplit url.

(** [_hostinfo[0]]: the netloc without user information and port *)
Definition hostinfo_host (nl : string) : string :=
  let hostinfo := after_last "@" nl in
  match partition "[" hostinfo with
  | (_, true, bracketed) => fst (fst (partition "]" bracketed))
  | (_, false, _) => fst (fst (partition ":" hostinfo))
  end.

(** [result.hostname]: [None] when the host is empty; lower case but for
    the zone of a scoped address. *)
Definition hostname (p : ParseResult) : option string :=
  let host := hostinfo_host (netloc p) in
  if truthy host then
    match partition "%" host with
    | (name, percent, zone) =>
        Some (lower name +:+ (if percent : bool then "%" else "") +:+ zone)
    end
  else None.

End Urllib.

(** ** URL validation and file-name stem *)

Definition has_http_prefix (url : string) : bool :=
  PyStr.startswith "http://" url || PyStr.startswith "https://" url.

(** [validate_url]: the URL, or [None]. *)
Definition validate_url `{Platform} (url : string) : result (option string) :=
  let url := if negb (has_http_prefix url) then "https://" +:+ url else url in
  rtry
    (rbind (Urllib.urlparse url) (fun parsed =>
     if negb (truthy (Urllib.scheme parsed) && truthy (Urllib.netloc parsed))
     then Ok None
     else Ok (Some url)))
    is_Exception
    (fun _ => Ok None).

(** [sanitize_filename] *)
Definition sanitize_filename `{Platform} (url : string) : result string :=
  rbind (Urllib.urlparse url) (fun parsed =>
  let domain := PyStr.replace "www." "" (Urllib.netloc parsed) in
  let domain := PyStr.replace "." "-" domain in
  Ok domain).

(** ** The world the program runs in

    What the environment will answer is fixed in advance by [Env], as a
    function of a logical time that advances with every call into the
    browser, the converter or the clock; the program cannot change it.
    What the program can change is the rest of [World]. *)

Inductive ConvertTool : Type :=
  | ConvertWorks          (* ImageMagick's convert runs and exits with 0 *)
  | ConvertMissing        (* no such executable: FileNotFoundError *)
  | ConvertFails.         (* non-zero exit: CalledProcessError *)

Record Env : Type := {
  stdin_isatty : bool;       (* termios is there and stdin is a terminal *)
  home : string;             (* str(Path.home()) without a final "/": the
                                empty string when it is the root directory *)
  playwright_installed : bool;
  clock : nat -> string;     (* datetime.now().strftime('%Y-%m-%d_%H%M%S') *)
  clock_plain : forall now, PyStr.contains "/" (clock now) = false;
                             (* the format has no "/", and the fields that
                                strftime fills in are digits *)
  goto_error : nat -> option exn;
                             (* what launching the browser and loading
                                the page raises, if anything *)
  screenshot_error : nat -> option exn;
                             (* what page.screenshot raises, if anything *)
  close_error : nat -> option exn;
                             (* what closing context and browser raises *)
  page_url : nat -> string;  (* page.url *)
  convert_tool : nat -> ConvertTool;
  image_size : string -> Z;  (* path: size of the image written there *)
}.

Record World : Type := {
  env : Env;
  time : nat;                (* calls into the environment so far *)
  stdin : string;            (* the characters that are still to be read *)
  tty_raw : bool;            (* the terminal is in raw mode *)
  stdout : list string;      (* what was written, oldest first; the newline
                                that print adds is left out *)
  files : gmap string Z;     (* the files on disk and their size in bytes *)
}.

Definition set_time (n : nat) (w : World) : World :=
  {| env := env w; time := n; stdin := stdin w; tty_raw := tty_raw w;
     stdout := stdout w; files := files w |}.
Definition set_stdin (s : string) (w : World) : World :=
  {| env := env w; time := time w; stdin := s; tty_raw := tty_raw w;
     stdout := stdout w; files := files w |}.
Definition set_tty_raw (b : bool) (w : World) : World :=
  {| env := env w; time := time w; stdin := stdin w; tty_raw := b;
     stdout := stdout w; files := files w |}.
Definition set_stdout (o : list string) (w : World) : World :=
  {| env := env w; time := time w; stdin := stdin w; tty_raw := tty_raw w;
     stdout := o; files := files w |}.
Definition set_files (f : gmap string Z) (w : World) : World :=
  {| env := env w; time := time w; stdin := stdin w; tty_raw := tty_raw w;
     stdout := stdout w; files := f |}.

(** ** The monad of the program: state and exceptions

    A computation runs on a world and ends with a value or a raised
    exception; its effects on the world stay in both cases. *)

Definition M (A : Type) : Type := World -> result A * World.

Definition ret {A} (a : A) : M A := fun w => (Ok a, w).

Definition bind {A B} (c : M A) (k : A -> M B) : M B :=
  fun w => match c w with
           | (Ok a, w') => k a w'
           | (Raise e, w') => (Raise e, w')
           end.

Definition raise {A} (e : exn) : M A := fun w => (Raise e, w).

Definition lift {A} (r : result A) : M A := fun w => (r, w).

Notation "'let*' x ':=' c 'in' k" := (bind c (fun x => k))
  (at level 10, x pattern, c at level 100, k at level 200, only parsing).
Notation "c ';;' k" := (bind c (fun _ => k))
  (at level 100, k at level 200, right associativity, only parsing).

(** The [except] clauses of a [try] statement, tried in order: which
    exceptions a clause takes, and its handler. *)
Definition clause (A : Type) : Type := (exn -> bool) * (exn -> M A).

Fixpoint dispatch {A} (clauses : list (clause A)) (e : exn) : M A :=
  match clauses with
  | [] => raise e
  | (handles, handler) :: more =>
      if handles e then handler e else dispatch more e
  end.

(** [try: body / except ...: ... / except ...: ...] *)
Definition try_except {A} (body : M A) (clauses : list (clause A)) : M A :=
  fun w => match body w with
           | (Ok a, w') => (Ok a, w')
           | (Raise e, w') => dispatch clauses e w'
           end.

(** [try: body / finally: cleanup] *)
Definition try_finally {A} (body : M A) (cleanup : M unit) : M A :=
  fun w => match body w with
           | (r, w') => match cleanup w' with
                        | (Ok _, w'') => (r, w'')
                        | (Raise e, w'') => (Raise e, w'')
                        end
           end.

Definition is_class (c : exn_class) (e : exn) : bool :=
  match c, exn_cls e with
  | ValueError, ValueError | ImportError, ImportError
  | FileNotFoundError, FileNotFoundError
  | CalledProcessError, CalledProcessError
  | PlaywrightError, PlaywrightError | EOFError, EOFError
  | IndexError, IndexError
  | TermiosError, TermiosError | KeyboardInterrupt, KeyboardInterrupt => true
  | SystemExit a, SystemExit b => Z.eqb a b
  | _, _ => false
  end.

(** a bare [except:] *)
Definition any_exception (e : exn) : bool := true.

(** *** Primitive effects *)

Definition get {A} (f : World -> A) : M A := fun w => (Ok (f w), w).

(** One call into the environment: the time now, which then advances. *)
Definition tick : M nat := fun w => (Ok (time w), set_time (S (time w)) w).

(** [print(text)] *)
Definition print (text : string) : M unit :=
  fun w => (Ok tt, set_stdout (stdout w ++ [text]) w).

Definition is_newline (c : ascii) : bool := Ascii.eqb c (ascii_of_N 10).

(** The next line of the input, without its newline, and what follows *)
Definition first_line (s : string) : string := fst (PyStr.span_until is_newline s).
Definition after_line (s : string) : string :=
  PyStr.drop 1 (snd (PyStr.span_until is_newline s)).

(** [input(prompt)]: writes the prompt, reads up to the next newline and
    drops it; [EOFError] when nothing is left to read. *)
Definition input (prompt : string) : M string :=
  fun w =>
    let w := set_stdout (stdout w ++ [prompt]) w in
    match stdin w with
    | EmptyString => (Raise (Exn EOFError "EOF when reading a line"), w)
    | s => (Ok (first_line s), set_stdin (after_line s) w)
    end.

(** [sys.stdin.read(n)]: up to [n] characters, fewer when the input ends
    before. *)
Definition stdin_read (n : nat) : M string :=
  fun w => (Ok (PyStr.take n (stdin w)), set_stdin (PyStr.drop n (stdin w)) w).

(** [sys.exit(status)] *)
Definition sys_exit {A} (status : Z) : M A := raise (Exn (SystemExit status) "").

(** [termios.tcgetattr(fd)]: the terminal settings, or [termios.error]
    when stdin is no terminal.  The input of a terminal ends only when
    its other end hangs up, and the call fails on such a terminal too:
    [stdin] used up stands for that. *)
Definition tcgetattr : M bool :=
  fun w => if stdin_isatty (env w) then
             if truthy (stdin w) then (Ok (tty_raw w), w)
             else (Raise (Exn TermiosError "Input/output error"), w)
           else (Raise (Exn TermiosError "Inappropriate ioctl for device"), w).

(** [tty.setraw(fd)] and [termios.tcsetattr(fd, TCSADRAIN, settings)] *)
Definition setraw : M unit := fun w => (Ok tt, set_tty_raw true w).
Definition tcsetattr (settings : bool) : M unit :=
  fun w => (Ok tt, set_tty_raw settings w).

(** ** Colours and print helpers *)

Module Colors.
Definition ESC : string := String (ascii_of_N 27) EmptyString.
Definition RED : string := ESC +:+ "[91m".
Definition GREEN : string := ESC +:+ "[92m".
Definition YELLOW : string := ESC +:+ "[93m".
Definition BLUE : string := ESC +:+ "[94m".
Definition MAGENTA : string := ESC +:+ "[95m".
Definition CYAN : string := ESC +:+ "[96m".
Definition WHITE : string := ESC +:+ "[97m".
Definition BOLD : string := ESC +:+ "[1m".
Definition END : string := ESC +:+ "[0m".
End Colors.

Definition NL : string := String (ascii_of_N 10) EmptyString.

Definition error_line (message : string) : string :=
  Colors.RED +:+ "✗ " +:+ message +:+ Colors.END.
Definition success_line (message : string) : string :=
  Colors.GREEN +:+ "✓ " +:+ message +:+ Colors.END.
Definition info_line (message : string) : string :=
  Colors.BLUE +:+ "ℹ " +:+ message +:+ Colors.END.
Definition warning_line (message : string) : string :=
  Colors.YELLOW +:+ "⚠ " +:+ message +:+ Colors.END.

Definition print_error (message : string) : M unit := print (error_line message).
Definition print_success (message : string) : M unit := print (success_line message).
Definition print_info (message : string) : M unit := print (info_line message).
Definition print_warning (message : string) : M unit := print (warning_line message).

(** ** Constants *)

(** [PRESETS] *)
Definition PRESETS : gmap string Z :=
  list_to_map
    [ ("mobile", 375); ("tablet", 768); ("small", 1024); ("laptop", 1440);
      ("medium", 1366); ("desktop", 1920); ("large", 2560);
      ("ultrawide", 3440); ("presentation", 1280) ].

Definition DEFAULT_WIDTH : Z := 1920.
Definition DEFAULT_FORMAT : string := "png".
Definition DEFAULT_WAIT : string := "networkidle".

(** ** Paths ([pathlib.Path])

    A path is kept as its parent directory, written without a final "/"
    (so the root directory is the empty string), and its final component,
    which holds no "/": [joinpath] splits what is appended to a directory
    at every "/", as [pathlib] does. *)

Module Path.
Import PyStr.

Record t : Type := { parent : string; name : string }.

Definition to_str (p : t) : string := parent p +:+ "/" +:+ name p.

(** [name.rfind('.')] *)
Fixpoint rfind_dot (s : string) : option nat :=
  match s with
  | EmptyString => None
  | String c r =>
      match rfind_dot r with
      | Some i => Some (S i)
      | None => if Ascii.eqb c "." then Some O else None
      end
  end.

(** The index [i] of the last dot when [0 < i < len(name) - 1]. *)
Definition suffix_index (nm : string) : option nat :=
  match rfind_dot nm with
  | Some (S i) => if (S (S i) <? String.length nm)%nat then Some (S i) else None
  | _ => None
  end.

Definition suffix (p : t) : string :=
  match suffix_index (name p) with
  | Some i => drop i (name p)
  | None => EmptyString
  end.

Definition stem (p : t) : string :=
  match suffix_index (name p) with
  | Some i => take i (name p)
  | None => name p
  end.

(** [p.with_suffix(sfx)] for a suffix ["." + ext] *)
Definition with_suffix (sfx : string) (p : t) : t :=
  {| parent := parent p; name := stem p +:+ sfx |}.

(** [p.parent / nm] *)
Definition sibling (p : t) (nm : string) : t :=
  {| parent := parent p; name := nm |}.

(** The components of an operand of [/]: it is split at "/", and empty
    components and "." are dropped. *)
Definition segments (operand : string) : list string :=
  List.filter (fun x => negb (String.eqb x "" || String.eqb x "."))
    (split "/" operand).

(** [dir / operand].  The components of the operand are appended to the
    directory; an operand that starts with "/" is absolute and replaces
    it (two leading slashes, no more, are kept as they are). *)
Definition joinpath (dir : t) (operand : string) : t :=
  let absolute := startswith "/" operand in
  let anchor :=
    if absolute
    then if startswith "//" operand && negb (startswith "///" operand)
         then "/" else ""
    else to_str dir in
  match rev (segments operand) with
  | [] => if absolute then {| parent := anchor; name := "" |} else dir
  | last :: before =>
      {| parent := fold_left (fun acc seg => acc +:+ "/" +:+ seg) (rev before) anchor;
         name := last |}
  end.
End Path.

(** [FileNotFoundError(2, 'No such file or directory', what)] *)
Definition no_such_file (what : string) : exn :=
  Exn FileNotFoundError
    ("[Errno 2] No such file or directory: " +:+ PyStr.repr what).

(** [p.stat().st_size]: [FileNotFoundError] for a missing file. *)
Definition stat_size (p : Path.t) : M Z :=
  fun w => match files w !! Path.to_str p with
           | Some n => (Ok n, w)
           | None => (Raise (no_such_file (Path.to_str p)), w)
           end.

(** [get_output_filename] *)
Definition get_output_filename `{Platform} (url : string) (width : Z)
    (output_format : string) : M Path.t :=
  let* base := lift (sanitize_filename url) in
  let* now := tick in
  let* timestamp := get (fun w => clock (env w) now) in
  let* hm := get (fun w => home (env w)) in
  let desktop := {| Path.parent := hm; Path.name := "Desktop" |} in
  ret (Path.joinpath desktop
         (base +:+ "_" +:+ PyStr.str width +:+ "px_" +:+ timestamp
          +:+ "." +:+ output_format)).

(** ** The browser and the converter *)

(** A call into the environment that the oracle [fault] may make fail. *)
Definition env_call (fault : Env -> nat -> option exn) : M unit :=
  let* now := tick in
  fun w => match fault (env w) now with
           | Some e => (Raise e, w)
           | None => (Ok tt, w)
           end.

(** [from playwright.sync_api import sync_playwright] *)
Definition import_playwright : M unit :=
  fun w => if playwright_installed (env w) then (Ok tt, w)
           else (Raise (Exn ImportError "No module named 'playwright'"), w).

(** [sync_playwright()], [chromium.launch(headless=...)],
    [browser.new_context(viewport={width, 1080}, color_scheme=...)],
    [context.new_page()] and [page.goto(url, wait_until=..., timeout=60000)] *)
Definition open_page (headless : bool) (width : Z) (color_scheme : string)
    (url wait_until : string) : M unit :=
  env_call goto_error.

(** [page.wait_for_timeout(ms)] *)
Definition wait_for_timeout (ms : Z) : M unit := ret tt.

(** [page.set_viewport_size({'width': width, 'height': 1080})] *)
Definition set_viewport_size (width : Z) : M unit := ret tt.

(** [int(s)] as the program calls it *)
Definition py_int (s : string) : M Z :=
  match PyStr.int s with
  | Some n => ret n
  | None => raise (Exn ValueError (PyStr.int_error s))
  end.

(** The "Navigate with wait option" block of both capture functions *)
Definition navigate (headless : bool) (width : Z) (dark_mode : bool)
    (url wait_option : string) : M unit :=
  let color_scheme := if dark_mode then "dark" else "light" in
  if String.eqb wait_option "networkidle"
  then open_page headless width color_scheme url "networkidle"
  else if String.eqb wait_option "load"
  then open_page headless width color_scheme url "load"
  else open_page headless width color_scheme url "domcontentloaded" ;;
       let* ms := py_int wait_option in
       wait_for_timeout ms.

(** [page.screenshot(path=str(p), full_page=True)] *)
Definition page_screenshot (p : Path.t) : M unit :=
  env_call screenshot_error ;;
  fun w => (Ok tt, set_files (<[Path.to_str p := image_size (env w) (Path.to_str p)]>
                                (files w)) w).

(** [context.close()] and [browser.close()] *)
Definition close_browser : M unit := env_call close_error.

(** [CalledProcessError(1, ['convert', png, webp])] *)
Definition convert_failed (png_path webp_path : Path.t) : exn :=
  Exn CalledProcessError
    ("Command '['convert', " +:+ PyStr.repr (Path.to_str png_path) +:+ ", "
     +:+ PyStr.repr (Path.to_str webp_path)
     +:+ "]' returned non-zero exit status 1.").

(** [subprocess.run(['convert', png, webp], check=True, capture_output=True)] *)
Definition run_convert (png_path webp_path : Path.t) : M unit :=
  let* now := tick in
  fun w => match convert_tool (env w) now with
           | ConvertWorks =>
               match files w !! Path.to_str png_path with
               | Some _ => (Ok tt, set_files (<[Path.to_str webp_path :=
                                image_size (env w) (Path.to_str webp_path)]> (files w)) w)
               | None => (Raise (convert_failed png_path webp_path), w)
               end
           | ConvertMissing => (Raise (no_such_file "convert"), w)
           | ConvertFails => (Raise (convert_failed png_path webp_path), w)
           end.

(** [png_path.unlink()] *)
Definition unlink (p : Path.t) : M unit :=
  fun w => match files w !! Path.to_str p with
           | Some _ => (Ok tt, set_files (delete (Path.to_str p) (files w)) w)
           | None => (Raise (no_such_file (Path.to_str p)), w)
           end.

(** [_convert_to_webp] *)
Definition _convert_to_webp (png_path webp_path : Path.t) : M unit :=
  try_except
    (run_convert png_path webp_path ;;
     unlink png_path)
    [ (is_class FileNotFoundError, fun _ =>
         print_error "ImageMagick not found. Install with: brew install imagemagick" ;;
         print_info ("Keeping PNG file: " +:+ Path.name png_path));
      (is_class CalledProcessError, fun e =>
         print_error ("WebP conversion failed: " +:+ exn_msg e) ;;
         print_info ("Keeping PNG file: " +:+ Path.name png_path)) ].

(** "Capture screenshot (convert webp if needed)" *)
Definition screenshot_to (is_webp : bool) (p : Path.t) : M unit :=
  if is_webp then
    let temp_png := Path.with_suffix ".png" p in
    page_screenshot temp_png ;;
    _convert_to_webp temp_png p
  else page_screenshot p.

Definition has_webp_suffix (p : Path.t) : bool :=
  String.eqb (PyStr.lower (Path.suffix p)) ".webp".

(** [parent / f"{stem}_{n}{suffix}"] *)
Definition numbered (p : Path.t) (n : Z) : Path.t :=
  Path.sibling p (Path.stem p +:+ "_" +:+ PyStr.str n +:+ Path.suffix p).

Definition size_text `{Platform} (nm : string) (st_size : Z) : string :=
  nm +:+ " (" +:+ format_kb st_size +:+ " KB)".

Definition prompt_line (text : string) : string :=
  NL +:+ Colors.CYAN +:+ text +:+ Colors.END.

Definition interrupted_line : string :=
  NL +:+ Colors.YELLOW +:+ "Interrupted by user" +:+ Colors.END.

Definition playwright_missing : M bool :=
  print_error "Playwright not installed. Run: cd webcapture && ./install.sh" ;;
  ret false.

Definition screenshot_failed (e : exn) : M bool :=
  print_error ("Screenshot failed: " +:+ exn_msg e) ;;
  ret false.

(** The [while True] loop of [capture_screenshot] in interactive mode.
    Every round reads a line, so the rounds are bounded by what stdin
    holds: the caller passes that bound as [fuel]. *)
Fixpoint capture_loop `{Platform} (fuel : nat) (output_path : Path.t)
    (capture_count : Z) : M Z :=
  match fuel with
  | O => ret capture_count
  | S fuel' =>
      let* again :=
        try_except
          (print (prompt_line "Press Enter to capture screenshot (or type 'q' to finish):") ;;
           let* line := input "" in
           let user_input := PyStr.lower (PyStr.strip line) in
           if String.eqb user_input "q" then
             print_info "Finishing captures..." ;; ret false
           else
             let screenshot_path :=
               if capture_count =? 0 then output_path
               else numbered output_path capture_count in
             screenshot_to (has_webp_suffix screenshot_path) screenshot_path ;;
             let* st_size := stat_size screenshot_path in
             print_success ("Captured: " +:+ size_text (Path.name screenshot_path) st_size) ;;
             ret true)
          [ (is_class KeyboardInterrupt, fun _ => print interrupted_line ;; ret false) ] in
      if again : bool then capture_loop fuel' output_path (capture_count + 1)
      else ret capture_count
  end.

Definition stdin_bound : M nat := get (fun w => S (String.length (stdin w))).

(** [capture_screenshot] *)
Definition capture_screenshot `{Platform} (url : string) (width : Z)
    (output_path : Path.t) (dark_mode : bool) (wait_option : string)
    (interactive : bool) : M bool :=
  let* imported :=
    try_except (import_playwright ;; ret true)
      [ (is_class ImportError, fun _ => playwright_missing) ] in
  if negb imported then ret false
  else
    try_except
      (navigate (negb interactive) width dark_mode url wait_option ;;
       if interactive then
         print_info ("Browser opened at " +:+ PyStr.str width +:+ "px width") ;;
         print_warning "Navigate, sign in, or interact with page..." ;;
         let* fuel := stdin_bound in
         let* capture_count := capture_loop fuel output_path 0 in
         close_browser ;;
         ret (0 <? capture_count)
       else
         screenshot_to (has_webp_suffix output_path) output_path ;;
         close_browser ;;
         ret true)
      [ (is_Exception, screenshot_failed) ].

(** [sep.join(items)] *)
Fixpoint join (sep : string) (items : list string) : string :=
  match items with
  | [] => EmptyString
  | [x] => x
  | x :: more => x +:+ sep +:+ join sep more
  end.

(** [page.url] *)
Definition current_page_url : M string :=
  let* now := tick in
  get (fun w => page_url (env w) now).

(** The [for width in widths] loop of [capture_interactive_multiwidth].
    [total_captures] is a local variable that keeps its value when the
    loop is left by an exception, so the loop hands it to the handler of
    the enclosing [try]: [inl total] after a normal end, [inr total] after
    a [KeyboardInterrupt]. *)
Fixpoint capture_all_widths `{Platform} (current_url output_format : string)
    (capture_round : Z) (widths : list Z) (total_captures : Z) : M (Z + Z) :=
  match widths with
  | [] => ret (inl total_captures)
  | width :: more =>
      let* done :=
        try_except
          (set_viewport_size width ;;
           let* output_path := get_output_filename current_url width output_format in
           let output_path :=
             if 0 <? capture_round then numbered output_path capture_round
             else output_path in
           screenshot_to (String.eqb output_format "webp") output_path ;;
           let* st_size := stat_size output_path in
           print_success ("Captured " +:+ PyStr.str width +:+ "px: "
                          +:+ size_text (Path.name output_path) st_size) ;;
           ret true)
          [ (is_class KeyboardInterrupt, fun _ => print interrupted_line ;; ret false) ] in
      if done : bool
      then capture_all_widths current_url output_format capture_round more
             (total_captures + 1)
      else ret (inr total_captures)
  end.

(** The [while True] loop of [capture_interactive_multiwidth]; [fuel]
    bounds the rounds as in [capture_loop]. *)
Fixpoint multiwidth_loop `{Platform} (fuel : nat) (widths : list Z)
    (output_format : string) (capture_round total_captures : Z) : M Z :=
  match fuel with
  | O => ret total_captures
  | S fuel' =>
      let* round :=
        try_except
          (print (prompt_line "Press Enter to capture all widths (or type 'q' to finish):") ;;
           let* line := input "" in
           let user_input := PyStr.lower (PyStr.strip line) in
           if String.eqb user_input "q" then
             print_info "Finishing captures..." ;; ret (inr total_captures)
           else
             let* current_url := current_page_url in
             capture_all_widths current_url output_format capture_round widths
               total_captures)
          [ (is_class KeyboardInterrupt, fun _ =>
               print interrupted_line ;; ret (inr total_captures)) ] in
      match round with
      | inl total => multiwidth_loop fuel' widths output_format (capture_round + 1) total
      | inr total => ret total
      end
  end.

(** [capture_interactive_multiwidth] *)
Definition capture_interactive_multiwidth `{Platform} (url : string)
    (widths : list Z) (output_format : string) (dark_mode : bool)
    (wait_option : string) : M bool :=
  let* imported :=
    try_except (import_playwright ;; ret true)
      [ (is_class ImportError, fun _ => playwright_missing) ] in
  if negb imported then ret false
  else
    try_except
      (match widths with
       | [] =>
           (* the browser is launched, then [widths[0]] fails *)
           env_call goto_error ;;
           raise (Exn IndexError "list index out of range")
       | first_width :: _ =>
           navigate false first_width dark_mode url wait_option ;;
           print_info ("Browser opened at " +:+ PyStr.str first_width +:+ "px width") ;;
           print_warning "Navigate, sign in, or interact with page..." ;;
           print_info ("Will capture at " +:+ PyStr.str (Z.of_nat (length widths))
                       +:+ " width(s) per Enter: "
                       +:+ join ", " (map PyStr.str widths) +:+ "px") ;;
           let* fuel := stdin_bound in
           let* total_captures := multiwidth_loop fuel widths output_format 0 0 in
           close_browser ;;
           print (NL +:+ Colors.GREEN +:+ "✓ Total captures: "
                  +:+ PyStr.str total_captures +:+ Colors.END) ;;
           ret (0 <? total_captures)
       end)
      [ (is_Exception, screenshot_failed) ].

(** ** Batch capture

    The loop "capture each width separately" stands three times in the
    source, in [cli_mode], [handle_menu_selection] and [advanced_options],
    with the same body. *)

Fixpoint capture_each_width `{Platform} (url : string) (widths : list Z)
    (output_format : string) (dark : bool) (wait : string)
    (success_count : Z) : M Z :=
  match widths with
  | [] => ret success_count
  | width :: more =>
      let* output_path := get_output_filename url width output_format in
      print_info ("Capturing " +:+ PyStr.str width +:+ "px...") ;;
      let* captured := capture_screenshot url width output_path dark wait false in
      if captured : bool then
        let* st_size := stat_size output_path in
        print_success ("Saved: " +:+ size_text (Path.name output_path) st_size) ;;
        capture_each_width url more output_format dark wait (success_count + 1)
      else
        print_error ("Failed: " +:+ PyStr.str width +:+ "px") ;;
        capture_each_width url more output_format dark wait success_count
  end.

Definition completed_line (success_count : Z) (total : nat) : string :=
  NL +:+ Colors.GREEN +:+ "✓ Completed: " +:+ PyStr.str success_count +:+ "/"
  +:+ PyStr.str (Z.of_nat total) +:+ " screenshots" +:+ Colors.END.

Definition capture_batch `{Platform} (url : string) (widths : list Z)
    (output_format : string) (dark : bool) (wait : string) : M unit :=
  let* success_count := capture_each_width url widths output_format dark wait 0 in
  print (completed_line success_count (length widths)).

(** ** Width lists *)

(** One round of the loop over the comma-separated items in [cli_mode]
    and [advanced_options]: the widths so far, extended or not.  The two
    differ in the text of the warning. *)
Definition add_width (warning : string) (widths : list Z) (item : string)
    : M (list Z) :=
  let item := PyStr.lower (PyStr.strip item) in
  match PRESETS !! item with
  | Some width => ret (widths ++ [width])
  | None =>
      try_except
        (let* width := py_int item in ret (widths ++ [width]))
        [ (any_exception, fun _ => print_warning (warning +:+ item) ;; ret widths) ]
  end.

Fixpoint parse_widths (warning : string) (items : list string) (widths : list Z)
    : M (list Z) :=
  match items with
  | [] => ret widths
  | item :: more =>
      let* widths := add_width warning widths item in
      parse_widths warning more widths
  end.

(** [[int(w.strip()) for w in custom.split(',')]], the custom widths of
    [handle_menu_selection] *)
Fixpoint custom_widths (items : list string) : M (list Z) :=
  match items with
  | [] => ret []
  | w :: more =>
      let* width := py_int (PyStr.strip w) in
      let* widths := custom_widths more in
      ret (width :: widths)
  end.

(** [s or default] *)
Definition or_default (s default : string) : string :=
  if truthy s then s else default.

Definition is_format (fmt : string) : bool :=
  String.eqb fmt "png" || String.eqb fmt "jpeg" || String.eqb fmt "webp".

(** [input("> ").strip().lower()] *)
Definition ask : M string :=
  let* line := input "> " in ret (PyStr.lower (PyStr.strip line)).

Definition cyan (text : string) : string := Colors.CYAN +:+ text +:+ Colors.END.

Definition capturing_line : string :=
  NL +:+ Colors.BOLD +:+ "Capturing screenshots..." +:+ Colors.END +:+ NL.

Definition press_enter : M unit :=
  input "Press Enter to continue..." ;; ret tt.

(** ** Capture requests

    What a front end has collected when it starts capturing: the local
    variables [url], [widths], [fmt], [dark], [wait] and [interactive] of
    [cli_mode], [handle_menu_selection] and [advanced_options]. *)

Record Request : Type := {
  req_url : string;
  req_widths : list Z;
  req_format : string;
  req_dark : bool;
  req_wait : string;
  req_interactive : bool;
}.

(** The "Execute captures" block the three front ends end with *)
Definition execute `{Platform} (r : Request) : M unit :=
  if req_interactive r then
    capture_interactive_multiwidth (req_url r) (req_widths r) (req_format r)
      (req_dark r) (req_wait r) ;;
    ret tt
  else
    capture_batch (req_url r) (req_widths r) (req_format r) (req_dark r) (req_wait r).

(** *** Command line *)

Record Args : Type := {
  arg_url : option string;
  arg_widths : option string;
  arg_format : string;
  arg_dark : bool;
  arg_wait : string;
  arg_interactive : bool;
}.

Definition str_bool (b : bool) : string := if b then "True" else "False".

(** "Parse widths" in [cli_mode] *)
Definition cli_widths (arg : option string) : M (list Z) :=
  let* widths :=
    match arg with
    | Some list_text =>
        if truthy list_text
        then parse_widths "Skipping invalid width: " (PyStr.split "," list_text) []
        else ret []
    | None => ret []
    end in
  match widths with
  | [] => ret [DEFAULT_WIDTH]
  | _ => ret widths
  end.

(** "Validate format" in [cli_mode] *)
Definition cli_format (arg : string) : M string :=
  let output_format := PyStr.lower arg in
  if negb (is_format output_format) then
    print_warning ("Invalid format: " +:+ arg +:+ ", using png") ;;
    ret "png"
  else ret output_format.

(** [cli_mode] up to "Execute captures"; [url] is [args.url], which
    [main] has found to be non-empty. *)
Definition cli_request `{Platform} (url : string) (args : Args) : M Request :=
  let* valid := lift (validate_url url) in
  match valid with
  | None => print_error ("Invalid URL: " +:+ url) ;; sys_exit 1
  | Some url =>
      let* widths := cli_widths (arg_widths args) in
      let* output_format := cli_format (arg_format args) in
      print (Colors.BOLD +:+ "Capturing: " +:+ url +:+ Colors.END) ;;
      print ("Widths: " +:+ join ", " (map PyStr.str widths)) ;;
      print ("Format: " +:+ output_format) ;;
      print ("Dark mode: " +:+ str_bool (arg_dark args)) ;;
      print ("Wait: " +:+ arg_wait args) ;;
      print ("Interactive: " +:+ str_bool (arg_interactive args) +:+ NL) ;;
      ret {| req_url := url; req_widths := widths; req_format := output_format;
             req_dark := arg_dark args; req_wait := arg_wait args;
             req_interactive := arg_interactive args |}
  end.

(** [cli_mode] *)
Definition cli_mode `{Platform} (url : string) (args : Args) : M unit :=
  let* r := cli_request url args in
  execute r.

(** *** Menu prompts *)

Definition clear_screen : string := Colors.ESC +:+ "[2J" +:+ Colors.ESC +:+ "[H".

Definition ask_yes (question : string) : M bool :=
  print (cyan question) ;;
  let* answer := ask in
  ret (String.eqb answer "y").

Definition ask_interactive : M bool :=
  ask_yes "Interactive mode (open visible browser for sign in)? (y/n) [default: n]:".

(** [sorted(PRESETS.items(), key=lambda x: x[1])] *)
Definition by_width (a b : string * Z) : Prop := a.2 <= b.2.

#[local] Instance by_width_dec : RelDecision by_width.
Proof. intros a b. unfold by_width. apply _. Defined.

Definition presets_by_width : list (string * Z) :=
  merge_sort by_width (map_to_list PRESETS).

Fixpoint print_presets (items : list (string * Z)) : M unit :=
  match items with
  | [] => ret tt
  | (name, width) :: more =>
      print ("  " +:+ name +:+ ": " +:+ PyStr.str width +:+ "px") ;;
      print_presets more
  end.

(** [advanced_options] up to "Execute"; [None] where the source returns
    [False] *)
Definition advanced_request (url : string) : M (option Request) :=
  print (cyan "Width presets:") ;;
  print_presets presets_by_width ;;
  print (NL +:+ cyan "Enter preset names or widths (comma-separated):") ;;
  let* line := input "> " in
  let widths_input := PyStr.strip line in
  let* widths := parse_widths "Skipping invalid: " (PyStr.split "," widths_input) [] in
  match widths with
  | [] => print_error "No valid widths" ;; press_enter ;; ret None
  | _ =>
      print (NL +:+ cyan "Format (png/jpeg/webp) [default: png]:") ;;
      let* answer := ask in
      let fmt := or_default answer "png" in
      let* dark := ask_yes "Dark mode? (y/n) [default: n]:" in
      print (cyan "Wait option (networkidle/load/ms) [default: networkidle]:") ;;
      let* answer := ask in
      let wait := or_default answer "networkidle" in
      let* interactive := ask_interactive in
      ret (Some {| req_url := url; req_widths := widths; req_format := fmt;
                   req_dark := dark; req_wait := wait;
                   req_interactive := interactive |})
  end.

(** The end of [advanced_options] and of [handle_menu_selection] *)
Definition capture_and_pause `{Platform} (r : Request) : M bool :=
  print capturing_line ;;
  execute r ;;
  input (NL +:+ "Press Enter to continue...") ;;
  ret true.

(** [advanced_options] *)
Definition advanced_options `{Platform} (url : string) : M bool :=
  let* r := advanced_request url in
  match r with
  | None => ret false
  | Some r => capture_and_pause r
  end.

(** "Get widths based on choice" in [handle_menu_selection], for a
    choice other than 3; [None] where the source returns [False] *)
Definition menu_widths (choice : Z) : M (option (list Z)) :=
  if choice =? 0 then ret (Some [DEFAULT_WIDTH])
  else if choice =? 1 then ret (Some [375; 768; 1920])
  else if choice =? 2 then
    print (cyan "Enter width(s) (comma-separated, e.g. 1920,375):") ;;
    let* line := input "> " in
    let custom := PyStr.strip line in
    try_except
      (let* widths := custom_widths (PyStr.split "," custom) in ret (Some widths))
      [ (any_exception, fun _ =>
           print_error "Invalid width format" ;; press_enter ;; ret None) ]
  else ret (Some []).

(** "Get format" in [handle_menu_selection] *)
Definition menu_format : M string :=
  print (cyan "Format (png/jpeg/webp) [default: png]:") ;;
  let* answer := ask in
  let fmt := or_default answer "png" in
  if negb (is_format fmt) then ret "png" else ret fmt.

(** [handle_menu_selection] from "Get widths" to "Execute captures", for
    a choice other than 3 *)
Definition menu_request (url : string) (choice : Z) : M (option Request) :=
  let* widths := menu_widths choice in
  match widths with
  | None => ret None
  | Some widths =>
      let* fmt := menu_format in
      let* dark := ask_yes "Dark mode? (y/n) [default: n]:" in
      let* interactive := ask_interactive in
      ret (Some {| req_url := url; req_widths := widths; req_format := fmt;
                   req_dark := dark; req_wait := "networkidle";
                   req_interactive := interactive |})
  end.

(** [handle_menu_selection] *)
Definition handle_menu_selection `{Platform} (choice : Z) : M bool :=
  print clear_screen ;;
  print (cyan "Enter URL:") ;;
  let* line := input "> " in
  let url_input := PyStr.strip line in
  let* url := lift (validate_url url_input) in
  match url with
  | None => print_error "Invalid URL" ;; press_enter ;; ret false
  | Some url =>
      print_info ("URL: " +:+ url) ;;
      if choice =? 3 then advanced_options url
      else
        let* r := menu_request url choice in
        match r with
        | None => ret false
        | Some r => capture_and_pause r
        end
  end.

(** ** The keypress reader and the menu *)

Definition KEY_UP : string := Colors.ESC +:+ "[A".
Definition KEY_DOWN : string := Colors.ESC +:+ "[B".
Definition CR : string := String (ascii_of_N 13) EmptyString.
Definition CTRL_C : string := String (ascii_of_N 3) EmptyString.

(** The body of the inner [try] of [get_key]: what is returned for the
    character read in raw mode. *)
Definition read_key : M string :=
  setraw ;;
  let* ch := stdin_read 1 in
  if String.eqb ch Colors.ESC then
    let* more := stdin_read 2 in
    let ch := ch +:+ more in
    if String.eqb ch KEY_UP then ret "up"
    else if String.eqb ch KEY_DOWN then ret "down"
    else ret ch
  else if String.eqb ch CR || String.eqb ch NL then ret "enter"
  else if String.eqb ch CTRL_C then ret "quit"
  else ret ch.

(** [get_key] *)
Definition get_key : M string :=
  try_except
    (let* old_settings := tcgetattr in
     try_finally read_key (tcsetattr old_settings))
    [ (any_exception, fun _ =>
         let* line := input "" in ret (PyStr.strip line)) ].

Definition options : list string :=
  [ "Single width (default: desktop 1920px)";
    "Multiple widths (mobile, tablet, desktop)";
    "Custom width(s)";
    "Advanced options";
    "Exit" ].

Fixpoint print_options (opts : list string) (idx selected_idx : Z) : M unit :=
  match opts with
  | [] => ret tt
  | option :: more =>
      let prefix := if idx =? selected_idx then "→" else " " in
      let color := if idx =? selected_idx then Colors.GREEN else Colors.WHITE in
      print (color +:+ prefix +:+ " " +:+ option +:+ Colors.END) ;;
      print_options more (idx + 1) selected_idx
  end.

(** [print_menu] *)
Definition print_menu (opts : list string) (selected_idx : Z) : M unit :=
  print clear_screen ;;
  print (Colors.BOLD +:+ Colors.CYAN +:+ "=== webcapture - Full-Page Screenshots ==="
         +:+ Colors.END +:+ NL) ;;
  print_options opts 0 selected_idx.

(** What one round of the loop of [interactive_mode] does with the key it
    got: go on browsing with an index, hand a choice to
    [handle_menu_selection], or leave the program. *)
Inductive MenuStep : Type :=
  | Browsing (selected : Z)
  | Selected (choice : Z)
  | Exiting.

Definition menu_step (opts : list string) (selected : Z) (key : string) : MenuStep :=
  if String.eqb key "up" then Browsing ((selected - 1) mod Z.of_nat (length opts))
  else if String.eqb key "down" then Browsing ((selected + 1) mod Z.of_nat (length opts))
  else if String.eqb key "enter" then
    if selected =? 4 then Exiting else Selected selected
  else if String.eqb key "quit" then Exiting
  else Browsing selected.

(** The [while True] loop of [interactive_mode].  The rounds are counted
    by an explicit [fuel]; [None] when it runs out while browsing. *)
Fixpoint menu_loop `{Platform} (fuel : nat) (selected : Z) : M (option bool) :=
  match fuel with
  | O => ret None
  | S fuel' =>
      print_menu options selected ;;
      let* key := get_key in
      match menu_step options selected key with
      | Browsing selected' => menu_loop fuel' selected'
      | Selected choice =>
          let* handled := handle_menu_selection choice in ret (Some handled)
      | Exiting => print NL ;; sys_exit 0
      end
  end.

(** [interactive_mode] *)
Definition interactive_mode `{Platform} (fuel : nat) : M (option bool) :=
  menu_loop fuel 0.

(** The key events of the specification, as [interactive_mode] tells
    them apart. *)
Inductive KeyEvent : Type :=
  | Up
  | Down
  | Enter
  | Quit
  | Other (key : string).

Definition key_event (key : string) : KeyEvent :=
  if String.eqb key "up" then Up
  else if String.eqb key "down" then Down
  else if String.eqb key "enter" then Enter
  else if String.eqb key "quit" then Quit
  else Other key.

(** ** Running the program on a world *)

Definition run {A} (c : M A) (w : World) : result A * World := c w.
Definition value_of {A} (c : M A) (w : World) : result A := fst (c w).
Definition world_after {A} (c : M A) (w : World) : World := snd (c w).
Definition printed {A} (c : M A) (w : World) : list string :=
  drop (length (stdout w)) (stdout (world_after c w)).

(** [main], for an [args] that argparse has produced.  [rounds] bounds
    the menus shown and [fuel] the keys read in each. *)
Definition cancelled_line : string :=
  NL +:+ NL +:+ Colors.YELLOW +:+ "Cancelled" +:+ Colors.END.

Fixpoint menu_forever `{Platform} (rounds fuel : nat) : M unit :=
  match rounds with
  | O => ret tt
  | S rounds' => interactive_mode fuel ;; menu_forever rounds' fuel
  end.

Definition main `{Platform} (rounds fuel : nat) (args : Args) : M unit :=
  match arg_url args with
  | Some url =>
      if truthy url then cli_mode url args
      else try_except (menu_forever rounds fuel)
             [ (is_class KeyboardInterrupt, fun _ => print cancelled_line ;; sys_exit 0) ]
  | None =>
      try_except (menu_forever rounds fuel)
        [ (is_class KeyboardInterrupt, fun _ => print cancelled_line ;; sys_exit 0) ]
  end.

(** ** Reports of the batch loop

    What the batch loop has to say about one width: the capture was saved
    to a file of some size, or it failed for a reason that
    [capture_screenshot] has printed. *)

Inductive Attempt : Type :=
  | Saved (file : string) (st_size : Z)
  | Failed (reason : string).

Definition report `{Platform} (width : Z) (a : Attempt) : list string :=
  info_line ("Capturing " +:+ PyStr.str width +:+ "px...") ::
  match a with
  | Saved file st_size => [success_line ("Saved: " +:+ size_text file st_size)]
  | Failed reason => [error_line reason; error_line ("Failed: " +:+ PyStr.str width +:+ "px")]
  end.

Fixpoint reports `{Platform} (widths : list Z) (attempts : list Attempt) : list string :=
  match widths, attempts with
  | width :: widths', a :: attempts' => report width a ++ reports widths' attempts'
  | _, _ => []
  end.

Fixpoint count_saved (attempts : list Attempt) : Z :=
  match attempts with
  | [] => 0
  | Saved _ _ :: more => 1 + count_saved more
  | Failed _ :: more => count_saved more
  end.

(** The failures of the browser are ordinary exceptions: navigation
    timeouts, screenshot errors and the like, not an interrupt or an exit
    of the interpreter. *)
Definition faults_are_exceptions (e : Env) : Prop :=
  forall n x,
    goto_error e n = Some x \/ screenshot_error e n = Some x \/ close_error e n = Some x ->
    is_Exception x = true.

(** ** The specification's own words

    Readings that the specification gives and that the properties below
    compare the code with. *)

(** "strips exactly one leading www. prefix ... and replaces every . with
    -": the stem the specification describes for a host. *)
Definition spec_stem (host : string) : string :=
  let host := if PyStr.startswith "www." host then PyStr.drop 4 host else host in
  PyStr.replace "." "-" host.

(** "the same four-way classification applied to the first character of
    the line, or treats a bare line as Enter": the event the specification
    describes for a line read without a terminal. *)
Definition spec_line_event (line : string) : KeyEvent :=
  if PyStr.startswith KEY_UP line then Up
  else if PyStr.startswith KEY_DOWN line then Down
  else match line with
       | EmptyString => Enter
       | String c _ =>
           let ch := String c EmptyString in
           if String.eqb ch CR || String.eqb ch NL then Enter
           else if String.eqb ch CTRL_C then Quit
           else Other ch
       end.

(** The preset table as the specification lists it. *)
Definition spec_preset (name : string) : option Z :=
  if String.eqb name "mobile" then Some 375
  else if String.eqb name "tablet" then Some 768
  else if String.eqb name "small" then Some 1024
  else if String.eqb name "laptop" then Some 1440
  else if String.eqb name "medium" then Some 1366
  else if String.eqb name "desktop" then Some 1920
  else if String.eqb name "large" then Some 2560
  else if String.eqb name "ultrawide" then Some 3440
  else if String.eqb name "presentation" then Some 1280
  else None.

(** "a preset name maps to its fixed width, an integer literal maps to
    itself, and any other token is skipped" *)
Definition spec_token_width (token : string) : option Z :=
  match spec_preset token with
  | Some width => Some width
  | None => PyStr.int token
  end.

(** The tokens of a width list as both parsers look at them: stripped
    and in lower case *)
Definition token (item : string) : string := PyStr.lower (PyStr.strip item).

(** The tokens of the command-line option: none when the option is
    absent or empty. *)
Definition cli_tokens (arg : option string) : list string :=
  match arg with
  | Some list_text =>
      if truthy list_text then map token (PyStr.split "," list_text) else []
  | None => []
  end.

(** What the specification makes of a list of tokens: the widths, and
    the tokens it skips. *)
Fixpoint spec_widths (tokens : list string) : list Z * list string :=
  match tokens with
  | [] => ([], [])
  | t :: more =>
      let '(widths, skipped) := spec_widths more in
      match spec_token_width t with
      | Some width => (width :: widths, skipped)
      | None => (widths, t :: skipped)
      end
  end.

(** "every integer literal supplied is positive", for the tokens of a
    width list *)
Definition literals_positive (tokens : list string) : Prop :=
  forall t n, t ∈ tokens -> PyStr.int t = Some n -> 0 < n.



(** ** A sample platform and sample worlds *)

Definition sample_platform : Platform :=
  {| check_bracketed_host := fun _ => true;
     checknetloc_nfkc := fun _ => true;
     format_kb := fun st_size => PyStr.str (st_size / 1024) +:+ ".0" |}.

(** A machine with the browser library, on which every page loads and
    every screenshot works; [tool] is the state of ImageMagick. *)
Definition sample_env (tty : bool) (tool : ConvertTool) : Env :=
  {| stdin_isatty := tty;
     home := "/home/user";
     playwright_installed := true;
     clock := fun _ => "2025-01-01_120000";
     clock_plain := fun _ => eq_refl;
     goto_error := fun _ => None;
     screenshot_error := fun _ => None;
     close_error := fun _ => None;
     page_url := fun _ => "https://example.com/";
     convert_tool := fun _ => tool;
     image_size := fun _ => 204800 |}.

Definition sample_world (tty : bool) (tool : ConvertTool) (input_text : string)
    : World :=
  {| env := sample_env tty tool; time := 0; stdin := input_text;
     tty_raw := false; stdout := []; files := ∅ |}.

(** The same machine, on which the second page load of a run times out:
    the first width takes the calls 0 to 3 (clock, page, screenshot,
    close), the second starts with the clock at 4 and loads the page
    at 5. *)
Definition flaky_env : Env :=
  {| stdin_isatty := false;
     home := "/home/user";
     playwright_installed := true;
     clock := fun _ => "2025-01-01_120000";
     clock_plain := fun _ => eq_refl;
     goto_error := fun n => if Nat.eqb n 5
                            then Some (Exn PlaywrightError "Timeout 60000ms exceeded.")
                            else None;
     screenshot_error := fun _ => None;
     close_error := fun _ => None;
     page_url := fun _ => "https://example.com/";
     convert_tool := fun _ => ConvertWorks;
     image_size := fun _ => 204800 |}.

Definition flaky_world : World :=
  {| env := flaky_env; time := 0; stdin := ""; tty_raw := false;
     stdout := []; files := ∅ |}.

Definition sample_args (widths : option string) (fmt : string) : Args :=
  {| arg_url := Some "https://example.com"; arg_widths := widths;
     arg_format := fmt; arg_dark := false; arg_wait := "networkidle";
     arg_interactive := false |}.

(** ** Notions used by the further properties *)

(** A character that is ASCII and none of TAB, LF, CR, "/", "?", "#",
    "[" and "]". *)
Definition plain_char (c : ascii) : bool :=
  (PyStr.code c <? 128)%N
  && negb ((PyStr.code c =? 9)%N || (PyStr.code c =? 10)%N || (PyStr.code c =? 13)%N
           || Ascii.eqb c "/" || Ascii.eqb c "?" || Ascii.eqb c "#"
           || Ascii.eqb c "[" || Ascii.eqb c "]").

(** The line that tells that the browser library is missing *)
Definition playwright_hint : string :=
  "Playwright not installed. Run: cd webcapture && ./install.sh".

(** Nothing the browser is asked to do fails. *)
Definition no_faults (e : Env) : Prop :=
  forall n, goto_error e n = None /\ screenshot_error e n = None /\ close_error e n = None.

(** A wait option that [navigate] can use *)
Definition wait_ok (wait : string) : Prop :=
  wait = "networkidle" \/ wait = "load" \/ exists ms, PyStr.int wait = Some ms.

Definition is_saved (a : Attempt) : Prop :=
  match a with Saved _ _ => True | Failed _ => False end.

(** A computation that neither reads the input nor changes the mode of
    the terminal, however it ends. *)
Definition keeps_input {A} (c : M A) : Prop :=
  forall w r w', c w = (r, w') -> stdin w' = stdin w /\ tty_raw w' = tty_raw w.

(** The prompt for custom widths *)
Definition width_prompt : string := cyan "Enter width(s) (comma-separated, e.g. 1920,375):".

(** The file [get_output_filename] names for a page, a width and a clock
    reading *)
Definition output_file (e : Env) (stem : string) (width : Z) (now : nat)
    (fmt : string) : Path.t :=
  {| Path.parent := home e +:+ "/Desktop";
     Path.name := stem +:+ "_" +:+ PyStr.str width +:+ "px_" +:+ clock e now
                  +:+ "." +:+ fmt |}.

(** A machine without the browser library *)
Definition bare_env : Env :=
  {| stdin_isatty := false;
     home := "/home/user";
     playwright_installed := false;
     clock := fun _ => "2025-01-01_120000";
     clock_plain := fun _ => eq_refl;
     goto_error := fun _ => None;
     screenshot_error := fun _ => None;
     close_error := fun _ => None;
     page_url := fun _ => "https://example.com/";
     convert_tool := fun _ => ConvertMissing;
     image_size := fun _ => 204800 |}.

Definition bare_world : World :=
  {| env := bare_env; time := 0; stdin := ""; tty_raw := false;
     stdout := []; files := ∅ |}.

(** A machine on which the user interrupts every page load *)
Definition interrupted_env : Env :=
  {| stdin_isatty := false;
     home := "/home/user";
     playwright_installed := true;
     clock := fun _ => "2025-01-01_120000";
     clock_plain := fun _ => eq_refl;
     goto_error := fun _ => Some (Exn KeyboardInterrupt "");
     screenshot_error := fun _ => None;
     close_error := fun _ => None;
     page_url := fun _ => "https://example.com/";
     convert_tool := fun _ => ConvertWorks;
     image_size := fun _ => 204800 |}.

Definition interrupted_world : World :=
  {| env := interrupted_env; time := 0; stdin := ""; tty_raw := false;
     stdout := []; files := ∅ |}.

(** A PNG and the WebP file it is to become *)
Definition shot_png : Path.t :=
  {| Path.parent := "/home/user/Desktop"; Path.name := "shot.png" |}.
Definition shot_webp : Path.t :=
  {| Path.parent := "/home/user/Desktop"; Path.name := "shot.webp" |}.

(** The sample machine with the PNG on disk *)
Definition png_world (tool : ConvertTool) : World :=
  {| env := sample_env false tool; time := 0; stdin := ""; tty_raw := false;
     stdout := []; files := {[ Path.to_str shot_png := 204800 ]} |}.

(** * Properties *)

(** ** Strings *)

Section StringFacts.
Import PyStr.

Lemma prefix_app (p s : string) :
  String.prefix p s = true -> exists r, s = p +:+ r.
Proof.
  revert s. induction p as [|c p IH]; intros s Hp.
  - exists s. reflexivity.
  - destruct s as [|d s]; [discriminate|].
    simpl in Hp. destruct (ascii_dec c d) as [->|]; [|discriminate].
    destruct (IH _ Hp) as [r ->]. exists r. reflexivity.
Qed.

Lemma app_prefix (p r : string) : String.prefix p (p +:+ r) = true.
Proof.
  induction p as [|c p IH]; simpl.
  - destruct r; reflexivity.
  - destruct (ascii_dec c c); [exact IH|congruence].
Qed.

Lemma truthy_true (s : string) : truthy s = true <-> s <> EmptyString.
Proof.
  unfold truthy. destruct s; simpl; split; intros; congruence.
Qed.

Lemma has_http_prefix_https (s : string) :
  has_http_prefix ("https://" +:+ s) = true.
Proof.
  unfold has_http_prefix, startswith.
  rewrite (app_prefix "https://" s). apply orb_true_r.
Qed.

Lemma has_http_prefix_inv (u : string) :
  has_http_prefix u = true ->
  exists r, u = "http://" +:+ r \/ u = "https://" +:+ r.
Proof.
  unfold has_http_prefix, startswith. intros H.
  apply orb_true_iff in H as [H|H]; apply prefix_app in H as [r ->];
    exists r; auto.
Qed.

End StringFacts.

(** ** [urlparse] *)

Section UrlparseFacts.
Context `{Platform}.
Import PyStr Urllib.

(** The parser raises nothing but [ValueError]. *)
Lemma urlsplit_raises (url : string) (e : exn) :
  urlsplit url = Raise e -> exn_cls e = ValueError.
Proof.
  unfold urlsplit.
  destruct (split_scheme _) as [sch u].
  destruct (startswith "//" u); [|discriminate].
  destruct (splitnetloc u) as [nl r].
  unfold check_brackets, checknetloc, invalid.
  repeat match goal with
         | |- context [if ?b then _ else _] => destruct b; simpl
         end;
    intros [= <-]; reflexivity.
Qed.

Lemma urlparse_raises (url : string) (e : exn) :
  urlparse url = Raise e -> is_Exception e = true.
Proof.
  intros Hr. apply urlsplit_raises in Hr.
  unfold is_Exception. rewrite Hr. reflexivity.
Qed.

(** Removing the three unsafe characters leaves a literal
    "http://" or "https://" prefix where it is. *)
Lemma clean_https (s : string) : clean ("https://" +:+ s) = "https://" +:+ clean s.
Proof. reflexivity. Qed.

Lemma clean_http (s : string) : clean ("http://" +:+ s) = "http://" +:+ clean s.
Proof. reflexivity. Qed.

(** A string that starts with "http://" or "https://" always parses
    with that scheme. *)
Lemma urlparse_scheme (url : string) (p : ParseResult) :
  has_http_prefix url = true ->
  urlparse url = Ok p ->
  scheme p = "http" \/ scheme p = "https".
Proof.
  intros Hp Hu. apply has_http_prefix_inv in Hp as [r [-> | ->]].
  - left. unfold urlparse, urlsplit in Hu.
    change (lstrip_with c0_control_or_space ("http://" +:+ r)) with ("http://" +:+ r) in Hu.
    rewrite clean_http in Hu.
    change (split_scheme ("http://" +:+ clean r)) with ("http", "//" +:+ clean r) in Hu.
    cbv beta iota in Hu.
    unfold startswith in Hu. rewrite (app_prefix "//" (clean r)) in Hu.
    destruct (splitnetloc _) as [nl u].
    destruct (check_brackets nl); [|discriminate].
    destruct (checknetloc nl); [|discriminate].
    simpl in Hu. injection Hu as <-. reflexivity.
  - right. unfold urlparse, urlsplit in Hu.
    change (lstrip_with c0_control_or_space ("https://" +:+ r)) with ("https://" +:+ r) in Hu.
    rewrite clean_https in Hu.
    change (split_scheme ("https://" +:+ clean r)) with ("https", "//" +:+ clean r) in Hu.
    cbv beta iota in Hu.
    unfold startswith in Hu. rewrite (app_prefix "//" (clean r)) in Hu.
    destruct (splitnetloc _) as [nl u].
    destruct (check_brackets nl); [|discriminate].
    destruct (checknetloc nl); [|discriminate].
    simpl in Hu. injection Hu as <-. reflexivity.
Qed.

End UrlparseFacts.

(** ** URL validation *)

Section ValidateUrl.
Context `{Platform}.

Lemma validate_url_unfold (url : string) :
  validate_url url =
    let normalized := if has_http_prefix url then url else "https://" +:+ url in
    match Urllib.urlparse normalized with
    | Ok p => if truthy (Urllib.scheme p) && truthy (Urllib.netloc p)
              then Ok (Some normalized) else Ok None
    | Raise _ => Ok None
    end.
Proof.
  unfold validate_url.
  destruct (has_http_prefix url); simpl;
    (destruct (Urllib.urlparse _) as [p|e] eqn:Hp; simpl;
     [ destruct (truthy (Urllib.scheme p) && truthy (Urllib.netloc p)); reflexivity
     | rewrite (urlparse_raises _ _ Hp); reflexivity ]).
Qed.

Lemma normalized_has_prefix (url : string) :
  has_http_prefix (if has_http_prefix url then url else "https://" +:+ url) = true.
Proof.
  destruct (has_http_prefix url) eqn:Hp; [exact Hp | apply has_http_prefix_https].
Qed.

(** A URL that the validator returns starts with "http://" or
    "https://". *)
Lemma validate_url_prefixed (url u : string) :
  validate_url url = Ok (Some u) -> has_http_prefix u = true.
Proof.
  rewrite validate_url_unfold. cbv zeta.
  destruct (Urllib.urlparse _) as [p|e]; [|discriminate].
  destruct (truthy (Urllib.scheme p) && truthy (Urllib.netloc p)); [|discriminate].
  intros [= <-]. apply normalized_has_prefix.
Qed.

(** A URL that the validator returns is one that [urlparse] accepts. *)
Lemma validate_url_parses (url u : string) :
  validate_url url = Ok (Some u) -> exists p, Urllib.urlparse u = Ok p.
Proof.
  rewrite validate_url_unfold. cbv zeta.
  destruct (Urllib.urlparse _) as [p|e] eqn:Hp; [|discriminate].
  destruct (truthy (Urllib.scheme p) && truthy (Urllib.netloc p)); [|discriminate].
  intros [= <-]. eauto.
Qed.

(** After normalization the scheme is never missing: the validator
    succeeds exactly when the parser accepts the string and finds a
    non-empty netloc. *)
Lemma validate_url_netloc (url : string) :
  let normalized := if has_http_prefix url then url else "https://" +:+ url in
  validate_url url =
    match Urllib.urlparse normalized with
    | Ok p => if truthy (Urllib.netloc p) then Ok (Some normalized) else Ok None
    | Raise _ => Ok None
    end.
Proof.
  rewrite validate_url_unfold. cbv zeta.
  destruct (Urllib.urlparse _) as [p|e] eqn:Hp; [|reflexivity].
  destruct (urlparse_scheme _ _ (normalized_has_prefix url) Hp) as [-> | ->];
    reflexivity.
Qed.

(** C2, as the code has it: the validator prepends "https://" exactly
    when the input has neither an "http://" nor an "https://" prefix; it
    returns the string so normalized if and only if that string parses
    with a scheme and a non-empty netloc (the network location, of which
    the host is one part), and the failure value [None] in every other
    case; it never ends with an exception. *)
Theorem validate_url_correct (url : string) :
  let normalized := if has_http_prefix url then url else "https://" +:+ url in
  (forall u, validate_url url = Ok (Some u) <->
             u = normalized /\
             exists p, Urllib.urlparse normalized = Ok p /\
                       Urllib.scheme p <> "" /\ Urllib.netloc p <> "")
  /\ (validate_url url = Ok (Some normalized) \/ validate_url url = Ok None).
Proof.
  cbv zeta. rewrite validate_url_unfold. cbv zeta.
  set (normalized := if has_http_prefix url then url else "https://" +:+ url).
  destruct (Urllib.urlparse normalized) as [p|e] eqn:Hp.
  - destruct (truthy (Urllib.scheme p)) eqn:Hs;
      destruct (truthy (Urllib.netloc p)) eqn:Hn; simpl.
    + split; [|left; reflexivity].
      intros u. split.
      * intros [= <-]. split; [reflexivity|].
        exists p. repeat split; [apply truthy_true, Hs | apply truthy_true, Hn].
      * intros [-> _]. reflexivity.
    + split; [|right; reflexivity].
      intros u. split; [discriminate|].
      intros [_ (q & [= <-] & _ & Hq)]. apply truthy_true in Hq. congruence.
    + split; [|right; reflexivity].
      intros u. split; [discriminate|].
      intros [_ (q & [= <-] & Hq & _)]. apply truthy_true in Hq. congruence.
    + split; [|right; reflexivity].
      intros u. split; [discriminate|].
      intros [_ (q & [= <-] & Hq & _)]. apply truthy_true in Hq. congruence.
  - split; [|right; reflexivity].
    intros u. split; [discriminate|].
    intros [_ (q & [=] & _)].
Qed.

(** C10: validating a URL that the validator has returned gives that
    URL back. *)
Theorem validate_url_idempotent (url u : string) :
  validate_url url = Ok (Some u) -> validate_url u = Ok (Some u).
Proof.
  intros Hv. pose proof (validate_url_prefixed _ _ Hv) as Hpre.
  revert Hv. rewrite !validate_url_unfold. cbv zeta.
  rewrite Hpre.
  destruct (has_http_prefix url) eqn:Hu.
  - destruct (Urllib.urlparse url) as [p|e] eqn:Hp; [|discriminate].
    destruct (truthy (Urllib.scheme p) && truthy (Urllib.netloc p)) eqn:Ht;
      [|discriminate].
    intros [= <-]. rewrite Hp, Ht. reflexivity.
  - destruct (Urllib.urlparse ("https://" +:+ url)) as [p|e] eqn:Hp; [|discriminate].
    destruct (truthy (Urllib.scheme p) && truthy (Urllib.netloc p)) eqn:Ht;
      [|discriminate].
    intros [= <-]. rewrite Hp, Ht. reflexivity.
Qed.

End ValidateUrl.

(** C2 as the claim has it fails at the input ":8080": it has no
    prefix, the validator returns it with "https://" in front, and the
    URL returned has a netloc, the port, but no host. *)
Lemma validate_url_accepts_empty_host :
  has_http_prefix ":8080" = false
  /\ @validate_url sample_platform ":8080" = Ok (Some "https://:8080")
  /\ exists parsed,
       @Urllib.urlparse sample_platform "https://:8080" = Ok parsed
       /\ Urllib.scheme parsed = "https"
       /\ Urllib.netloc parsed = ":8080"
       /\ Urllib.hostname parsed = None.
Proof.
  split; [reflexivity|]. split; [reflexivity|].
  eexists. split; [reflexivity|]. repeat split.
Qed.

(** A netloc that is user information only has no host either, and a
    netloc with a host has one. *)
Lemma hostname_samples :
  Urllib.hostname {| Urllib.scheme := "https"; Urllib.netloc := "user:pw@";
                     Urllib.rest := "" |} = None
  /\ Urllib.hostname {| Urllib.scheme := "https"; Urllib.netloc := "user@Example.COM:8080";
                        Urllib.rest := "" |} = Some "example.com"
  /\ Urllib.hostname {| Urllib.scheme := "https"; Urllib.netloc := "[FE80::1%Eth0]:80";
                        Urllib.rest := "" |} = Some "fe80::1%Eth0".
Proof. repeat split. Qed.

(** C10 at the input "example.com". *)
Lemma validate_url_idempotent_witness :
  @validate_url sample_platform "example.com" = Ok (Some "https://example.com")
  /\ @validate_url sample_platform "https://example.com" = Ok (Some "https://example.com").
Proof.
  split; [reflexivity|].
  apply (@validate_url_idempotent sample_platform "example.com"). reflexivity.
Defined.

(** ** The file-name stem *)

Section SanitizeFilename.
Context `{Platform}.

(** The stem is the netloc with every "www." removed and then every
    "." turned into "-". *)
Lemma sanitize_filename_unfold (url : string) (p : Urllib.ParseResult) :
  Urllib.urlparse url = Ok p ->
  sanitize_filename url =
    Ok (PyStr.replace "." "-" (PyStr.replace "www." "" (Urllib.netloc p))).
Proof. unfold sanitize_filename. intros ->. reflexivity. Qed.

Lemma sanitize_filename_leading_www :
  sanitize_filename "https://www.example.com/a.b" = Ok "example-com"
  /\ spec_stem "www.example.com" = "example-com".
Proof. split; reflexivity. Qed.

(** C1, at a host with "www." inside: the specification keeps an
    occurrence of "www." that is not a leading prefix, the code removes
    it. *)
Theorem sanitize_filename_inner_www :
  sanitize_filename "https://awww.example.com" = Ok "aexample-com"
  /\ spec_stem "awww.example.com" = "awww-example-com".
Proof. split; reflexivity. Qed.

End SanitizeFilename.

(** ** The menu *)

Section Menu.

Lemma key_event_other (key : string) :
  key_event key = Other key <->
  key <> "up" /\ key <> "down" /\ key <> "enter" /\ key <> "quit".
Proof.
  unfold key_event.
  destruct (String.eqb_spec key "up") as [->|]; [split; [discriminate|tauto]|].
  destruct (String.eqb_spec key "down") as [->|]; [split; [discriminate|tauto]|].
  destruct (String.eqb_spec key "enter") as [->|]; [split; [discriminate|tauto]|].
  destruct (String.eqb_spec key "quit") as [->|]; [split; [discriminate|tauto]|].
  tauto.
Qed.

(** The index stays inside the option list, whatever the list. *)
Lemma menu_step_in_range (opts : list string) (selected selected' : Z) (key : string) :
  0 <= selected < Z.of_nat (length opts) ->
  menu_step opts selected key = Browsing selected' ->
  0 <= selected' < Z.of_nat (length opts).
Proof.
  intros Hr. unfold menu_step.
  repeat match goal with
         | |- context [if ?b then _ else _] => destruct b
         end; intros [= <-]; try apply Z.mod_pos_bound; lia.
Qed.

(** What a key does to the index: Up and Down move it and wrap around at
    both ends of the option list; every key other than Up, Down, Enter
    and Quit leaves it where it is, so only Up and Down change it. *)
Lemma menu_step_wraps (selected : Z) (key : string) :
  0 <= selected < Z.of_nat (length options) ->
  menu_step options selected "up" =
    Browsing (if selected =? 0 then Z.of_nat (length options) - 1 else selected - 1)
  /\ menu_step options selected "down" =
    Browsing (if selected =? Z.of_nat (length options) - 1 then 0 else selected + 1)
  /\ (key_event key = Other key -> menu_step options selected key = Browsing selected)
  /\ (forall selected', menu_step options selected key = Browsing selected' ->
        selected' <> selected -> key_event key = Up \/ key_event key = Down)
  /\ (forall selected', menu_step options selected key = Browsing selected' ->
        0 <= selected' < Z.of_nat (length options)).
Proof.
  intros Hr. repeat split.
  - unfold menu_step. simpl String.eqb. cbv iota. f_equal.
    destruct (Z.eqb_spec selected 0) as [->|Hne]; [reflexivity|].
    apply Z.mod_small. lia.
  - unfold menu_step. simpl String.eqb. cbv iota. f_equal.
    destruct (Z.eqb_spec selected (Z.of_nat (length options) - 1)) as [->|Hne];
      [reflexivity|].
    apply Z.mod_small. lia.
  - intros Ho. apply key_event_other in Ho as (Hu & Hd & He & Hq).
    unfold menu_step.
    destruct (String.eqb_spec key "up"); [contradiction|].
    destruct (String.eqb_spec key "down"); [contradiction|].
    destruct (String.eqb_spec key "enter"); [contradiction|].
    destruct (String.eqb_spec key "quit"); [contradiction|].
    reflexivity.
  - intros s'. unfold menu_step, key_event.
    destruct (String.eqb key "up"); [auto|].
    destruct (String.eqb key "down"); [auto|].
    destruct (String.eqb key "enter").
    { destruct (selected =? 4); discriminate. }
    destruct (String.eqb key "quit"); [discriminate|].
    intros [= <-] Hne. contradiction.
  - apply (menu_step_in_range options selected _ key Hr H).
  - apply (menu_step_in_range options selected _ key Hr H).
Qed.

End Menu.


(** ** The keypress reader *)

Section GetKey.
Import PyStr.

(** In raw mode the reader returns a key and never raises. *)
Lemma read_key_returns (w : World) :
  exists key w', read_key w = (Ok key, w').
Proof.
  unfold read_key, bind, setraw, stdin_read.
  repeat match goal with
         | |- context [if ?b then _ else _] => destruct b
         end; unfold ret; eauto.
Qed.

(** X16: get_key leaves the terminal in the mode it found it in, on a
    terminal and in the fallback for other inputs alike. *)
Lemma get_key_restores_tty (w : World) :
  tty_raw (world_after get_key w) = tty_raw w.
Proof.
  destruct w as [e t s r o f].
  unfold world_after, get_key, try_except, bind, tcgetattr.
  cbn [env stdin stdin_isatty]. destruct (stdin_isatty e); [destruct (truthy s)|].
  - unfold try_finally, tcsetattr.
    destruct (read_key_returns {| env := e; time := t; stdin := s; tty_raw := r;
                                  stdout := o; files := f |}) as (k & w' & ->).
    reflexivity.
  - cbn [dispatch any_exception]. unfold bind, input. cbn [stdin set_stdout].
    destruct s; reflexivity.
  - cbn [dispatch any_exception]. unfold bind, input. cbn [stdin set_stdout].
    destruct s; reflexivity.
Qed.

Lemma get_key_sequence (w : World) (sequence rest key : string) :
  stdin_isatty (env w) = true ->
  sequence <> "" ->
  stdin w = sequence +:+ rest ->
  (forall w', stdin w' = sequence +:+ rest -> (read_key w').1 = Ok key) ->
  value_of get_key w = Ok key.
Proof.
  intros Ht Hne Hs Hk.
  unfold value_of, get_key, try_except, bind, tcgetattr. rewrite Ht.
  assert (Hin : truthy (stdin w) = true).
  { rewrite Hs. destruct sequence; [congruence|reflexivity]. }
  rewrite Hin.
  unfold try_finally, tcsetattr.
  specialize (Hk w Hs).
  destruct (read_key w) as [[k|ex] w']; simpl in *; congruence.
Qed.

Lemma get_key_plain (w : World) (c : ascii) (rest : string) :
  stdin_isatty (env w) = true ->
  stdin w = String c rest ->
  String c "" <> Colors.ESC -> String c "" <> CR ->
  String c "" <> NL -> String c "" <> CTRL_C ->
  value_of get_key w = Ok (String c "").
Proof.
  destruct w as [e t s r o f]; simpl. intros Ht -> H1 H2 H3 H4.
  apply String.eqb_neq in H1, H2, H3, H4.
  unfold value_of, get_key, try_except, bind, tcgetattr.
  cbn [env stdin stdin_isatty]. rewrite Ht. cbn [truthy String.eqb negb].
  unfold try_finally, read_key, bind, setraw, stdin_read.
  cbn [stdin set_tty_raw set_stdin take env tty_raw fst snd].
  rewrite H1, H2, H3, H4. reflexivity.
Qed.

Lemma get_key_fallback (w : World) :
  stdin_isatty (env w) = false ->
  stdin w <> "" ->
  value_of get_key w = Ok (strip (first_line (stdin w))).
Proof.
  destruct w as [e t s r o f]; simpl. intros Ht Hs.
  unfold value_of, get_key, try_except, bind, tcgetattr.
  cbn [env stdin_isatty]. rewrite Ht.
  cbn [dispatch any_exception]. unfold bind, input. cbn [stdin set_stdout].
  destruct s; [congruence|]. reflexivity.
Qed.

(** X18: Without a terminal and at the end of the input, get_key raises
    EOFError: the input() of the fallback fails and nothing catches it. *)
Lemma get_key_fallback_eof (w : World) :
  stdin_isatty (env w) = false ->
  stdin w = "" ->
  exists e, value_of get_key w = Raise e /\ exn_cls e = EOFError.
Proof.
  destruct w as [e t s r o f]; simpl. intros Ht ->.
  unfold value_of, get_key, try_except, bind, tcgetattr.
  cbn [env stdin_isatty]. rewrite Ht. simpl. eauto.
Qed.

Lemma key_event_single (c : ascii) : key_event (String c "") = Other (String c "").
Proof.
  apply key_event_other. repeat split; discriminate.
Qed.

Lemma key_event_words (key : string) :
  (key_event key = Up <-> key = "up")
  /\ (key_event key = Down <-> key = "down")
  /\ (key_event key = Enter <-> key = "enter")
  /\ (key_event key = Quit <-> key = "quit").
Proof.
  unfold key_event.
  destruct (String.eqb_spec key "up") as [->|];
    [repeat split; (discriminate || reflexivity)|].
  destruct (String.eqb_spec key "down") as [->|];
    [repeat split; (discriminate || reflexivity)|].
  destruct (String.eqb_spec key "enter") as [->|];
    [repeat split; (discriminate || reflexivity)|].
  destruct (String.eqb_spec key "quit") as [->|];
    [repeat split; (discriminate || reflexivity)|].
  repeat split; (discriminate || contradiction).
Qed.

(** C3, as the code has it.  On a terminal: ESC [ A is Up, ESC [ B is
    Down, carriage return and newline are Enter, 0x03 is Quit, and any
    other single character is returned as it is, an Other event.
    Without a terminal the reader returns the next input line, stripped
    of surrounding white space, as the key itself: the line is one of
    the four events only if it is the word up, down, enter or quit, and
    an empty line is an Other event. *)
Theorem get_key_events (w : World) :
  (stdin_isatty (env w) = true ->
     (forall rest, stdin w = KEY_UP +:+ rest -> value_of get_key w = Ok "up")
     /\ (forall rest, stdin w = KEY_DOWN +:+ rest -> value_of get_key w = Ok "down")
     /\ (forall rest, stdin w = CR +:+ rest \/ stdin w = NL +:+ rest ->
           value_of get_key w = Ok "enter")
     /\ (forall rest, stdin w = CTRL_C +:+ rest -> value_of get_key w = Ok "quit")
     /\ (forall c rest, stdin w = String c rest ->
           String c "" <> Colors.ESC -> String c "" <> CR ->
           String c "" <> NL -> String c "" <> CTRL_C ->
           value_of get_key w = Ok (String c "")
           /\ key_event (String c "") = Other (String c "")))
  /\ (stdin_isatty (env w) = false -> stdin w <> "" ->
      let key := strip (first_line (stdin w)) in
      value_of get_key w = Ok key
      /\ (key_event key = Up <-> key = "up")
      /\ (key_event key = Down <-> key = "down")
      /\ (key_event key = Enter <-> key = "enter")
      /\ (key_event key = Quit <-> key = "quit")
      /\ (key = "" -> key_event key = Other "")).
Proof.
  split.
  - intros Ht. repeat split.
    + intros rest Hs. apply (get_key_sequence w KEY_UP rest); auto; try discriminate.
      intros [e t s r o f]; simpl; intros ->. reflexivity.
    + intros rest Hs. apply (get_key_sequence w KEY_DOWN rest); auto; try discriminate.
      intros [e t s r o f]; simpl; intros ->. reflexivity.
    + intros rest [Hs|Hs].
      * apply (get_key_sequence w CR rest); auto; try discriminate.
        intros [e t s r o f]; simpl; intros ->. reflexivity.
      * apply (get_key_sequence w NL rest); auto; try discriminate.
        intros [e t s r o f]; simpl; intros ->. reflexivity.
    + intros rest Hs. apply (get_key_sequence w CTRL_C rest); auto; try discriminate.
      intros [e t s r o f]; simpl; intros ->. reflexivity.
    + apply (get_key_plain w c rest); assumption.
    + apply key_event_single.
  - intros Ht Hs. cbv zeta. split; [apply get_key_fallback; assumption|].
    destruct (key_event_words (strip (first_line (stdin w)))) as (Hu & Hd & He & Hq).
    repeat split; try apply Hu; try apply Hd; try apply He; try apply Hq.
    intros ->. reflexivity.
Qed.

End GetKey.

(** C3 on a terminal that delivers ESC [ A, and on a pipe that delivers
    the line "up". *)
Lemma get_key_events_witness :
  (stdin_isatty (env (sample_world true ConvertWorks KEY_UP)) = true
   /\ value_of get_key (sample_world true ConvertWorks KEY_UP) = Ok "up")
  /\ (stdin_isatty (env (sample_world false ConvertWorks ("up" +:+ NL))) = false
      /\ stdin (sample_world false ConvertWorks ("up" +:+ NL)) <> ""
      /\ value_of get_key (sample_world false ConvertWorks ("up" +:+ NL)) = Ok "up").
Proof.
  split.
  - split; [reflexivity|].
    apply (proj1 (proj1 (get_key_events (sample_world true ConvertWorks KEY_UP)) eq_refl) "").
    reflexivity.
  - split; [reflexivity|]. split; [discriminate|].
    apply (proj1 (proj2 (get_key_events (sample_world false ConvertWorks ("up" +:+ NL)))
                    eq_refl ltac:(discriminate))).
Defined.

(** C3 as the specification words it fails on a bare line read without
    a terminal: the specification makes it Enter, the reader returns the
    empty key, which the menu ignores. *)
Lemma get_key_bare_line_is_not_enter :
  ~ (forall w key,
       stdin_isatty (env w) = false ->
       value_of get_key w = Ok key ->
       key_event key = spec_line_event (first_line (stdin w))).
Proof.
  intros Hclaim.
  specialize (Hclaim (sample_world false ConvertWorks NL) "" eq_refl eq_refl).
  discriminate Hclaim.
Qed.

(** ** Running monadic code *)

Section MonadFacts.

Lemma set_stdout_stdout (o : list string) (w : World) :
  stdout (set_stdout o w) = o.
Proof. reflexivity. Qed.

Lemma set_stdout_twice (o1 o2 : list string) (w : World) :
  set_stdout o2 (set_stdout o1 w) = set_stdout o2 w.
Proof. reflexivity. Qed.

Lemma set_stdout_same (w : World) : set_stdout (stdout w ++ []) w = w.
Proof. destruct w. unfold set_stdout. simpl. rewrite app_nil_r. reflexivity. Qed.

Lemma bind_ret {A B} (a : A) (k : A -> M B) (w : World) :
  bind (ret a) k w = k a w.
Proof. reflexivity. Qed.

Lemma bind_print {B} (text : string) (k : unit -> M B) (w : World) :
  bind (print text) k w = k tt (set_stdout (stdout w ++ [text]) w).
Proof. reflexivity. Qed.

Lemma bind_get {A B} (f : World -> A) (k : A -> M B) (w : World) :
  bind (get f) k w = k (f w) w.
Proof. reflexivity. Qed.

Lemma bind_assoc {A B C} (c : M A) (k : A -> M B) (h : B -> M C) (w : World) :
  bind (bind c k) h w = bind c (fun a => bind (k a) h) w.
Proof.
  unfold bind. destruct (c w) as [[a|e] w1]; reflexivity.
Qed.

Lemma bind_ok {A B} (c : M A) (k : A -> M B) (w w1 : World) (a : A) :
  c w = (Ok a, w1) -> bind c k w = k a w1.
Proof. unfold bind. intros ->. reflexivity. Qed.

Lemma bind_raise {A B} (c : M A) (k : A -> M B) (w w1 : World) (e : exn) :
  c w = (Raise e, w1) -> bind c k w = (Raise e, w1).
Proof. unfold bind. intros ->. reflexivity. Qed.

Lemma bind_ok_inv {A B} (c : M A) (k : A -> M B) (w w' : World) (b : B) :
  bind c k w = (Ok b, w') ->
  exists a w1, c w = (Ok a, w1) /\ k a w1 = (Ok b, w').
Proof.
  unfold bind. destruct (c w) as [[a|e] w1]; [eauto | discriminate].
Qed.

Lemma input_ok_inv (prompt line : string) (w w' : World) :
  input prompt w = (Ok line, w') ->
  stdin w <> "" /\ line = first_line (stdin w)
  /\ w' = set_stdin (after_line (stdin w)) (set_stdout (stdout w ++ [prompt]) w).
Proof.
  unfold input. cbn [stdin set_stdout].
  destruct (stdin w) eqn:Hs; [discriminate|].
  intros [= <- <-]. repeat split. discriminate.
Qed.

Lemma value_of_ok_inv {A} (c : M A) (w : World) (a : A) :
  value_of c w = Ok a -> exists w', c w = (Ok a, w').
Proof. unfold value_of. destruct (c w) as [r w']. simpl. intros ->. eauto. Qed.

Lemma printed_app {A} (c : M A) (w : World) (lines : list string) :
  stdout (world_after c w) = stdout w ++ lines -> printed c w = lines.
Proof. unfold printed. intros ->. apply drop_app_length. Qed.

End MonadFacts.

(** Splits a run that ended well into the runs of its steps, dropping
    what the steps were. *)
Ltac bind_inv H :=
  repeat (apply bind_ok_inv in H as (? & ? & _ & H)).

(** ** Width lists *)

Section Widths.
Import PyStr.

(** [PRESETS] is the table of the specification. *)
Lemma PRESETS_lookup (name : string) : PRESETS !! name = spec_preset name.
Proof.
  unfold spec_preset.
  repeat match goal with
         | |- context [String.eqb name ?s] =>
             destruct (String.eqb_spec name s) as [->|]; [reflexivity|]
         end.
  apply not_elem_of_list_to_map_1. cbn.
  rewrite !not_elem_of_cons. repeat split; auto. apply not_elem_of_nil.
Qed.

Lemma spec_preset_positive (name : string) (width : Z) :
  spec_preset name = Some width -> 0 < width.
Proof.
  unfold spec_preset.
  repeat match goal with
         | |- context [if ?b then _ else _] => destruct b; [intros [= <-]; lia|]
         end.
  discriminate.
Qed.

Lemma add_width_run (warning item : string) (widths : list Z) (w : World) :
  add_width warning widths item w =
    match spec_token_width (token item) with
    | Some width => (Ok (widths ++ [width]), w)
    | None => (Ok widths,
               set_stdout (stdout w ++ [warning_line (warning +:+ token item)]) w)
    end.
Proof.
  unfold add_width, spec_token_width. fold (token item).
  rewrite PRESETS_lookup.
  destruct (spec_preset (token item)) as [width|]; [reflexivity|].
  unfold try_except, bind, py_int.
  destruct (int (token item)) as [n|]; reflexivity.
Qed.

Lemma parse_widths_run (warning : string) (items : list string) (widths : list Z)
    (w : World) :
  parse_widths warning items widths w =
    (Ok (widths ++ (spec_widths (map token items)).1),
     set_stdout (stdout w ++ map (fun t => warning_line (warning +:+ t))
                                 (spec_widths (map token items)).2) w).
Proof.
  revert widths w. induction items as [|item items IH]; intros widths w.
  - simpl. rewrite app_nil_r, set_stdout_same. reflexivity.
  - cbn [parse_widths map spec_widths].
    unfold bind. rewrite add_width_run.
    destruct (spec_widths (map token items)) as [ws sk] eqn:Hsp.
    destruct (spec_token_width (token item)) as [width|].
    + rewrite IH. cbn [fst snd]. rewrite <- app_assoc. reflexivity.
    + rewrite IH. cbn [fst snd map].
      rewrite set_stdout_twice, set_stdout_stdout, <- app_assoc. reflexivity.
Qed.

End Widths.

Section WidthPaths.
Import PyStr.

Lemma print_presets_run (items : list (string * Z)) (w : World) :
  exists lines, print_presets items w = (Ok tt, set_stdout (stdout w ++ lines) w).
Proof.
  revert w. induction items as [|[name width] items IH]; intros w.
  - exists []. simpl. rewrite set_stdout_same. reflexivity.
  - cbn [print_presets]. rewrite bind_print.
    destruct (IH (set_stdout (stdout w ++ ["  " +:+ name +:+ ": " +:+ str width +:+ "px"]) w))
      as [lines ->].
    eexists. rewrite set_stdout_twice, set_stdout_stdout, <- app_assoc. reflexivity.
Qed.

Lemma cli_widths_run (arg : option string) (w : World) :
  cli_widths arg w =
    (Ok (match (spec_widths (cli_tokens arg)).1 with
         | [] => [1920]
         | widths => widths
         end),
     set_stdout
       (stdout w ++ map (fun t => warning_line ("Skipping invalid width: " +:+ t))
                        (spec_widths (cli_tokens arg)).2) w).
Proof.
  unfold cli_widths, cli_tokens.
  destruct arg as [list_text|].
  - destruct (truthy list_text).
    + unfold bind at 1. rewrite parse_widths_run. cbn [app].
      destruct (spec_widths _) as [[|width widths] skipped]; reflexivity.
    + simpl. rewrite set_stdout_same. reflexivity.
  - simpl. rewrite set_stdout_same. reflexivity.
Qed.

(** C8: the command-line width list is parsed token by token: a preset
    name gives its width from the table of the specification, which is
    the table [PRESETS] of the program, an integer literal gives its
    value, any other token is skipped with one warning and nothing else
    happens; an empty result is replaced by the single width 1920. *)
Theorem cli_widths_spec (arg : option string) (w : World) :
  (forall name, PRESETS !! name = spec_preset name)
  /\ value_of (cli_widths arg) w =
       Ok (match (spec_widths (cli_tokens arg)).1 with
           | [] => [1920]
           | widths => widths
           end)
  /\ printed (cli_widths arg) w =
       map (fun t => warning_line ("Skipping invalid width: " +:+ t))
           (spec_widths (cli_tokens arg)).2.
Proof.
  split; [exact PRESETS_lookup|]. split.
  - unfold value_of. rewrite cli_widths_run. reflexivity.
  - apply printed_app. unfold world_after. rewrite cli_widths_run. reflexivity.
Qed.

Lemma spec_widths_positive (tokens : list string) :
  literals_positive tokens -> Forall (Z.lt 0) (spec_widths tokens).1.
Proof.
  induction tokens as [|t tokens IH]; intros Hpos; [constructor|].
  assert (Hrest : literals_positive tokens).
  { intros t' n Hin. apply Hpos. right. exact Hin. }
  specialize (IH Hrest). cbn [spec_widths].
  destruct (spec_widths tokens) as [widths skipped].
  unfold spec_token_width.
  destruct (spec_preset t) as [width|] eqn:Hp.
  - constructor; [eapply spec_preset_positive; eauto | exact IH].
  - destruct (int t) as [n|] eqn:Hi; [|exact IH].
    constructor; [|exact IH]. apply (Hpos t n); [left|exact Hi].
Qed.

Lemma custom_widths_positive (items : list string) (w w' : World) (widths : list Z) :
  custom_widths items w = (Ok widths, w') ->
  literals_positive (map strip items) ->
  Forall (Z.lt 0) widths.
Proof.
  revert w w' widths. induction items as [|item items IH]; intros w w' widths Hr Hpos.
  - injection Hr as <- _. constructor.
  - cbn [custom_widths] in Hr.
    apply bind_ok_inv in Hr as (n & w1 & Hn & Hr).
    apply bind_ok_inv in Hr as (ws & w2 & Hws & Hr).
    injection Hr as <- _.
    unfold py_int in Hn. destruct (int (strip item)) as [m|] eqn:Hi; [|discriminate].
    injection Hn as <- _.
    constructor.
    + apply (Hpos (strip item) m); [left|exact Hi].
    + apply (IH _ _ _ Hws). intros t k Hin. apply Hpos. right. exact Hin.
Qed.

Lemma advanced_request_widths (url : string) (w : World) (r : Request) :
  value_of (advanced_request url) w = Ok (Some r) ->
  req_url r = url
  /\ req_widths r =
     (spec_widths (map token (split "," (strip (first_line (stdin w)))))).1.
Proof.
  intros Hv. apply value_of_ok_inv in Hv as [w' Hv].
  unfold advanced_request in Hv.
  rewrite bind_print in Hv.
  destruct (print_presets_run presets_by_width
              (set_stdout (stdout w ++ [cyan "Width presets:"]) w)) as [lines Hp].
  rewrite (bind_ok _ _ _ _ _ Hp) in Hv. clear Hp.
  rewrite bind_print in Hv.
  apply bind_ok_inv in Hv as (line & w1 & Hin & Hv).
  apply input_ok_inv in Hin as (_ & -> & ->).
  cbn [stdin set_stdout] in Hv.
  unfold bind at 1 in Hv. rewrite parse_widths_run in Hv. cbn [app] in Hv.
  destruct (spec_widths _) as [[|width widths] skipped].
  - bind_inv Hv. discriminate Hv.
  - bind_inv Hv. injection Hv as <- _. split; reflexivity.
Qed.

Lemma menu_request_widths (url : string) (choice : Z) (w : World) (r : Request) :
  value_of (menu_request url choice) w = Ok (Some r) ->
  literals_positive (map strip (split "," (strip (first_line (stdin w))))) ->
  Forall (Z.lt 0) (req_widths r).
Proof.
  intros Hv Hpos. apply value_of_ok_inv in Hv as [w' Hv].
  unfold menu_request in Hv.
  apply bind_ok_inv in Hv as (widths & w1 & Hw & Hv).
  destruct widths as [widths|]; [|discriminate].
  bind_inv Hv. injection Hv as <- _. cbn [req_widths].
  unfold menu_widths in Hw.
  destruct (choice =? 0).
  { injection Hw as <- _. repeat constructor. }
  destruct (choice =? 1).
  { injection Hw as <- _. repeat constructor. }
  destruct (choice =? 2); [|injection Hw as <- _; constructor].
  rewrite bind_print in Hw.
  apply bind_ok_inv in Hw as (line & w2 & Hin & Hw).
  apply input_ok_inv in Hin as (_ & -> & ->).
  cbn [stdin set_stdout] in Hw.
  unfold try_except, bind in Hw.
  destruct (custom_widths _ _) as [[ws|e] w3] eqn:Hc.
  - injection Hw as <- _. eapply custom_widths_positive; eauto.
  - cbn [dispatch any_exception] in Hw. bind_inv Hw. discriminate Hw.
Qed.

End WidthPaths.

(** ** Widths of a request *)

Section RequestWidths.
Context `{Platform}.
Import PyStr.

Lemma cli_request_widths (url : string) (args : Args) (w : World) (r : Request) :
  value_of (cli_request url args) w = Ok r ->
  req_widths r = match (spec_widths (cli_tokens (arg_widths args))).1 with
                 | [] => [1920]
                 | widths => widths
                 end.
Proof.
  intros Hv. apply value_of_ok_inv in Hv as [w' Hv].
  unfold cli_request in Hv.
  apply bind_ok_inv in Hv as (valid & w1 & _ & Hv).
  destruct valid as [u|].
  - apply bind_ok_inv in Hv as (widths & w2 & Hw & Hv).
    rewrite cli_widths_run in Hw. injection Hw as <- _.
    bind_inv Hv. injection Hv as <- _. reflexivity.
  - bind_inv Hv. discriminate Hv.
Qed.

(** C5, as the code has it: the widths of a request are positive
    provided every integer literal that was supplied is positive.  No
    width-parsing path looks at the sign of a literal, so a literal that
    is zero or negative goes into the request as it is. *)
Theorem widths_positive_for_positive_literals :
  (forall url args w r,
      value_of (cli_request url args) w = Ok r ->
      literals_positive (cli_tokens (arg_widths args)) ->
      Forall (Z.lt 0) (req_widths r))
  /\ (forall url w r,
      value_of (advanced_request url) w = Ok (Some r) ->
      literals_positive (map token (split "," (strip (first_line (stdin w))))) ->
      Forall (Z.lt 0) (req_widths r))
  /\ (forall url choice w r,
      value_of (menu_request url choice) w = Ok (Some r) ->
      literals_positive (map strip (split "," (strip (first_line (stdin w))))) ->
      Forall (Z.lt 0) (req_widths r)).
Proof.
  repeat split.
  - intros url args w r Hv Hpos.
    rewrite (cli_request_widths _ _ _ _ Hv).
    pose proof (spec_widths_positive _ Hpos) as Hall.
    destruct (spec_widths _).1; [repeat constructor | exact Hall].
  - intros url w r Hv Hpos.
    destruct (advanced_request_widths _ _ _ Hv) as [_ ->].
    apply spec_widths_positive, Hpos.
  - intros url choice w r. apply menu_request_widths.
Qed.

End RequestWidths.

(** C5 on the command line [--widths mobile,800]. *)
Lemma widths_positive_witness :
  exists r,
    value_of (@cli_request sample_platform "https://example.com"
                (sample_args (Some "mobile,800") "png"))
             (sample_world false ConvertWorks "") = Ok r
    /\ literals_positive (cli_tokens (Some "mobile,800"))
    /\ Forall (Z.lt 0) (req_widths r).
Proof.
  assert (Hpos : literals_positive (cli_tokens (Some "mobile,800"))).
  { intros t n Hin Hi.
    change (cli_tokens (Some "mobile,800")) with ["mobile"; "800"] in Hin.
    apply elem_of_cons in Hin as [->|Hin]; [discriminate Hi|].
    apply elem_of_cons in Hin as [->|Hin]; [|inversion Hin].
    injection Hi as <-. reflexivity. }
  eexists. split; [vm_compute; reflexivity|]. split; [exact Hpos|].
  apply (proj1 (@widths_positive_for_positive_literals sample_platform)
           "https://example.com" (sample_args (Some "mobile,800") "png")
           (sample_world false ConvertWorks "") _ eq_refl Hpos).
Defined.

(** C5 as the specification words it fails on the command line
    [--widths 0,-5]: both literals go into the request. *)
Lemma cli_request_nonpositive_widths :
  exists r,
    value_of (@cli_request sample_platform "https://example.com"
                (sample_args (Some "0,-5") "png"))
             (sample_world false ConvertWorks "") = Ok r
    /\ req_widths r = [0; -5]
    /\ ~ Forall (Z.lt 0) (req_widths r).
Proof.
  eexists. split; [vm_compute; reflexivity|]. split; [reflexivity|].
  intros Hall. inversion Hall as [|? ? Hlt _]. discriminate Hlt.
Qed.

(** ** Formats *)

Section Formats.
Import PyStr.

Lemma cli_format_run (arg : string) (w : World) :
  cli_format arg w =
    if is_format (lower arg) then (Ok (lower arg), w)
    else (Ok "png",
          set_stdout (stdout w ++ [warning_line ("Invalid format: " +:+ arg
                                                 +:+ ", using png")]) w).
Proof. unfold cli_format. destruct (is_format (lower arg)); reflexivity. Qed.




End Formats.



(** The advanced prompt does not look at the format at all: the answer
    "gif" goes into the request. *)
Lemma advanced_request_keeps_format :
  exists r,
    value_of (advanced_request "https://example.com")
      (sample_world false ConvertWorks
         ("mobile" +:+ NL +:+ "gif" +:+ NL +:+ "n" +:+ NL +:+ NL +:+ "n" +:+ NL))
      = Ok (Some r)
    /\ req_format r = "gif".
Proof. eexists. split; vm_compute; reflexivity. Qed.

(** ** Batch capture *)

Section BatchCapture.
Context `{Platform}.
Import PyStr.

Lemma app_cons (c : ascii) (a b : string) : String c a +:+ b = String c (a +:+ b).
Proof. reflexivity. Qed.

Lemma app_empty_r (a : string) : a +:+ "" = a.
Proof. induction a as [|c a IH]; [reflexivity|]. rewrite app_cons, IH. reflexivity. Qed.

Lemma take_drop (i : nat) (s : string) : take i s +:+ drop i s = s.
Proof.
  revert s. induction i as [|i IH]; intros [|c s]; try reflexivity.
  cbn [take drop]. rewrite app_cons, IH. reflexivity.
Qed.

Lemma path_name_split (p : Path.t) : Path.name p = Path.stem p +:+ Path.suffix p.
Proof.
  unfold Path.stem, Path.suffix. destruct (Path.suffix_index (Path.name p)) as [i|].
  - symmetry. apply take_drop.
  - symmetry. apply app_empty_r.
Qed.

Lemma string_app_inv_head (a b c : string) : a +:+ b = a +:+ c -> b = c.
Proof. apply String.app_inj. Qed.

Lemma temp_png_differs (p : Path.t) :
  has_webp_suffix p = true ->
  Path.to_str (Path.with_suffix ".png" p) <> Path.to_str p.
Proof.
  unfold has_webp_suffix, Path.to_str, Path.with_suffix. cbn [Path.parent Path.name].
  intros Hs Heq. apply string_app_inv_head in Heq.
  apply (string_app_inv_head "/") in Heq.
  rewrite (path_name_split p) in Heq. apply string_app_inv_head in Heq.
  rewrite <- Heq in Hs. discriminate Hs.
Qed.


Lemma try_except_ok {A} (body : M A) (clauses : list (clause A)) (w w' : World) (a : A) :
  body w = (Ok a, w') -> try_except body clauses w = (Ok a, w').
Proof. unfold try_except. intros ->. reflexivity. Qed.

Lemma try_except_raise {A} (body : M A) (clauses : list (clause A)) (w w' : World) (x : exn) :
  body w = (Raise x, w') -> try_except body clauses w = dispatch clauses x w'.
Proof. unfold try_except. intros ->. reflexivity. Qed.

Lemma env_call_cases (fault : Env -> nat -> option exn) (w : World) :
  env_call fault w =
    match fault (env w) (time w) with
    | Some x => (Raise x, set_time (S (time w)) w)
    | None => (Ok tt, set_time (S (time w)) w)
    end.
Proof. unfold env_call, bind, tick. cbn. destruct (fault _ _); reflexivity. Qed.

Lemma navigate_run headless width dark url wait (w : World) :
  navigate headless width dark url wait w = (Ok tt, set_time (S (time w)) w)
  \/ (exists x, (goto_error (env w) (time w) = Some x \/ exn_cls x = ValueError)
               /\ navigate headless width dark url wait w = (Raise x, set_time (S (time w)) w)).
Proof.
  unfold navigate, open_page.
  destruct (String.eqb wait "networkidle"); [|destruct (String.eqb wait "load")].
  - rewrite env_call_cases. destruct (goto_error _ _) as [x|]; [right; eauto|left; reflexivity].
  - rewrite env_call_cases. destruct (goto_error _ _) as [x|]; [right; eauto|left; reflexivity].
  - unfold bind. rewrite env_call_cases. destruct (goto_error _ _) as [x|]; [right; eauto|].
    unfold py_int. destruct (int wait); [left; reflexivity|].
    right. eexists. split; [right|reflexivity]. reflexivity.
Qed.

Lemma page_screenshot_run (p : Path.t) (w : World) :
  page_screenshot p w =
    match screenshot_error (env w) (time w) with
    | Some x => (Raise x, set_time (S (time w)) w)
    | None => (Ok tt, set_files (<[Path.to_str p := image_size (env w) (Path.to_str p)]> (files w))
                        (set_time (S (time w)) w))
    end.
Proof.
  unfold page_screenshot, bind. rewrite env_call_cases.
  destruct (screenshot_error _ _); reflexivity.
Qed.

Lemma import_run (w : World) :
  try_except (import_playwright ;; ret true)
    [ (is_class ImportError, fun _ => playwright_missing) ] w =
  if playwright_installed (env w) then (Ok true, w)
  else (Ok false,
        set_stdout (stdout w ++ [error_line "Playwright not installed. Run: cd webcapture && ./install.sh"]) w).
Proof.
  unfold try_except, bind, import_playwright.
  destruct (playwright_installed (env w)); reflexivity.
Qed.

Lemma screenshot_failed_run (x : exn) (w : World) :
  screenshot_failed x w =
    (Ok false, set_stdout (stdout w ++ [error_line ("Screenshot failed: " +:+ exn_msg x)]) w).
Proof. reflexivity. Qed.

(** A conversion that works leaves the WebP file and removes the PNG. *)
Lemma convert_works (png webp : Path.t) (w : World) (n : Z) :
  convert_tool (env w) (time w) = ConvertWorks ->
  files w !! Path.to_str png = Some n ->
  _convert_to_webp png webp w =
    (Ok tt, set_files (delete (Path.to_str png)
                         (<[Path.to_str webp := image_size (env w) (Path.to_str webp)]> (files w)))
              (set_time (S (time w)) w)).
Proof.
  intros Hc Hf. unfold _convert_to_webp, run_convert, try_except, bind, tick.
  cbn [time set_time env files]. rewrite Hc, Hf.
  unfold unlink. cbn [files set_files].
  destruct (decide (Path.to_str webp = Path.to_str png)) as [->|Hne].
  - rewrite lookup_insert_eq. reflexivity.
  - rewrite lookup_insert_ne, Hf by exact Hne. reflexivity.
Qed.

(** A conversion that does not work keeps the PNG and says so. *)
Lemma convert_fails (png webp : Path.t) (w : World) :
  convert_tool (env w) (time w) <> ConvertWorks ->
  exists message,
    _convert_to_webp png webp w =
      (Ok tt, set_stdout (stdout w ++ [error_line message;
                                      info_line ("Keeping PNG file: " +:+ Path.name png)])
                (set_time (S (time w)) w)).
Proof.
  intros Hc. unfold _convert_to_webp, run_convert, try_except, bind, tick.
  cbn [time set_time env files].
  destruct (convert_tool (env w) (time w)); [congruence| |]; cbn; eexists.
  all: unfold print_info, print; rewrite set_stdout_twice, set_stdout_stdout, <- app_assoc;
    reflexivity.
Qed.


(** Screenshot and cleanup of the batch branch: done, with the output
    file on disk, or left by an exception of the environment; nothing is
    printed. *)
Lemma shoot_and_close (p : Path.t) (w : World) :
  faults_are_exceptions (env w) ->
  (has_webp_suffix p = true -> forall n, convert_tool (env w) n = ConvertWorks) ->
  exists r w',
    bind (screenshot_to (has_webp_suffix p) p)
      (fun _ => bind close_browser (fun _ => ret true)) w = (r, w')
    /\ env w' = env w /\ stdout w' = stdout w
    /\ ((r = Ok true /\ is_Some (files w' !! Path.to_str p))
        \/ (exists x, r = Raise x /\ is_Exception x = true)).
Proof.
  intros Hx Hc. unfold screenshot_to.
  destruct (has_webp_suffix p) eqn:Hw.
  - specialize (Hc eq_refl).
    pose proof (page_screenshot_run (Path.with_suffix ".png" p) w) as Hs.
    destruct (screenshot_error (env w) (time w)) as [x|] eqn:Hse.
    { rewrite bind_assoc, (bind_raise _ _ _ _ _ Hs).
      do 2 eexists. split; [reflexivity|]. split; [reflexivity|]. split; [reflexivity|].
      right. exists x. split; [reflexivity|]. apply (Hx (time w)). auto. }
    rewrite bind_assoc, (bind_ok _ _ _ _ _ Hs).
    match goal with
    | |- context [bind (_convert_to_webp ?png ?webp) _ ?w1] =>
        rewrite (bind_ok _ _ _ _ _
                   (convert_works png webp w1 _ (Hc _) (lookup_insert_eq _ _ _)))
    end.
    unfold close_browser, bind. rewrite env_call_cases.
    cbn [env set_files set_time time files].
    destruct (close_error (env w) (S (S (time w)))) as [x|] eqn:Hcl.
    { do 2 eexists. split; [reflexivity|]. split; [reflexivity|]. split; [reflexivity|].
      right. exists x. split; [reflexivity|]. apply (Hx (S (S (time w)))). auto. }
    do 2 eexists. split; [reflexivity|]. split; [reflexivity|]. split; [reflexivity|].
    left. split; [reflexivity|]. cbn [files set_files set_time].
    rewrite lookup_delete_ne by (apply temp_png_differs, Hw).
    rewrite lookup_insert_eq. eauto.
  - pose proof (page_screenshot_run p w) as Hs.
    destruct (screenshot_error (env w) (time w)) as [x|] eqn:Hse.
    { rewrite (bind_raise _ _ _ _ _ Hs).
      do 2 eexists. split; [reflexivity|]. split; [reflexivity|]. split; [reflexivity|].
      right. exists x. split; [reflexivity|]. apply (Hx (time w)). auto. }
    rewrite (bind_ok _ _ _ _ _ Hs).
    unfold close_browser, bind. rewrite env_call_cases.
    cbn [env set_files set_time time files].
    destruct (close_error (env w) (S (time w))) as [x|] eqn:Hcl.
    { do 2 eexists. split; [reflexivity|]. split; [reflexivity|]. split; [reflexivity|].
      right. exists x. split; [reflexivity|]. apply (Hx (S (time w))). auto. }
    do 2 eexists. split; [reflexivity|]. split; [reflexivity|]. split; [reflexivity|].
    left. split; [reflexivity|]. cbn [files set_files set_time].
    rewrite lookup_insert_eq. eauto.
Qed.

(** A capture of the batch loop ends with [True] and the output file on
    disk, having printed nothing, or with [False], having printed one
    line that tells why; it never ends with an exception. *)
Lemma capture_screenshot_batch url width p dark wait w :
  faults_are_exceptions (env w) ->
  (has_webp_suffix p = true -> forall n, convert_tool (env w) n = ConvertWorks) ->
  exists captured w',
    capture_screenshot url width p dark wait false w = (Ok captured, w')
    /\ env w' = env w
    /\ ((captured = true /\ stdout w' = stdout w /\ is_Some (files w' !! Path.to_str p))
        \/ (captured = false /\ exists reason, stdout w' = stdout w ++ [error_line reason])).
Proof.
  intros Hx Hc. unfold capture_screenshot.
  pose proof (import_run w) as Hi.
  destruct (playwright_installed (env w)); rewrite (bind_ok _ _ _ _ _ Hi); cbn [negb].
  2:{ do 2 eexists. split; [reflexivity|]. split; [reflexivity|].
      right. split; [reflexivity|]. eexists. reflexivity. }
  destruct (navigate_run true width dark url wait w) as [Hn|(x & Hxx & Hn)].
  2:{ rewrite (try_except_raise _ _ _ _ _ (bind_raise _ _ _ _ _ Hn)).
      cbn [dispatch].
      assert (Hex : is_Exception x = true).
      { destruct Hxx as [Hg|Hv]; [apply (Hx (time w)); auto|].
        unfold is_Exception. rewrite Hv. reflexivity. }
      rewrite Hex, screenshot_failed_run.
      do 2 eexists. split; [reflexivity|]. split; [reflexivity|].
      right. split; [reflexivity|]. eexists. reflexivity. }
  destruct (shoot_and_close p (set_time (S (time w)) w) Hx Hc)
    as (r & w' & Hr & He & Ho & [[-> Hf]|(x & -> & Hex)]).
  - rewrite (try_except_ok _ _ _ _ _ (eq_trans (bind_ok _ _ _ _ _ Hn) Hr)).
    do 2 eexists. split; [reflexivity|]. split; [exact He|].
    left. split; [reflexivity|]. split; [exact Ho|exact Hf].
  - rewrite (try_except_raise _ _ _ _ _ (eq_trans (bind_ok _ _ _ _ _ Hn) Hr)).
    cbn [dispatch]. rewrite Hex, screenshot_failed_run.
    do 2 eexists. split; [reflexivity|]. split; [exact He|].
    right. split; [reflexivity|]. eexists. cbn [stdout set_stdout]. rewrite Ho. reflexivity.
Qed.

Lemma length_app (a b : string) :
  String.length (a +:+ b) = (String.length a + String.length b)%nat.
Proof. induction a as [|c a IH]; [reflexivity|]. rewrite app_cons. simpl. rewrite IH. reflexivity. Qed.

Lemma str_app_assoc (a b c : string) : (a +:+ b) +:+ c = a +:+ (b +:+ c).
Proof. induction a as [|x a IH]; [reflexivity|]. rewrite !app_cons, IH. reflexivity. Qed.

Lemma drop_app (a b : string) : drop (String.length a) (a +:+ b) = b.
Proof. induction a as [|c a IH]; [reflexivity|]. rewrite app_cons. simpl. exact IH. Qed.

Lemma rfind_dot_app (a ext : string) :
  Path.rfind_dot ext = None ->
  Path.rfind_dot (a +:+ String "." ext) = Some (String.length a).
Proof.
  intros He. induction a as [|c a IH].
  - change ("" +:+ String "." ext) with (String "." ext). simpl. rewrite He. reflexivity.
  - rewrite app_cons. simpl. rewrite IH. reflexivity.
Qed.

(** The suffix of a file name that ends in a dot and a format *)
Lemma suffix_of_name (parent stem ext : string) :
  stem <> "" -> ext <> "" -> Path.rfind_dot ext = None ->
  Path.suffix {| Path.parent := parent; Path.name := stem +:+ "." +:+ ext |} = "." +:+ ext.
Proof.
  intros Hs He Hd. unfold Path.suffix, Path.suffix_index. cbn [Path.name].
  change (stem +:+ "." +:+ ext) with (stem +:+ String "." ext).
  rewrite (rfind_dot_app stem ext Hd), length_app.
  assert (Hn : (0 < String.length stem)%nat) by (destruct stem; [congruence|simpl; lia]).
  assert (Hm : (0 < String.length ext)%nat) by (destruct ext; [congruence|simpl; lia]).
  destruct (String.length stem) as [|i] eqn:Hi; [lia|].
  change (String.length (String "." ext)) with (S (String.length ext)).
  destruct (Nat.ltb_spec (S (S i)) (S i + S (String.length ext))) as [_|Hge]; [|lia].
  rewrite <- Hi. apply drop_app.
Qed.

Lemma contains_app (c : ascii) (a b : string) :
  contains c (a +:+ b) = contains c a || contains c b.
Proof.
  induction a as [|d a IH]; [reflexivity|].
  change (String d a +:+ b) with (String d (a +:+ b)). cbn [contains].
  destruct (Ascii.eqb c d); [reflexivity|exact IH].
Qed.

Lemma split_plain (sep : ascii) (s : string) :
  contains sep s = false -> split sep s = [s].
Proof.
  induction s as [|c s IH]; [reflexivity|].
  cbn [contains split]. rewrite (Ascii.eqb_sym c sep).
  destruct (Ascii.eqb sep c); [discriminate|].
  intros Hc. rewrite (IH Hc). reflexivity.
Qed.

Lemma joinpath_plain (dir : Path.t) (operand : string) :
  contains "/" operand = false ->
  operand <> "" -> operand <> "." ->
  Path.joinpath dir operand = {| Path.parent := Path.to_str dir; Path.name := operand |}.
Proof.
  intros Hc He Hd. unfold Path.joinpath, Path.segments.
  rewrite (split_plain _ _ Hc). cbn [List.filter].
  apply String.eqb_neq in He, Hd. rewrite He, Hd. cbn [orb negb rev app fold_left].
  assert (Hs : startswith "/" operand = false).
  { destruct operand as [|c r]; [reflexivity|].
    cbn [contains] in Hc. unfold startswith. cbn [String.prefix].
    destruct (Ascii.eqb_spec "/" c) as [->|Hne]; [discriminate|].
    destruct (Ascii.ascii_dec "/" c); [contradiction|reflexivity]. }
  rewrite Hs. reflexivity.
Qed.

Lemma span_until_fst (p : ascii -> bool) (c : ascii) (s : string) :
  p c = true -> contains c (fst (span_until p s)) = false.
Proof.
  intros Hp. induction s as [|d s IH]; [reflexivity|].
  cbn [span_until]. destruct (p d) eqn:Hd; [reflexivity|].
  destruct (span_until p s) as [a b]. cbn [fst contains] in *.
  destruct (Ascii.eqb_spec c d) as [->|_]; [congruence|exact IH].
Qed.

Lemma netloc_plain (url : string) (p : Urllib.ParseResult) :
  Urllib.urlparse url = Ok p -> contains "/" (Urllib.netloc p) = false.
Proof.
  unfold Urllib.urlparse, Urllib.urlsplit.
  destruct (Urllib.split_scheme _) as [sch rest].
  destruct (startswith "//" rest).
  - unfold Urllib.splitnetloc.
    pose proof (span_until_fst
                  (fun c => Ascii.eqb c "/" || Ascii.eqb c "?" || Ascii.eqb c "#")
                  "/" (drop 2 rest) eq_refl) as Hn.
    destruct (span_until _ (drop 2 rest)) as [nl more]. cbn [fst] in Hn.
    destruct (Urllib.check_brackets nl); [|discriminate].
    destruct (Urllib.checknetloc nl); [|discriminate].
    cbn [rbind]. intros [= <-]. exact Hn.
  - intros [= <-]. reflexivity.
Qed.

Lemma replace_go_plain (c : ascii) (old new : string) (skip : nat) (s : string) :
  contains c new = false -> contains c s = false ->
  contains c (replace_go old new skip s) = false.
Proof.
  intros Hn. revert skip. induction s as [|d s IH]; intros skip Hs; [reflexivity|].
  cbn [contains] in Hs. destruct (Ascii.eqb c d) eqn:Hd; [discriminate|].
  cbn [replace_go]. destruct skip as [|k]; [|apply IH, Hs].
  destruct (String.prefix old (String d s)).
  - rewrite contains_app, Hn. apply IH, Hs.
  - cbn [contains]. rewrite Hd. apply IH, Hs.
Qed.

Lemma stem_plain (url stem : string) :
  sanitize_filename url = Ok stem -> contains "/" stem = false.
Proof.
  unfold sanitize_filename. destruct (Urllib.urlparse url) as [p|e] eqn:Hp; [|discriminate].
  cbn [rbind]. intros [= <-].
  apply replace_go_plain; [reflexivity|].
  apply replace_go_plain; [reflexivity|].
  exact (netloc_plain url p Hp).
Qed.

Lemma pretty_N_go_plain (x : N) (s : string) :
  contains "/" s = false -> contains "/" (pretty_N_go x s) = false.
Proof.
  revert s. induction (N.lt_wf_0 x) as [x _ IH]; intros s Hs.
  assert (x = 0 \/ 0 < x)%N as [->|Hx] by lia.
  - rewrite pretty_N_go_0. exact Hs.
  - rewrite pretty_N_go_step by exact Hx. apply IH.
    + apply N.div_lt; [exact Hx|reflexivity].
    + assert (Hd : forall y, Ascii.eqb "/" (pretty_N_char y) = false).
      { intros y. unfold pretty_N_char. repeat case_match; reflexivity. }
      cbn [contains]. rewrite Hd. exact Hs.
Qed.

Lemma str_plain (n : Z) : contains "/" (str n) = false.
Proof.
  assert (HN : forall x : N, contains "/" (pretty x) = false).
  { intros x. unfold pretty, pretty_N. destruct (decide (x = 0%N)); [reflexivity|].
    apply pretty_N_go_plain. reflexivity. }
  unfold str, pretty, pretty_Z. destruct n as [|x|x]; [reflexivity|apply HN|].
  change ("-" +:+ pretty x) with (String "-" (pretty x)). cbn [contains].
  apply HN.
Qed.
(** The name of an output file is one path component. *)
Lemma output_name_plain (base stamp fmt : string) (width : Z) :
  contains "/" base = false -> contains "/" stamp = false ->
  contains "/" fmt = false ->
  let operand := base +:+ "_" +:+ str width +:+ "px_" +:+ stamp +:+ "." +:+ fmt in
  contains "/" operand = false /\ operand <> "" /\ operand <> ".".
Proof.
  intros Hb Hs Hf operand. split; [|split].
  - subst operand. rewrite !contains_app, Hb, Hs, Hf, str_plain. reflexivity.
  - intros He. apply (f_equal String.length) in He. subst operand.
    rewrite !length_app in He. simpl in He. lia.
  - intros He. apply (f_equal String.length) in He. subst operand.
    rewrite !length_app in He. simpl in He. lia.
Qed.

Lemma get_output_filename_plain (url stem fmt : string) (width : Z) (w : World) :
  sanitize_filename url = Ok stem ->
  contains "/" fmt = false ->
  get_output_filename url width fmt w =
    (Ok {| Path.parent := home (env w) +:+ "/Desktop";
           Path.name := stem +:+ "_" +:+ str width +:+ "px_"
                        +:+ clock (env w) (time w) +:+ "." +:+ fmt |},
     set_time (S (time w)) w).
Proof.
  intros Hs Hf. unfold get_output_filename, bind, lift, tick, get, ret.
  rewrite Hs. cbn [env time set_time].
  destruct (output_name_plain stem (clock (env w) (time w)) fmt width
              (stem_plain url stem Hs) (clock_plain (env w) (time w)) Hf)
    as (Hc & He & Hd).
  rewrite (joinpath_plain _ _ Hc He Hd). reflexivity.
Qed.

(** For a URL that parses, a path is returned whatever the format. *)
Lemma get_output_filename_ok (url : string) (p : Urllib.ParseResult) (width : Z)
    (fmt : string) (w : World) :
  Urllib.urlparse url = Ok p ->
  exists path, get_output_filename url width fmt w = (Ok path, set_time (S (time w)) w).
Proof.
  intros Hp. unfold get_output_filename, bind, lift, tick, get, ret.
  rewrite (sanitize_filename_unfold _ _ Hp). eauto.
Qed.

Lemma get_output_filename_run (url : string) (p : Urllib.ParseResult) (width : Z)
    (fmt : string) (w : World) :
  Urllib.urlparse url = Ok p ->
  contains "/" fmt = false ->
  exists stem,
    stem <> "" /\
    get_output_filename url width fmt w =
      (Ok {| Path.parent := home (env w) +:+ "/Desktop";
             Path.name := stem +:+ "." +:+ fmt |},
       set_time (S (time w)) w).
Proof.
  intros Hp Hf.
  set (base := PyStr.replace "." "-" (PyStr.replace "www." "" (Urllib.netloc p))).
  assert (Hs : sanitize_filename url = Ok base) by apply (sanitize_filename_unfold _ _ Hp).
  exists (base +:+ "_" +:+ str width +:+ "px_" +:+ clock (env w) (time w)).
  split.
  - intros He. apply (f_equal String.length) in He.
    rewrite !length_app in He. simpl in He. lia.
  - rewrite (get_output_filename_plain url base fmt width w Hs Hf).
    rewrite !str_app_assoc. reflexivity.
Qed.

Lemma is_format_plain (fmt : string) : is_format fmt = true -> contains "/" fmt = false.
Proof.
  unfold is_format.
  destruct (String.eqb_spec fmt "png") as [->|_]; [reflexivity|].
  destruct (String.eqb_spec fmt "jpeg") as [->|_]; [reflexivity|].
  destruct (String.eqb_spec fmt "webp") as [->|_]; [reflexivity|discriminate].
Qed.

Lemma format_suffix (fmt parent stem : string) :
  stem <> "" ->
  is_format fmt = true ->
  fmt <> "webp" ->
  has_webp_suffix {| Path.parent := parent; Path.name := stem +:+ "." +:+ fmt |} = false.
Proof.
  intros Hs Hf Hw. unfold is_format in Hf. unfold has_webp_suffix.
  destruct (String.eqb_spec fmt "png") as [->|_].
  { rewrite suffix_of_name by (try assumption; try discriminate; reflexivity). reflexivity. }
  destruct (String.eqb_spec fmt "jpeg") as [->|_].
  { rewrite suffix_of_name by (try assumption; try discriminate; reflexivity). reflexivity. }
  destruct (String.eqb_spec fmt "webp") as [->|_]; [congruence|discriminate].
Qed.

Lemma stat_size_run (p : Path.t) (w : World) (n : Z) :
  files w !! Path.to_str p = Some n -> stat_size p w = (Ok n, w).
Proof. unfold stat_size. intros ->. reflexivity. Qed.

Lemma capture_each_width_run (url : string) (parsed : Urllib.ParseResult)
    (fmt : string) (dark : bool) (wait : string) (e : Env) (widths : list Z) :
  Urllib.urlparse url = Ok parsed ->
  faults_are_exceptions e ->
  is_format fmt = true ->
  (fmt = "webp" -> forall n, convert_tool e n = ConvertWorks) ->
  forall (success_count : Z) (w : World),
    env w = e ->
    exists attempts w',
      capture_each_width url widths fmt dark wait success_count w
        = (Ok (success_count + count_saved attempts), w')
      /\ length attempts = length widths
      /\ env w' = e
      /\ stdout w' = stdout w ++ reports widths attempts.
Proof.
  intros Hu Hx Hf Hc.
  induction widths as [|width widths IH]; intros success_count w He.
  - exists [], w. cbn. rewrite Z.add_0_r, app_nil_r. auto.
  - cbn [capture_each_width].
    destruct (get_output_filename_run url parsed width fmt w Hu (is_format_plain fmt Hf)) as (stem & Hs & Hg).
    rewrite (bind_ok _ _ _ _ _ Hg). unfold print_info at 1. rewrite bind_print.
    set (path := {| Path.parent := _; Path.name := _ |}).
    set (w1 := set_stdout _ _).
    destruct (capture_screenshot_batch url width path dark wait w1) as
      (captured & w2 & Hcap & He2 & [(-> & Ho & [n Hn])|(-> & reason & Ho)]).
    { subst w1. cbn [env set_stdout set_time]. rewrite He. exact Hx. }
    { subst w1. cbn [env set_stdout set_time]. rewrite He. intros Hw.
      destruct (String.eqb_spec fmt "webp") as [Heq|Hne]; [auto|].
      subst path. rewrite (format_suffix fmt _ stem Hs Hf Hne) in Hw. discriminate. }
    + rewrite (bind_ok _ _ _ _ _ Hcap).
      rewrite (bind_ok _ _ _ _ _ (stat_size_run path w2 n Hn)).
      unfold print_success at 1. rewrite bind_print.
      destruct (IH (success_count + 1)
                  (set_stdout (stdout w2 ++ [success_line ("Saved: " +:+ size_text (Path.name path) n)]) w2))
        as (attempts & w' & Hrun & Hlen & He' & Hout).
      { cbn [env set_stdout]. rewrite He2. subst w1. cbn [env set_stdout set_time]. exact He. }
      exists (Saved (Path.name path) n :: attempts), w'.
      rewrite Hrun. split; [f_equal; f_equal; cbn [count_saved]; lia|].
      split; [cbn; congruence|]. split; [exact He'|].
      rewrite Hout. cbn [stdout set_stdout]. rewrite Ho. subst w1. cbn [stdout set_stdout set_time].
      cbn [reports report]. rewrite <- !app_assoc. reflexivity.
    + rewrite (bind_ok _ _ _ _ _ Hcap).
      unfold print_error at 1. rewrite bind_print.
      destruct (IH success_count
                  (set_stdout (stdout w2 ++ [error_line ("Failed: " +:+ str width +:+ "px")]) w2))
        as (attempts & w' & Hrun & Hlen & He' & Hout).
      { cbn [env set_stdout]. rewrite He2. subst w1. cbn [env set_stdout set_time]. exact He. }
      exists (Failed reason :: attempts), w'.
      rewrite Hrun. split; [reflexivity|].
      split; [cbn; congruence|]. split; [exact He'|].
      rewrite Hout. cbn [stdout set_stdout]. rewrite Ho. subst w1. cbn [stdout set_stdout set_time].
      cbn [reports report]. rewrite <- !app_assoc. reflexivity.
Qed.

(** Where the batch loop does isolate failures: every width is attempted
    and gets its own report, whatever happened to the widths before it.
    A failure of the browser library, of the navigation or of the
    screenshot is caught inside [capture_screenshot], which prints the
    reason and returns [False]; the loop ends without an exception and
    the last line counts the widths that were saved out of all the
    widths.  The premise on the converter is needed: see
    [capture_each_width_webp]. *)
Lemma batch_isolates_failures (raw url fmt wait : string) (dark : bool)
    (widths : list Z) (w : World) :
  validate_url raw = Ok (Some url) ->
  faults_are_exceptions (env w) ->
  is_format fmt = true ->
  (fmt = "webp" -> forall n, convert_tool (env w) n = ConvertWorks) ->
  exists attempts w',
    capture_batch url widths fmt dark wait w = (Ok tt, w')
    /\ length attempts = length widths
    /\ stdout w' = stdout w ++ reports widths attempts
                   ++ [completed_line (count_saved attempts) (length widths)].
Proof.
  intros Hv Hx Hf Hc.
  destruct (validate_url_parses _ _ Hv) as [parsed Hu].
  destruct (capture_each_width_run url parsed fmt dark wait (env w) widths Hu Hx Hf Hc 0 w eq_refl)
    as (attempts & w' & Hrun & Hlen & _ & Hout).
  exists attempts. eexists. unfold capture_batch.
  rewrite (bind_ok _ _ _ _ _ Hrun). split; [reflexivity|]. split; [exact Hlen|].
  cbn [stdout set_stdout]. rewrite Hout, <- app_assoc. reflexivity.
Qed.

(** With a converter that does not work, the batch loop ends with
    [FileNotFoundError] at the first width whose page loads and whose
    screenshot is taken, unless a file of the WebP name was on disk
    before. *)
Lemma capture_each_width_webp (url : string) (parsed : Urllib.ParseResult)
    (width : Z) (widths : list Z) (dark : bool) (wait : string)
    (success_count : Z) (w : World) :
  Urllib.urlparse url = Ok parsed ->
  playwright_installed (env w) = true ->
  wait = "networkidle" \/ wait = "load" ->
  goto_error (env w) (S (time w)) = None ->
  screenshot_error (env w) (S (S (time w))) = None ->
  convert_tool (env w) (S (S (S (time w)))) <> ConvertWorks ->
  close_error (env w) (S (S (S (S (time w))))) = None ->
  (forall name, files w !! (home (env w) +:+ "/Desktop/" +:+ name +:+ ".webp") = None) ->
  exists e w',
    capture_each_width url (width :: widths) "webp" dark wait success_count w
      = (Raise e, w')
    /\ exn_cls e = FileNotFoundError.
Proof.
  intros Hu Hp Hwait Hg Hs Hc Hcl Hfree.
  cbn [capture_each_width].
  destruct (get_output_filename_run url parsed width "webp" w Hu eq_refl) as (stem & Hst & Hgo).
  rewrite (bind_ok _ _ _ _ _ Hgo). unfold print_info at 1. rewrite bind_print.
  set (path := {| Path.parent := _; Path.name := _ |}).
  set (w1 := set_stdout _ _).
  assert (Hsuf : has_webp_suffix path = true).
  { unfold has_webp_suffix. subst path.
    rewrite suffix_of_name by (try assumption; try discriminate; reflexivity).
    reflexivity. }
  assert (Hcap : exists w2, capture_screenshot url width path dark wait false w1 = (Ok true, w2)
                 /\ files w2 !! Path.to_str path = None).
  { unfold capture_screenshot.
    pose proof (import_run w1) as Hi. subst w1. cbn [env set_stdout set_time] in Hi.
    rewrite Hp in Hi. rewrite (bind_ok _ _ _ _ _ Hi). cbn [negb].
    set (w1 := set_stdout _ _).
    assert (Hn : navigate true width dark url wait w1 = (Ok tt, set_time (S (time w1)) w1)).
    { unfold navigate, open_page.
      destruct Hwait as [-> | ->]; simpl (String.eqb _ _); cbv iota;
        rewrite env_call_cases;
        subst w1; cbn [env time set_stdout set_time]; rewrite Hg; reflexivity. }
    unfold screenshot_to. rewrite Hsuf.
    pose proof (page_screenshot_run (Path.with_suffix ".png" path) (set_time (S (time w1)) w1)) as Hps.
    subst w1. cbn [env time set_stdout set_time] in Hps. rewrite Hs in Hps.
    set (w1 := set_stdout _ _) in *.
    match type of Hps with _ = (_, ?w3) =>
      destruct (convert_fails (Path.with_suffix ".png" path) path w3) as [message Hcv]
    end.
    { subst w1. cbn [env time set_files set_stdout set_time]. exact Hc. }
    eexists. split.
    - apply try_except_ok.
      rewrite (bind_ok _ _ _ _ _ Hn), bind_assoc, (bind_ok _ _ _ _ _ Hps).
      rewrite (bind_ok _ _ _ _ _ Hcv).
      unfold close_browser, bind. rewrite env_call_cases.
      subst w1. cbn [env time set_files set_stdout set_time]. rewrite Hcl. reflexivity.
    - subst w1. cbn [files set_files set_stdout set_time].
      rewrite lookup_insert_ne by (apply temp_png_differs, Hsuf).
      subst path. unfold Path.to_str. cbn [Path.parent Path.name].
      rewrite (str_app_assoc (home (env w)) "/Desktop" _).
      apply (Hfree stem). }
  destruct Hcap as (w2 & Hcap & Hnone).
  rewrite (bind_ok _ _ _ _ _ Hcap).
  unfold bind at 1, stat_size. rewrite Hnone.
  do 2 eexists. split; reflexivity.
Qed.

End BatchCapture.

(** The widths 375 and 1920 when the second page load times out. *)
Lemma batch_isolates_failures_witness :
  faults_are_exceptions (env flaky_world)
  /\ exists attempts w',
      @capture_batch sample_platform "https://example.com" [375; 1920] "png" false
        "networkidle" flaky_world = (Ok tt, w')
      /\ length attempts = length [375; 1920]
      /\ stdout w' = stdout flaky_world ++ @reports sample_platform [375; 1920] attempts
                     ++ [completed_line (count_saved attempts) (length [375; 1920])].
Proof.
  assert (Hx : faults_are_exceptions (env flaky_world)).
  { intros n x [Hg|[Hs|Hc]]; cbn in Hg || cbn in Hs || cbn in Hc; try discriminate.
    destruct (Nat.eqb n 5); [|discriminate]. injection Hg as <-. reflexivity. }
  split; [exact Hx|].
  apply (@batch_isolates_failures sample_platform "example.com" "https://example.com"
           "png" "networkidle" false [375; 1920] flaky_world eq_refl Hx eq_refl).
  discriminate.
Defined.

(** The run of the witness: the first width is saved, the second fails,
    and the summary says 1/2. *)
Lemma batch_one_of_two :
  printed (@capture_batch sample_platform "https://example.com" [375; 1920] "png" false
             "networkidle") flaky_world =
    [ info_line "Capturing 375px...";
      success_line "Saved: example-com_375px_2025-01-01_120000.png (200.0 KB)";
      info_line "Capturing 1920px...";
      error_line "Screenshot failed: Timeout 60000ms exceeded.";
      error_line "Failed: 1920px";
      completed_line 1 2 ].
Proof. vm_compute. reflexivity. Qed.

(** C6, on the widths 375 and 1920 in the format webp with ImageMagick
    missing: the first capture returns [True] with the PNG kept, the
    batch loop asks for the size of the WebP file that was never
    written, and [FileNotFoundError] leaves the loop.  The width 1920 is
    not attempted and no count is printed. *)
Theorem capture_batch_webp_without_convert :
  let run := @capture_batch sample_platform "https://example.com" [375; 1920] "webp"
               false "networkidle" (sample_world false ConvertMissing "") in
  run.1 = Raise (no_such_file
                   "/home/user/Desktop/example-com_375px_2025-01-01_120000.webp")
  /\ stdout run.2 =
     [ info_line "Capturing 375px...";
       error_line "ImageMagick not found. Install with: brew install imagemagick";
       info_line "Keeping PNG file: example-com_375px_2025-01-01_120000.png" ]
  /\ files run.2 !! "/home/user/Desktop/example-com_375px_2025-01-01_120000.png"
     = Some 204800
  /\ files run.2 !! "/home/user/Desktop/example-com_375px_2025-01-01_120000.webp" = None.
Proof. vm_compute. repeat split. Qed.

(** ** WebP *)

(** With ImageMagick missing, a capture to WebP returns [True], keeps
    the PNG and says so. *)
Lemma capture_screenshot_keeps_png :
  let output_path := {| Path.parent := "/home/user/Desktop";
                        Path.name := "example-com_1920px_2025-01-01_120000.webp" |} in
  let run := @capture_screenshot sample_platform "https://example.com" 1920 output_path
               false "networkidle" false (sample_world false ConvertMissing "") in
  run.1 = Ok true
  /\ files run.2 !! "/home/user/Desktop/example-com_1920px_2025-01-01_120000.png"
     = Some 204800
  /\ files run.2 !! "/home/user/Desktop/example-com_1920px_2025-01-01_120000.webp" = None
  /\ stdout run.2 =
     [ error_line "ImageMagick not found. Install with: brew install imagemagick";
       info_line "Keeping PNG file: example-com_1920px_2025-01-01_120000.png" ].
Proof. vm_compute. repeat split; reflexivity. Qed.

(** C7, on the command line [--format webp https://example.com] with
    ImageMagick missing: the conversion failure is caught and the PNG is
    kept, but the batch loop then asks for the size of the WebP file that
    was never written, and the program ends with [FileNotFoundError]
    before any summary. *)
Theorem cli_mode_webp_without_convert :
  let run := @cli_mode sample_platform "https://example.com" (sample_args None "webp")
               (sample_world false ConvertMissing "") in
  run.1 = Raise (no_such_file
                   "/home/user/Desktop/example-com_1920px_2025-01-01_120000.webp")
  /\ files run.2 !! "/home/user/Desktop/example-com_1920px_2025-01-01_120000.png"
     = Some 204800
  /\ info_line "Keeping PNG file: example-com_1920px_2025-01-01_120000.png"
     ∈ stdout run.2
  /\ completed_line 1 1 ∉ stdout run.2.
Proof.
  vm_compute. repeat split.
  - do 8 right. left.
  - intros Hin. repeat (apply elem_of_cons in Hin as [Heq|Hin]; [discriminate Heq|]).
    inversion Hin.
Qed.

(** * Further properties *)

Section MenuRuns.
Import PyStr.
Context `{Platform}.

Lemma print_options_run (opts : list string) (idx selected : Z) (w : World) :
  exists lines, length lines = length opts
    /\ print_options opts idx selected w = (Ok tt, set_stdout (stdout w ++ lines) w).
Proof.
  revert idx w. induction opts as [|option opts IH]; intros idx w.
  - exists []. split; [reflexivity|]. simpl. rewrite set_stdout_same. reflexivity.
  - cbn [print_options]. rewrite bind_print.
    match goal with |- context [set_stdout (stdout w ++ [?l]) w] => set (line := l) end.
    destruct (IH (idx + 1) (set_stdout (stdout w ++ [line]) w)) as (lines & Hlen & ->).
    exists (line :: lines). split; [simpl; congruence|].
    rewrite set_stdout_twice, set_stdout_stdout, <- app_assoc. reflexivity.
Qed.

Lemma print_menu_run (opts : list string) (selected : Z) (w : World) :
  exists lines, length lines = (2 + length opts)%nat
    /\ print_menu opts selected w = (Ok tt, set_stdout (stdout w ++ lines) w).
Proof.
  unfold print_menu. rewrite !bind_print.
  match goal with |- context [print_options _ _ _ ?w1] =>
    destruct (print_options_run opts 0 selected w1) as (lines & Hlen & ->) end.
  eexists. split; [|rewrite !set_stdout_twice, !set_stdout_stdout, <- !app_assoc; reflexivity].
  simpl. congruence.
Qed.



Lemma get_key_tty_run (w : World) (pending rest key : string) :
  stdin_isatty (env w) = true ->
  stdin w = pending ->
  pending <> "" ->
  (forall w1, stdin w1 = pending ->
     read_key w1 = (Ok key, set_stdin rest (set_tty_raw true w1))) ->
  get_key w = (Ok key, set_tty_raw (tty_raw w) (set_stdin rest (set_tty_raw true w))).
Proof.
  intros Ht Hs Hne Hk.
  unfold get_key, try_except, bind, tcgetattr. rewrite Ht.
  assert (Hin : truthy (stdin w) = true).
  { rewrite Hs. destruct pending; [congruence|reflexivity]. }
  rewrite Hin.
  unfold try_finally, tcsetattr. rewrite (Hk w Hs). reflexivity.
Qed.

Lemma read_key_quit (w1 : World) (rest : string) :
  stdin w1 = CTRL_C +:+ rest ->
  read_key w1 = (Ok "quit", set_stdin rest (set_tty_raw true w1)).
Proof. destruct w1 as [e t s r o f]. cbn [stdin]. intros ->. reflexivity. Qed.

Lemma read_key_enter (w1 : World) (rest : string) :
  stdin w1 = CR +:+ rest \/ stdin w1 = NL +:+ rest ->
  read_key w1 = (Ok "enter", set_stdin rest (set_tty_raw true w1)).
Proof. destruct w1 as [e t s r o f]. cbn [stdin]. intros [-> | ->]; reflexivity. Qed.

(** X19: In the menu on a terminal, Ctrl-C at any option and Enter on
    the option Exit print a newline and leave through sys.exit(0), with
    the key consumed and the terminal mode restored. *)
Theorem menu_quit_exits (fuel : nat) (selected : Z) (w : World) (rest : string) :
  stdin_isatty (env w) = true ->
  stdin w = CTRL_C +:+ rest
  \/ (selected = 4 /\ (stdin w = CR +:+ rest \/ stdin w = NL +:+ rest)) ->
  exists w',
    menu_loop (S fuel) selected w = (Raise (Exn (SystemExit 0) ""), w')
    /\ stdin w' = rest
    /\ tty_raw w' = tty_raw w
    /\ last (stdout w') = Some NL.
Proof.
  intros Ht Hkey. cbn [menu_loop].
  destruct (print_menu_run options selected w) as (lines & _ & Hp).
  rewrite (bind_ok _ _ _ _ _ Hp).
  destruct Hkey as [Hs | [-> Hs]].
  - rewrite (bind_ok _ _ _ _ _
               (get_key_tty_run (set_stdout (stdout w ++ lines) w) _ rest "quit" Ht Hs
                  ltac:(discriminate) (fun w1 H1 => read_key_quit w1 rest H1))).
    change (menu_step options selected "quit") with Exiting. cbv iota.
    rewrite bind_print. unfold sys_exit, raise. eexists. split; [reflexivity|].
    cbn [stdin tty_raw stdout set_stdout set_stdin set_tty_raw].
    repeat split. apply last_snoc.
  - assert (Hr : forall w1, stdin w1 = stdin w ->
                   read_key w1 = (Ok "enter", set_stdin rest (set_tty_raw true w1))).
    { intros w1 H1. apply read_key_enter. rewrite H1. exact Hs. }
    destruct Hs as [Hs|Hs].
    + rewrite (bind_ok _ _ _ _ _
                 (get_key_tty_run (set_stdout (stdout w ++ lines) w) _ rest "enter" Ht Hs
                    ltac:(discriminate) (fun w1 H1 => Hr w1 (eq_trans H1 (eq_sym Hs))))).
      change (menu_step options 4 "enter") with Exiting. cbv iota.
      rewrite bind_print. unfold sys_exit, raise. eexists. split; [reflexivity|].
      cbn [stdin tty_raw stdout set_stdout set_stdin set_tty_raw].
      repeat split. apply last_snoc.
    + rewrite (bind_ok _ _ _ _ _
                 (get_key_tty_run (set_stdout (stdout w ++ lines) w) _ rest "enter" Ht Hs
                    ltac:(discriminate) (fun w1 H1 => Hr w1 (eq_trans H1 (eq_sym Hs))))).
      change (menu_step options 4 "enter") with Exiting. cbv iota.
      rewrite bind_print. unfold sys_exit, raise. eexists. split; [reflexivity|].
      cbn [stdin tty_raw stdout set_stdout set_stdin set_tty_raw].
      repeat split. apply last_snoc.
Qed.

(** C9: the loop of the menu goes on with the index that the key gives.
    After Up it shows the entry before, after Down the entry after, and
    at the two ends of the list it wraps around: Up at the first entry
    leads to the last one and Down at the last entry to the first.  A
    key that is none of Up, Down, Enter and Quit leaves the index where
    it is (Enter and Quit end the loop), so only Up and Down change
    it. *)
Theorem menu_loop_wraps (fuel : nat) (selected : Z) (key : string) (w w1 w2 : World) :
  0 <= selected < Z.of_nat (length options) ->
  print_menu options selected w = (Ok tt, w1) ->
  get_key w1 = (Ok key, w2) ->
  (key = "up" ->
     menu_loop (S fuel) selected w =
       menu_loop fuel
         (if selected =? 0 then Z.of_nat (length options) - 1 else selected - 1) w2)
  /\ (key = "down" ->
     menu_loop (S fuel) selected w =
       menu_loop fuel
         (if selected =? Z.of_nat (length options) - 1 then 0 else selected + 1) w2)
  /\ (key_event key = Other key ->
     menu_loop (S fuel) selected w = menu_loop fuel selected w2)
  /\ (forall selected',
        menu_step options selected key = Browsing selected' ->
        menu_loop (S fuel) selected w = menu_loop fuel selected' w2
        /\ 0 <= selected' < Z.of_nat (length options)
        /\ (selected' <> selected -> key_event key = Up \/ key_event key = Down)).
Proof.
  intros Hr Hp Hk.
  assert (Hstep : forall selected',
             menu_step options selected key = Browsing selected' ->
             menu_loop (S fuel) selected w = menu_loop fuel selected' w2).
  { intros selected' Hs. cbn [menu_loop].
    rewrite (bind_ok _ _ _ _ _ Hp), (bind_ok _ _ _ _ _ Hk), Hs. reflexivity. }
  destruct (menu_step_wraps selected key Hr) as (Hup & Hdown & Hother & Honly & Hrange).
  repeat split.
  - intros ->. apply Hstep, Hup.
  - intros ->. apply Hstep, Hdown.
  - intros Ho. apply Hstep, Hother, Ho.
  - apply Hstep, H0.
  - apply (Hrange _ H0).
  - apply (Hrange _ H0).
  - intros Hne. apply (Honly _ H0 Hne).
Qed.

(** X17: On a terminal, ESC followed by two characters other than [A and
    [B makes get_key consume all three and return them as one key, which
    the menu ignores. *)
Theorem get_key_unknown_escape (w : World) (c1 c2 : ascii) (rest : string) :
  stdin_isatty (env w) = true ->
  stdin w = Colors.ESC +:+ String c1 (String c2 rest) ->
  String c1 (String c2 "") <> "[A" ->
  String c1 (String c2 "") <> "[B" ->
  let key := Colors.ESC +:+ String c1 (String c2 "") in
  value_of get_key w = Ok key
  /\ stdin (world_after get_key w) = rest
  /\ forall selected, menu_step options selected key = Browsing selected.
Proof.
  intros Ht Hs Hup Hdown key.
  assert (Hrun : get_key w =
                 (Ok key, set_tty_raw (tty_raw w) (set_stdin rest (set_tty_raw true w)))).
  { apply (get_key_tty_run w _ rest key Ht Hs); [discriminate|].
    intros [e t s r o f]. cbn [stdin]. intros ->.
    change (Colors.ESC +:+ String c1 (String c2 rest))
      with (String (ascii_of_N 27) (String c1 (String c2 rest))).
    unfold read_key, bind, setraw, stdin_read.
    cbn [stdin set_tty_raw set_stdin take drop env tty_raw fst snd].
    change (String (ascii_of_N 27) "") with Colors.ESC.
    rewrite String.eqb_refl.
    cbn [stdin set_tty_raw set_stdin take drop env tty_raw fst snd].
    change (Colors.ESC +:+ String c1 (String c2 "")) with key.
    assert (H1 : String.eqb key KEY_UP = false).
    { apply String.eqb_neq. intros Heq. apply Hup. injection Heq as -> ->. reflexivity. }
    assert (H2 : String.eqb key KEY_DOWN = false).
    { apply String.eqb_neq. intros Heq. apply Hdown. injection Heq as -> ->. reflexivity. }
    rewrite H1, H2. reflexivity. }
  unfold value_of, world_after. rewrite Hrun. repeat split.
Qed.
End MenuRuns.

(** C9 at the two ends of the list, on a terminal: with Up typed at the
    first entry the loop goes on at the last one, which is the entry
    marked in the menu it draws next, and with Down typed at the last
    entry it goes on at the first. *)
Lemma menu_loop_wraps_witness :
  @menu_loop sample_platform 2 0 (sample_world true ConvertWorks KEY_UP)
    = @menu_loop sample_platform 1 4
        (world_after get_key
           (world_after (print_menu options 0) (sample_world true ConvertWorks KEY_UP)))
  /\ last (stdout (world_after (@menu_loop sample_platform 2 0)
                     (sample_world true ConvertWorks KEY_UP)))
     = Some ""
  /\ Colors.GREEN +:+ "→ Exit" +:+ Colors.END
     ∈ stdout (world_after (@menu_loop sample_platform 2 0)
                 (sample_world true ConvertWorks KEY_UP))
  /\ @menu_loop sample_platform 2 4 (sample_world true ConvertWorks KEY_DOWN)
    = @menu_loop sample_platform 1 0
        (world_after get_key
           (world_after (print_menu options 4) (sample_world true ConvertWorks KEY_DOWN))).
Proof.
  assert (H0 : 0 <= 0 < Z.of_nat (length options)) by (simpl; lia).
  assert (H4 : 0 <= 4 < Z.of_nat (length options)) by (simpl; lia).
  split; [|split; [|split]].
  - exact (proj1 (@menu_loop_wraps sample_platform 1 0 "up"
                    (sample_world true ConvertWorks KEY_UP) _ _ H0 eq_refl eq_refl)
             eq_refl).
  - vm_compute. reflexivity.
  - vm_compute. do 13 right. left.
  - exact (proj1 (proj2 (@menu_loop_wraps sample_platform 1 4 "down"
                           (sample_world true ConvertWorks KEY_DOWN) _ _ H4 eq_refl eq_refl))
             eq_refl).
Defined.

(** X20: In the menu, Up followed by Down and Down followed by Up bring
    the selection back to where it was, at each of the five options. *)
Theorem menu_up_down_inverse (selected : Z) :
  0 <= selected < Z.of_nat (length options) ->
  exists above below,
    menu_step options selected "up" = Browsing above
    /\ menu_step options above "down" = Browsing selected
    /\ menu_step options selected "down" = Browsing below
    /\ menu_step options below "up" = Browsing selected.
Proof.
  intros Hr. cbn in Hr.
  assert (Hc : selected = 0 \/ selected = 1 \/ selected = 2 \/ selected = 3 \/ selected = 4)
    by lia.
  destruct Hc as [->|[->|[->|[->| ->]]]]; do 2 eexists; repeat split.
Qed.

Section UrlExtras.
Import PyStr.
Context `{Platform}.
Import Urllib.

Lemma all_chars_app (p : ascii -> bool) (a b : string) :
  all_chars p (a +:+ b) = all_chars p a && all_chars p b.
Proof.
  induction a as [|c a IH]; [reflexivity|].
  rewrite app_cons. cbn [all_chars]. rewrite IH, andb_assoc. reflexivity.
Qed.

Lemma all_chars_impl (p q : ascii -> bool) (s : string) :
  (forall c, p c = true -> q c = true) ->
  all_chars p s = true -> all_chars q s = true.
Proof.
  intros Hpq. induction s as [|c s IH]; [reflexivity|].
  cbn [all_chars]. intros [Hc Hs]%andb_true_iff.
  rewrite (Hpq c Hc), (IH Hs). reflexivity.
Qed.

Lemma contains_false (c : ascii) (s : string) :
  all_chars (fun d => negb (Ascii.eqb c d)) s = true -> contains c s = false.
Proof.
  induction s as [|d s IH]; [reflexivity|].
  cbn [all_chars contains]. intros [Hd Hs]%andb_true_iff.
  destruct (Ascii.eqb c d); [discriminate|]. exact (IH Hs).
Qed.

Lemma replace_absent (c : ascii) (new s : string) :
  contains c s = false -> replace (String c "") new s = s.
Proof.
  unfold replace. induction s as [|d s IH]; [reflexivity|].
  cbn [contains replace_go String.prefix].
  destruct (Ascii.eqb_spec c d) as [->|Hne]; [discriminate|].
  destruct (ascii_dec c d) as [Heq|_]; [contradiction|].
  intros Hs. rewrite (IH Hs). reflexivity.
Qed.

Lemma span_until_none (p : ascii -> bool) (s : string) :
  all_chars (fun c => negb (p c)) s = true -> span_until p s = (s, "").
Proof.
  induction s as [|c s IH]; [reflexivity|].
  cbn [all_chars span_until]. intros [Hc Hs]%andb_true_iff.
  destruct (p c); [discriminate|]. rewrite (IH Hs). reflexivity.
Qed.

Ltac plain_case :=
  let c := fresh "c" in
  let Hc := fresh "Hc" in
  intros c Hc; unfold plain_char in Hc;
  apply andb_true_iff in Hc as [? Hc];
  apply negb_true_iff in Hc;
  repeat (apply orb_false_iff in Hc as [Hc ?]).

(** X1: validate_url accepts every non-empty string made only of ASCII
    characters other than tab, newline, carriage return, '/', '?', '#',
    '[' and ']' (a bare host name, with or without a port), and returns
    it with https:// put in front. *)
Theorem validate_url_accepts_plain (s : string) :
  s <> "" ->
  all_chars plain_char s = true ->
  validate_url s = Ok (Some ("https://" +:+ s)).
Proof.
  intros Hne Hp.
  assert (Hslash : contains "/" s = false).
  { apply contains_false, (all_chars_impl plain_char); [|exact Hp].
    plain_case. rewrite Ascii.eqb_sym. apply negb_true_iff. assumption. }
  assert (Hpre : has_http_prefix s = false).
  { destruct (has_http_prefix s) eqn:Hh; [|reflexivity].
    apply has_http_prefix_inv in Hh as [r [-> | ->]].
    - change ("http://" +:+ r) with (String "h" (String "t" (String "t" (String "p"
        (String ":" (String "/" (String "/" r))))))) in Hslash. discriminate Hslash.
    - change ("https://" +:+ r) with (String "h" (String "t" (String "t" (String "p"
        (String "s" (String ":" (String "/" (String "/" r)))))))) in Hslash.
      discriminate Hslash. }
  assert (Hclean : clean s = s).
  { unfold clean, TAB, CR, LF.
    rewrite (replace_absent (ascii_of_N 9)), (replace_absent (ascii_of_N 13)),
      (replace_absent (ascii_of_N 10)); [reflexivity|..];
      apply contains_false, (all_chars_impl plain_char); try exact Hp;
      plain_case; apply negb_true_iff;
      match goal with
      | Hx : (code ?x =? ?n)%N = false |- Ascii.eqb (ascii_of_N ?n) ?x = false =>
          apply Ascii.eqb_neq; intros <-; discriminate Hx
      end. }
  assert (Hnet : splitnetloc ("//" +:+ s) = (s, "")).
  { unfold splitnetloc. change (drop 2 ("//" +:+ s)) with s.
    apply span_until_none, (all_chars_impl plain_char); [|exact Hp].
    plain_case. apply negb_true_iff.
    repeat (apply orb_false_iff; split); assumption. }
  assert (Hb1 : contains "[" s = false).
  { apply contains_false, (all_chars_impl plain_char); [|exact Hp].
    plain_case. rewrite Ascii.eqb_sym. apply negb_true_iff. assumption. }
  assert (Hb2 : contains "]" s = false).
  { apply contains_false, (all_chars_impl plain_char); [|exact Hp].
    plain_case. rewrite Ascii.eqb_sym. apply negb_true_iff. assumption. }
  assert (Hascii : isascii s = true).
  { apply (all_chars_impl plain_char); [|exact Hp]. plain_case. assumption. }
  rewrite validate_url_unfold, Hpre. cbv zeta.
  unfold urlparse, urlsplit.
  change (lstrip_with c0_control_or_space ("https://" +:+ s)) with ("https://" +:+ s).
  rewrite clean_https, Hclean.
  change (split_scheme ("https://" +:+ s)) with ("https", "//" +:+ s).
  cbv beta iota. unfold startswith. rewrite (app_prefix "//" s), Hnet.
  unfold check_brackets, checknetloc. rewrite Hb1, Hb2, Hascii, orb_true_r.
  cbn [andb orb negb rbind scheme netloc].
  apply truthy_true in Hne. rewrite Hne. reflexivity.
Qed.

(** X2: validate_url returns None for the empty string and for every
    string that starts with '/', '?' or '#': with https:// put in front,
    the URL has no host. *)
Theorem validate_url_rejects_without_host (url : string) :
  url = ""
  \/ (exists c rest, url = String c rest
        /\ (c = "/" \/ c = "?" \/ c = "#")%char) ->
  validate_url url = Ok None.
Proof.
  intros [-> | (c & rest & -> & [-> | [-> | ->]])]; reflexivity.
Qed.

(** X3: Every URL that validate_url returns starts with http:// or
    https://, and urlparse reads it with the scheme http or https and a
    non-empty network location. *)
Theorem validate_url_http_scheme (raw u : string) :
  validate_url raw = Ok (Some u) ->
  has_http_prefix u = true
  /\ exists p, urlparse u = Ok p
       /\ (scheme p = "http" \/ scheme p = "https")
       /\ netloc p <> "".
Proof.
  intros Hv. pose proof (validate_url_prefixed _ _ Hv) as Hpre.
  split; [exact Hpre|].
  rewrite validate_url_unfold in Hv. cbv zeta in Hv.
  destruct (urlparse _) as [p|e] eqn:Hp; [|discriminate].
  destruct (truthy (scheme p)) eqn:Hs; [|discriminate].
  destruct (truthy (netloc p)) eqn:Hn; [|discriminate].
  injection Hv as <-.
  exists p. split; [exact Hp|]. split; [|apply truthy_true, Hn].
  exact (urlparse_scheme _ _ (normalized_has_prefix raw) Hp).
Qed.
End UrlExtras.

Section NameExtras.
Import PyStr.
Context `{Platform}.

Lemma prefix_empty (s : string) : String.prefix "" s = true.
Proof. destruct s; reflexivity. Qed.

Lemma replace_char_gone (c d : ascii) (s : string) :
  c <> d -> contains c (replace (String c "") (String d "") s) = false.
Proof.
  intros Hne. unfold replace. induction s as [|x s IH]; [reflexivity|].
  cbn [replace_go String.prefix String.length Nat.pred].
  destruct (ascii_dec c x) as [->|Hx].
  - rewrite prefix_empty. rewrite app_cons. cbn [contains].
    destruct (Ascii.eqb_spec x d) as [->|_]; [contradiction|].
    change ("" +:+ ?r) with r. exact IH.
  - cbn [contains]. destruct (Ascii.eqb_spec c x) as [->|_]; [contradiction|]. exact IH.
Qed.

Lemma str_take_app (a b : string) : take (String.length a) (a +:+ b) = a.
Proof. induction a as [|c a IH]; [destruct b; reflexivity|]. rewrite app_cons. simpl. rewrite IH. reflexivity. Qed.

Lemma stem_of_name (parent stem ext : string) :
  stem <> "" -> ext <> "" -> Path.rfind_dot ext = None ->
  Path.stem {| Path.parent := parent; Path.name := stem +:+ "." +:+ ext |} = stem.
Proof.
  intros Hs He Hd. unfold Path.stem, Path.suffix_index. cbn [Path.name].
  change (stem +:+ "." +:+ ext) with (stem +:+ String "." ext).
  rewrite (rfind_dot_app stem ext Hd), length_app.
  assert (Hn : (0 < String.length stem)%nat) by (destruct stem; [congruence|simpl; lia]).
  assert (Hm : (0 < String.length ext)%nat) by (destruct ext; [congruence|simpl; lia]).
  destruct (String.length stem) as [|i] eqn:Hi; [lia|].
  change (String.length (String "." ext)) with (S (String.length ext)).
  destruct (Nat.ltb_spec (S (S i)) (S i + S (String.length ext))) as [_|Hge]; [|lia].
  rewrite <- Hi. apply str_take_app.
Qed.

(** X4: Whenever sanitize_filename returns, the stem it returns contains
    no '.' character. *)
Theorem sanitize_filename_no_dot (url stem : string) :
  sanitize_filename url = Ok stem -> contains "." stem = false.
Proof.
  unfold sanitize_filename.
  destruct (Urllib.urlparse url) as [p|e]; [|discriminate].
  cbn [rbind]. intros [= <-]. apply replace_char_gone. discriminate.
Qed.

(** X5: For a URL that validate_url returned and a non-empty format
    without a dot and without a slash, get_output_filename returns
    <home>/Desktop/<stem>_<width>px_<timestamp>.<format> with
    sanitize_filename's stem; the path's suffix is the dot and the
    format, and with_suffix('.png') changes only that suffix. *)
Theorem get_output_filename_valid (raw url fmt : string) (width : Z) (w : World) :
  validate_url raw = Ok (Some url) ->
  fmt <> "" ->
  contains "." fmt = false ->
  contains "/" fmt = false ->
  exists stem,
    sanitize_filename url = Ok stem
    /\ get_output_filename url width fmt w =
        (Ok {| Path.parent := home (env w) +:+ "/Desktop";
               Path.name := stem +:+ "_" +:+ str width +:+ "px_"
                            +:+ clock (env w) (time w) +:+ "." +:+ fmt |},
         set_time (S (time w)) w)
    /\ forall path, (get_output_filename url width fmt w).1 = Ok path ->
         Path.suffix path = "." +:+ fmt
         /\ Path.name (Path.with_suffix ".png" path)
            = stem +:+ "_" +:+ str width +:+ "px_" +:+ clock (env w) (time w) +:+ ".png".
Proof.
  intros Hv Hf Hd Hsl.
  destruct (validate_url_parses _ _ Hv) as [p Hp].
  exists (replace "." "-" (replace "www." "" (Urllib.netloc p))).
  split; [apply sanitize_filename_unfold, Hp|].
  assert (Hrun : get_output_filename url width fmt w =
    (Ok {| Path.parent := home (env w) +:+ "/Desktop";
           Path.name := replace "." "-" (replace "www." "" (Urllib.netloc p))
                        +:+ "_" +:+ str width +:+ "px_"
                        +:+ clock (env w) (time w) +:+ "." +:+ fmt |},
     set_time (S (time w)) w)).
  { apply get_output_filename_plain; [apply sanitize_filename_unfold, Hp|exact Hsl]. }
  split; [exact Hrun|].
  rewrite Hrun. cbn [fst]. intros path [= <-].
  set (base := replace "." "-" _).
  assert (Hname : base +:+ "_" +:+ str width +:+ "px_" +:+ clock (env w) (time w) +:+ "." +:+ fmt
                  = (base +:+ "_" +:+ str width +:+ "px_" +:+ clock (env w) (time w))
                    +:+ "." +:+ fmt).
  { rewrite !str_app_assoc. reflexivity. }
  assert (Hstem : base +:+ "_" +:+ str width +:+ "px_" +:+ clock (env w) (time w) <> "").
  { intros He. apply (f_equal String.length) in He.
    rewrite !length_app in He. simpl in He. lia. }
  assert (Hrf : Path.rfind_dot fmt = None).
  { clear -Hd. induction fmt as [|c fmt IH]; [reflexivity|].
    cbn [contains] in Hd. cbn [Path.rfind_dot].
    destruct (Ascii.eqb_spec "." c) as [->|Hne]; [discriminate|].
    rewrite (IH Hd). destruct (Ascii.eqb_spec c "."); [congruence|reflexivity]. }
  rewrite Hname.
  pose proof (suffix_of_name (home (env w) +:+ "/Desktop") _ fmt Hstem Hf Hrf) as Hsuf.
  split; [exact Hsuf|].
  unfold Path.with_suffix. cbn [Path.name].
  rewrite (stem_of_name _ _ fmt Hstem Hf Hrf). rewrite !str_app_assoc. reflexivity.
Qed.
End NameExtras.

Lemma input_run (prompt : string) (w : World) :
  stdin w <> "" ->
  input prompt w =
    (Ok (first_line (stdin w)),
     set_stdin (after_line (stdin w)) (set_stdout (stdout w ++ [prompt]) w)).
Proof.
  unfold input. cbn [stdin set_stdout]. destruct (stdin w); [congruence|reflexivity].
Qed.

Ltac norm_world :=
  cbv beta;
  cbn [stdin stdout env time files tty_raw
       set_stdout set_stdin set_time set_files set_tty_raw].

Ltac step_print := rewrite bind_print; norm_world.

Ltac step_input Hs :=
  match goal with
  | |- context [bind (input ?p) ?k ?w1] =>
      rewrite (bind_ok _ _ _ _ _ (input_run p w1 Hs)); norm_world
  end.

Section RequestExtras.
Import PyStr.
Context `{Platform}.

Lemma custom_widths_ok (items : list string) (widths : list Z) (w : World) :
  Forall2 (fun item n => int (strip item) = Some n) items widths ->
  custom_widths items w = (Ok widths, w).
Proof.
  induction 1 as [|item n items widths Hi _ IH]; [reflexivity|].
  cbn [custom_widths]. unfold bind, py_int. rewrite Hi. cbn. 
  unfold bind in IH. rewrite IH. reflexivity.
Qed.

Lemma custom_widths_bad (items : list string) (w : World) :
  Exists (fun item => int (strip item) = None) items ->
  exists e, custom_widths items w = (Raise e, w) /\ exn_cls e = ValueError.
Proof.
  induction items as [|item items IH]; intros Hex; [inversion Hex|].
  cbn [custom_widths]. unfold bind at 1, py_int.
  destruct (int (strip item)) as [n|] eqn:Hi.
  - apply Exists_cons in Hex as [Hbad | Hex]; [congruence|].
    destruct (IH Hex) as (e & He & Hc). cbn. unfold bind. rewrite He. eauto.
  - cbn. eauto.
Qed.

(** X23: For the menu option Custom width(s) the answer is split at
    commas: when every piece is an integer literal, these integers are
    the widths, in order; when some piece is not, 'Invalid width format'
    is printed, Enter is awaited and no widths are returned. *)
Theorem custom_width_prompt (w : World) :
  stdin w <> "" ->
  let items := split "," (strip (first_line (stdin w))) in
  (forall widths,
      Forall2 (fun item n => int (strip item) = Some n) items widths ->
      value_of (menu_widths 2) w = Ok (Some widths)
      /\ printed (menu_widths 2) w = [width_prompt; "> "])
  /\ (Exists (fun item => int (strip item) = None) items ->
      after_line (stdin w) <> "" ->
      value_of (menu_widths 2) w = Ok None
      /\ printed (menu_widths 2) w =
         [width_prompt; "> "; error_line "Invalid width format";
          "Press Enter to continue..."]).
Proof.
  intros Hs items. unfold menu_widths. simpl (2 =? _). cbv iota. fold width_prompt.
  split.
  - intros widths Hall.
    assert (Hrun : forall w1, bind (custom_widths items) (fun ws => ret (Some ws)) w1
                              = (Ok (Some widths), w1)).
    { intros w1. rewrite (bind_ok _ _ _ _ _ (custom_widths_ok items widths w1 Hall)).
      reflexivity. }
    assert (Hall_run : bind (print width_prompt) (fun _ =>
               bind (input "> ") (fun line =>
                 try_except
                   (bind (custom_widths (split "," (strip line))) (fun ws => ret (Some ws)))
                   [(any_exception, fun _ =>
                       bind (print_error "Invalid width format") (fun _ =>
                         bind press_enter (fun _ => ret None)))])) w
             = (Ok (Some widths),
                set_stdin (after_line (stdin w))
                  (set_stdout (stdout w ++ [width_prompt; "> "]) w))).
    { step_print. step_input Hs. fold items.
      erewrite try_except_ok by apply Hrun. rewrite <- app_assoc. reflexivity. }
    split; [unfold value_of | apply printed_app; unfold world_after];
      rewrite Hall_run; reflexivity.
  - intros Hbad Hmore.
    assert (Hall_run : bind (print width_prompt) (fun _ =>
               bind (input "> ") (fun line =>
                 try_except
                   (bind (custom_widths (split "," (strip line))) (fun ws => ret (Some ws)))
                   [(any_exception, fun _ =>
                       bind (print_error "Invalid width format") (fun _ =>
                         bind press_enter (fun _ => ret None)))])) w
             = (Ok None,
                set_stdin (after_line (after_line (stdin w)))
                  (set_stdout (stdout w ++ [width_prompt; "> ";
                                            error_line "Invalid width format";
                                            "Press Enter to continue..."]) w))).
    { step_print. step_input Hs. fold items.
      match goal with |- try_except _ _ ?w1 = _ =>
        destruct (custom_widths_bad items w1 Hbad) as (e & He & _);
        rewrite (try_except_raise _ _ _ _ _ (bind_raise _ _ _ _ _ He))
      end.
      cbn [dispatch any_exception]. unfold print_error at 1. step_print.
      unfold press_enter. rewrite bind_assoc. step_input Hmore.
      unfold ret. rewrite <- !app_assoc. reflexivity. }
    split; [unfold value_of | apply printed_app; unfold world_after];
      rewrite Hall_run; reflexivity.
Qed.

Lemma split_nonempty (sep : ascii) (s : string) : split sep s <> [].
Proof.
  induction s as [|c s IH]; [discriminate|]. cbn [split].
  destruct (Ascii.eqb c sep); [discriminate|]. destruct (split sep s); discriminate.
Qed.

Lemma custom_widths_length (items : list string) (widths : list Z) (w w' : World) :
  custom_widths items w = (Ok widths, w') -> length widths = length items.
Proof.
  revert widths w w'. induction items as [|item items IH]; intros widths w w' Hr.
  - injection Hr as <- _. reflexivity.
  - cbn [custom_widths] in Hr.
    apply bind_ok_inv in Hr as (n & w1 & _ & Hr).
    apply bind_ok_inv in Hr as (ws & w2 & Hws & Hr).
    injection Hr as <- _. cbn. f_equal. eapply IH, Hws.
Qed.

(** X26: The list of widths that cli_mode, advanced_options and the
    first three menu options pass to the capture functions is never
    empty. *)
Theorem request_widths_nonempty :
  (forall url args w r,
      value_of (cli_request url args) w = Ok r -> req_widths r <> [])
  /\ (forall url w r,
      value_of (advanced_request url) w = Ok (Some r) -> req_widths r <> [])
  /\ (forall url choice w r,
      0 <= choice <= 2 ->
      value_of (menu_request url choice) w = Ok (Some r) -> req_widths r <> []).
Proof.
  repeat split.
  - intros url args w r Hv. rewrite (cli_request_widths _ _ _ _ Hv).
    destruct (spec_widths _).1; discriminate.
  - intros url w r Hv. apply value_of_ok_inv in Hv as [w' Hv].
    unfold advanced_request in Hv.
    bind_inv Hv.
    match type of Hv with
    | context [match ?ws with [] => _ | _ => _ end] => destruct ws as [|width ws]
    end.
    + bind_inv Hv. discriminate Hv.
    + bind_inv Hv. injection Hv as <- _. discriminate.
  - intros url choice w r Hc Hv. apply value_of_ok_inv in Hv as [w' Hv].
    unfold menu_request in Hv.
    apply bind_ok_inv in Hv as (widths & w1 & Hw & Hv).
    destruct widths as [widths|]; [|discriminate].
    bind_inv Hv. injection Hv as <- _. cbn [req_widths].
    unfold menu_widths in Hw.
    destruct (Z.eqb_spec choice 0); [injection Hw as <- _; discriminate|].
    destruct (Z.eqb_spec choice 1); [injection Hw as <- _; discriminate|].
    destruct (Z.eqb_spec choice 2); [|lia].
    apply bind_ok_inv in Hw as (? & w2 & _ & Hw).
    apply bind_ok_inv in Hw as (line & w3 & _ & Hw).
    unfold try_except, bind in Hw.
    destruct (custom_widths _ _) as [[ws|err] w4] eqn:Hcw.
    + injection Hw as <- _. apply custom_widths_length in Hcw.
      intros ->. cbn in Hcw. symmetry in Hcw. apply length_zero_iff_nil in Hcw.
      exact (split_nonempty _ _ Hcw).
    + cbn [dispatch any_exception] in Hw. bind_inv Hw. discriminate Hw.
Qed.

(** X27: The format that cli_mode and the first three menu options pass
    to the capture functions is always png, jpeg or webp. *)
Theorem request_format_valid :
  (forall url args w r,
      value_of (cli_request url args) w = Ok r -> is_format (req_format r) = true)
  /\ (forall url choice w r,
      value_of (menu_request url choice) w = Ok (Some r) ->
      is_format (req_format r) = true).
Proof.
  split.
  - intros url args w r Hv. apply value_of_ok_inv in Hv as [w' Hv].
    unfold cli_request in Hv.
    apply bind_ok_inv in Hv as (valid & w1 & _ & Hv).
    destruct valid as [u|]; [|bind_inv Hv; discriminate Hv].
    apply bind_ok_inv in Hv as (widths & w2 & _ & Hv).
    apply bind_ok_inv in Hv as (fmt & w3 & Hf & Hv).
    bind_inv Hv. injection Hv as <- _. cbn [req_format].
    rewrite cli_format_run in Hf.
    destruct (is_format (lower (arg_format args))) eqn:Hi;
      injection Hf as <- _; [exact Hi|reflexivity].
  - intros url choice w r Hv. apply value_of_ok_inv in Hv as [w' Hv].
    unfold menu_request in Hv.
    apply bind_ok_inv in Hv as (widths & w1 & _ & Hv).
    destruct widths as [widths|]; [|discriminate].
    apply bind_ok_inv in Hv as (fmt & w2 & Hf & Hv).
    bind_inv Hv. injection Hv as <- _. cbn [req_format].
    unfold menu_format in Hf.
    apply bind_ok_inv in Hf as (? & w3 & _ & Hf).
    apply bind_ok_inv in Hf as (answer & w4 & _ & Hf).
    destruct (is_format (or_default answer "png")) eqn:Hi;
      injection Hf as <- _; [exact Hi|reflexivity].
Qed.

(** X25: cli_mode with a URL that validate_url rejects prints 'Invalid
    URL: <url>' and exits with status 1, having printed nothing else. *)
Theorem cli_mode_invalid_url (url : string) (args : Args) (w : World) :
  validate_url url = Ok None ->
  cli_mode url args w =
    (Raise (Exn (SystemExit 1) ""),
     set_stdout (stdout w ++ [error_line ("Invalid URL: " +:+ url)]) w).
Proof.
  intros Hv. unfold cli_mode, cli_request.
  rewrite bind_assoc. unfold lift at 1. unfold bind at 1. rewrite Hv.
  unfold print_error. rewrite bind_assoc, bind_print. reflexivity.
Qed.

(** X24: When no item typed in the advanced options is a preset name or
    an integer literal, advanced_options prints 'No valid widths', waits
    for Enter and returns False, without calling the browser or the
    clock and without writing a file. *)
Theorem advanced_options_no_valid_widths (url : string) (w : World) :
  stdin w <> "" ->
  after_line (stdin w) <> "" ->
  (spec_widths (map token (split "," (strip (first_line (stdin w)))))).1 = [] ->
  value_of (advanced_options url) w = Ok false
  /\ last (printed (advanced_options url) w) = Some "Press Enter to continue..."
  /\ error_line "No valid widths" ∈ printed (advanced_options url) w
  /\ time (world_after (advanced_options url) w) = time w
  /\ files (world_after (advanced_options url) w) = files w.
Proof.
  intros Hs Hmore Hnone.
  assert (Hrun : exists lines,
             advanced_options url w =
               (Ok false,
                set_stdin (after_line (after_line (stdin w)))
                  (set_stdout (stdout w ++ lines ++ [error_line "No valid widths";
                                                     "Press Enter to continue..."]) w))).
  { destruct (print_presets_run presets_by_width
                (set_stdout (stdout w ++ [cyan "Width presets:"]) w)) as [plines Hp].
    exists ([cyan "Width presets:"] ++ plines
            ++ [NL +:+ cyan "Enter preset names or widths (comma-separated):"; "> "]
            ++ map (fun t => warning_line ("Skipping invalid: " +:+ t))
                 (spec_widths (map token (split "," (strip (first_line (stdin w)))))).2).
    unfold advanced_options, advanced_request. rewrite bind_assoc. step_print.
    rewrite bind_assoc, (bind_ok _ _ _ _ _ Hp). norm_world.
    rewrite bind_assoc. step_print. rewrite bind_assoc. step_input Hs.
    rewrite bind_assoc. unfold bind at 1. rewrite parse_widths_run. norm_world.
    rewrite Hnone. cbn [app].
    unfold print_error at 1. rewrite !bind_assoc. step_print.
    unfold press_enter. rewrite !bind_assoc. step_input Hmore.
    unfold ret, bind. cbv beta iota. rewrite <- !app_assoc. reflexivity. }
  destruct Hrun as [lines Hrun].
  assert (Hp : printed (advanced_options url) w =
               lines ++ [error_line "No valid widths"; "Press Enter to continue..."]).
  { apply printed_app. unfold world_after. rewrite Hrun. reflexivity. }
  unfold value_of, world_after. rewrite Hp, Hrun. repeat split.
  - change [error_line "No valid widths"; "Press Enter to continue..."]
      with ([error_line "No valid widths"] ++ ["Press Enter to continue..."]).
    rewrite app_assoc. apply last_snoc.
  - apply elem_of_app. right. left.
Qed.

(** X22: When the URL typed in the menu is rejected by validate_url,
    handle_menu_selection prints 'Invalid URL', waits for Enter and
    returns False whatever option was chosen; it asks nothing more and
    captures nothing. *)
Theorem handle_menu_selection_invalid_url (choice : Z) (w : World) :
  stdin w <> "" ->
  after_line (stdin w) <> "" ->
  validate_url (strip (first_line (stdin w))) = Ok None ->
  handle_menu_selection choice w =
    (Ok false,
     set_stdin (after_line (after_line (stdin w)))
       (set_stdout (stdout w ++ [clear_screen; cyan "Enter URL:"; "> ";
                                 error_line "Invalid URL";
                                 "Press Enter to continue..."]) w)).
Proof.
  intros Hs Hmore Hv. unfold handle_menu_selection.
  step_print. step_print. step_input Hs.
  unfold lift at 1. unfold bind at 1. rewrite Hv.
  unfold print_error. step_print. unfold press_enter. rewrite bind_assoc.
  step_input Hmore. unfold ret, bind. rewrite <- !app_assoc. reflexivity.
Qed.
End RequestExtras.

Section CaptureExtras.
Import PyStr.
Context `{Platform}.

(** X15: _convert_to_webp does not raise when the PNG is on disk. If
    convert works, the WebP file is written, the PNG is removed and
    nothing is printed; if convert is missing or fails, the files stay
    as they were and an error line and 'Keeping PNG file: <name>' are
    printed. *)
Theorem convert_to_webp_outcomes (png webp : Path.t) (w : World) (n : Z) :
  files w !! Path.to_str png = Some n ->
  Path.to_str png <> Path.to_str webp ->
  value_of (_convert_to_webp png webp) w = Ok tt
  /\ match convert_tool (env w) (time w) with
     | ConvertWorks =>
         files (world_after (_convert_to_webp png webp) w) !! Path.to_str webp
           = Some (image_size (env w) (Path.to_str webp))
         /\ files (world_after (_convert_to_webp png webp) w) !! Path.to_str png = None
         /\ printed (_convert_to_webp png webp) w = []
     | _ =>
         files (world_after (_convert_to_webp png webp) w) = files w
         /\ exists message,
              printed (_convert_to_webp png webp) w =
                [error_line message; info_line ("Keeping PNG file: " +:+ Path.name png)]
     end.
Proof.
  intros Hf Hne. unfold value_of, world_after.
  destruct (convert_tool (env w) (time w)) eqn:Hc.
  - rewrite (convert_works png webp w n Hc Hf). cbn [fst snd files set_files set_time].
    split; [reflexivity|]. split; [|split].
    + rewrite lookup_delete_ne by exact Hne. apply lookup_insert_eq.
    + apply lookup_delete_eq.
    + apply printed_app. unfold world_after.
      rewrite (convert_works png webp w n Hc Hf). cbn. rewrite app_nil_r. reflexivity.
  - destruct (convert_fails png webp w) as [message Hr]; [congruence|].
    rewrite Hr. split; [reflexivity|]. split; [reflexivity|].
    exists message. apply printed_app. unfold world_after. rewrite Hr. reflexivity.
  - destruct (convert_fails png webp w) as [message Hr]; [congruence|].
    rewrite Hr. split; [reflexivity|]. split; [reflexivity|].
    exists message. apply printed_app. unfold world_after. rewrite Hr. reflexivity.
Qed.

(** X11: Without the playwright package, capture_screenshot and
    capture_interactive_multiwidth print 'Playwright not installed. Run:
    cd webcapture && ./install.sh' and return False, and do nothing
    else. *)
Theorem capture_without_playwright (url wait fmt : string) (width : Z)
    (widths : list Z) (p : Path.t) (dark interactive : bool) (w : World) :
  playwright_installed (env w) = false ->
  capture_screenshot url width p dark wait interactive w
    = (Ok false, set_stdout (stdout w ++ [error_line playwright_hint]) w)
  /\ capture_interactive_multiwidth url widths fmt dark wait w
    = (Ok false, set_stdout (stdout w ++ [error_line playwright_hint]) w).
Proof.
  intros Hp. pose proof (import_run w) as Hi. rewrite Hp in Hi.
  unfold capture_screenshot, capture_interactive_multiwidth.
  rewrite !(bind_ok _ _ _ _ _ Hi). split; reflexivity.
Qed.

(** X12: When opening the page fails, capture_screenshot takes no
    screenshot: for an ordinary exception it prints 'Screenshot failed:
    <message>' and returns False, while a KeyboardInterrupt or a
    SystemExit passes through to the caller. *)
Theorem capture_screenshot_goto_fails (url wait : string) (width : Z) (p : Path.t)
    (dark interactive : bool) (w : World) (x : exn) :
  playwright_installed (env w) = true ->
  goto_error (env w) (time w) = Some x ->
  capture_screenshot url width p dark wait interactive w =
    if is_Exception x
    then (Ok false,
          set_stdout (stdout w ++ [error_line ("Screenshot failed: " +:+ exn_msg x)])
            (set_time (S (time w)) w))
    else (Raise x, set_time (S (time w)) w).
Proof.
  intros Hp Hg. pose proof (import_run w) as Hi. rewrite Hp in Hi.
  unfold capture_screenshot. rewrite (bind_ok _ _ _ _ _ Hi). cbn [negb].
  assert (Hn : navigate (negb interactive) width dark url wait w
               = (Raise x, set_time (S (time w)) w)).
  { unfold navigate, open_page.
    destruct (String.eqb wait "networkidle"); [|destruct (String.eqb wait "load")];
      try unfold bind; rewrite env_call_cases, Hg; reflexivity. }
  rewrite (try_except_raise _ _ _ _ _ (bind_raise _ _ _ _ _ Hn)).
  cbn [dispatch]. destruct (is_Exception x); reflexivity.
Qed.

Lemma int_no_literal (s : string) :
  is_int_literal s = false ->
  int s = None
  /\ int_error s = "invalid literal for int() with base 10: " +:+ take 200 (repr s).
Proof.
  unfold is_int_literal, int_error, int, unsigned, literal_value.
  destruct (int_strip s) as [|[[] [] [] [] [] [] [] []] r];
    destruct (digits_value 0 false _) eqn:Hd; try discriminate;
    intros _; (split; [|reflexivity]);
    destruct (4300 <? _)%N; try reflexivity; cbn [fmap option_fmap option_map];
    rewrite ?Hd; reflexivity.
Qed.

(** X13: A wait option that is neither networkidle nor load nor an
    integer literal makes capture_screenshot fail after the page has
    loaded: int(wait_option) raises, and the function prints 'Screenshot
    failed: invalid literal for int() with base 10: ' followed by the
    repr() of the option, cut after 200 characters, and returns False. *)
Theorem capture_screenshot_bad_wait (url wait : string) (width : Z) (p : Path.t)
    (dark interactive : bool) (w : World) :
  playwright_installed (env w) = true ->
  goto_error (env w) (time w) = None ->
  wait <> "networkidle" -> wait <> "load" -> is_int_literal wait = false ->
  capture_screenshot url width p dark wait interactive w =
    (Ok false,
     set_stdout
       (stdout w ++ [error_line ("Screenshot failed: invalid literal for int() with base 10: "
                                 +:+ take 200 (repr wait))])
       (set_time (S (time w)) w)).
Proof.
  intros Hp Hg Hn1 Hn2 Hl. destruct (int_no_literal wait Hl) as [Hi Hm].
  pose proof (import_run w) as Him. rewrite Hp in Him.
  unfold capture_screenshot. rewrite (bind_ok _ _ _ _ _ Him). cbn [negb].
  assert (Hn : navigate (negb interactive) width dark url wait w
               = (Raise (Exn ValueError (int_error wait)), set_time (S (time w)) w)).
  { unfold navigate, open_page.
    apply String.eqb_neq in Hn1, Hn2. rewrite Hn1, Hn2.
    unfold bind. rewrite env_call_cases, Hg. unfold py_int. rewrite Hi. reflexivity. }
  rewrite (try_except_raise _ _ _ _ _ (bind_raise _ _ _ _ _ Hn)).
  cbn [dispatch is_Exception exn_cls]. rewrite screenshot_failed_run.
  cbn [exn_msg]. rewrite Hm. reflexivity.
Qed.

(** X9: Called with an empty list of widths,
    capture_interactive_multiwidth fails at widths[0] once the browser
    is launched: it prints 'Screenshot failed: list index out of range'
    and returns False. *)
Theorem capture_interactive_multiwidth_no_widths (url fmt wait : string) (dark : bool)
    (w : World) :
  playwright_installed (env w) = true ->
  goto_error (env w) (time w) = None ->
  capture_interactive_multiwidth url [] fmt dark wait w =
    (Ok false,
     set_stdout (stdout w ++ [error_line "Screenshot failed: list index out of range"])
       (set_time (S (time w)) w)).
Proof.
  intros Hp Hg. pose proof (import_run w) as Hi. rewrite Hp in Hi.
  unfold capture_interactive_multiwidth. rewrite (bind_ok _ _ _ _ _ Hi). cbn [negb].
  unfold try_except, bind. rewrite env_call_cases, Hg. reflexivity.
Qed.
End CaptureExtras.

Section BatchExtras.
Import PyStr.
Context `{Platform}.

Lemma navigate_ok (headless dark : bool) (width : Z) (url wait : string) (w : World) :
  goto_error (env w) (time w) = None ->
  wait_ok wait ->
  navigate headless width dark url wait w = (Ok tt, set_time (S (time w)) w).
Proof.
  intros Hg Hw. unfold navigate, open_page.
  destruct (String.eqb wait "networkidle") eqn:H1.
  { rewrite env_call_cases, Hg. reflexivity. }
  destruct (String.eqb wait "load") eqn:H2.
  { rewrite env_call_cases, Hg. reflexivity. }
  destruct Hw as [->|[->|[ms Hi]]]; [discriminate H1|discriminate H2|].
  unfold bind. rewrite env_call_cases, Hg. unfold py_int. rewrite Hi. reflexivity.
Qed.

Lemma capture_screenshot_succeeds (url wait : string) (width : Z) (p : Path.t)
    (dark : bool) (w : World) :
  playwright_installed (env w) = true ->
  no_faults (env w) ->
  wait_ok wait ->
  (has_webp_suffix p = true -> forall n, convert_tool (env w) n = ConvertWorks) ->
  exists w',
    capture_screenshot url width p dark wait false w = (Ok true, w')
    /\ env w' = env w /\ stdout w' = stdout w
    /\ files w' !! Path.to_str p = Some (image_size (env w) (Path.to_str p)).
Proof.
  intros Hp Hnf Hw Hc. pose proof (import_run w) as Hi. rewrite Hp in Hi.
  unfold capture_screenshot. rewrite (bind_ok _ _ _ _ _ Hi). cbn [negb].
  pose proof (navigate_ok true dark width url wait w (proj1 (Hnf _)) Hw) as Hn.
  unfold screenshot_to. destruct (has_webp_suffix p) eqn:Hs.
  - specialize (Hc eq_refl).
    pose proof (page_screenshot_run (Path.with_suffix ".png" p) (set_time (S (time w)) w)) as Hps.
    cbn [env time set_time] in Hps. rewrite (proj1 (proj2 (Hnf _))) in Hps.
    eexists. split.
    + apply try_except_ok.
      rewrite (bind_ok _ _ _ _ _ Hn), bind_assoc, (bind_ok _ _ _ _ _ Hps).
      match goal with
      | |- context [bind (_convert_to_webp ?png ?webp) _ ?w1] =>
          rewrite (bind_ok _ _ _ _ _
                     (convert_works png webp w1 _ (Hc _) (lookup_insert_eq _ _ _)))
      end.
      unfold close_browser, bind. rewrite env_call_cases.
      cbn [env set_files set_time time files].
      rewrite (proj2 (proj2 (Hnf _))). reflexivity.
    + cbn [env stdout files set_files set_time]. repeat split.
      rewrite lookup_delete_ne by (apply temp_png_differs, Hs).
      apply lookup_insert_eq.
  - pose proof (page_screenshot_run p (set_time (S (time w)) w)) as Hps.
    cbn [env time set_time] in Hps. rewrite (proj1 (proj2 (Hnf _))) in Hps.
    eexists. split.
    + apply try_except_ok.
      rewrite (bind_ok _ _ _ _ _ Hn), (bind_ok _ _ _ _ _ Hps).
      unfold close_browser, bind. rewrite env_call_cases.
      cbn [env set_files set_time time files].
      rewrite (proj2 (proj2 (Hnf _))). reflexivity.
    + cbn [env stdout files set_files set_time]. repeat split.
      apply lookup_insert_eq.
Qed.

Lemma capture_each_width_all_saved (url : string) (parsed : Urllib.ParseResult)
    (fmt : string) (dark : bool) (wait : string) (e : Env) (widths : list Z) :
  Urllib.urlparse url = Ok parsed ->
  playwright_installed e = true ->
  no_faults e ->
  wait_ok wait ->
  is_format fmt = true ->
  (fmt = "webp" -> forall n, convert_tool e n = ConvertWorks) ->
  forall (success_count : Z) (w : World),
    env w = e ->
    exists attempts w',
      capture_each_width url widths fmt dark wait success_count w
        = (Ok (success_count + Z.of_nat (length widths)), w')
      /\ length attempts = length widths
      /\ Forall is_saved attempts
      /\ env w' = e
      /\ stdout w' = stdout w ++ reports widths attempts.
Proof.
  intros Hu Hp Hnf Hw Hf Hc.
  induction widths as [|width widths IH]; intros success_count w He.
  - exists [], w. cbn. rewrite Z.add_0_r, app_nil_r. auto.
  - cbn [capture_each_width].
    destruct (get_output_filename_run url parsed width fmt w Hu (is_format_plain fmt Hf)) as (stem & Hs & Hg).
    rewrite (bind_ok _ _ _ _ _ Hg). unfold print_info at 1. rewrite bind_print.
    set (path := {| Path.parent := _; Path.name := _ |}).
    set (w1 := set_stdout _ _).
    destruct (capture_screenshot_succeeds url wait width path dark w1) as
      (w2 & Hcap & He2 & Ho & Hfile).
    { subst w1. cbn [env set_stdout set_time]. rewrite He. exact Hp. }
    { subst w1. cbn [env set_stdout set_time]. rewrite He. exact Hnf. }
    { exact Hw. }
    { subst w1. cbn [env set_stdout set_time]. rewrite He. intros Hsuf.
      destruct (String.eqb_spec fmt "webp") as [Heq|Hne]; [auto|].
      subst path. rewrite (format_suffix fmt _ stem Hs Hf Hne) in Hsuf. discriminate. }
    rewrite (bind_ok _ _ _ _ _ Hcap).
    rewrite (bind_ok _ _ _ _ _ (stat_size_run path w2 _ Hfile)).
    unfold print_success at 1. rewrite bind_print.
    match goal with
    | |- context [capture_each_width _ _ _ _ _ _ ?w3] =>
        destruct (IH (success_count + 1) w3) as (attempts & w' & Hrun & Hlen & Hall & He' & Hout)
    end.
    { cbn [env set_stdout]. rewrite He2. subst w1. cbn [env set_stdout set_time]. exact He. }
    exists (Saved (Path.name path) (image_size (env w1) (Path.to_str path)) :: attempts), w'.
    rewrite Hrun. split; [f_equal; f_equal; cbn [length]; lia|].
    split; [cbn; congruence|]. split; [constructor; [exact I|exact Hall]|].
    split; [exact He'|].
    rewrite Hout. cbn [stdout set_stdout]. rewrite Ho. subst w1. cbn [stdout set_stdout set_time].
    cbn [reports report]. rewrite <- !app_assoc. reflexivity.
Qed.

(** X28: When nothing fails (playwright is installed, no browser call
    raises, the wait option is usable and, for webp, convert works), the
    batch loop saves every width and its summary line reads n/n. *)
Theorem capture_batch_all_saved (raw url fmt wait : string) (dark : bool)
    (widths : list Z) (w : World) :
  validate_url raw = Ok (Some url) ->
  playwright_installed (env w) = true ->
  no_faults (env w) ->
  wait_ok wait ->
  is_format fmt = true ->
  (fmt = "webp" -> forall n, convert_tool (env w) n = ConvertWorks) ->
  exists attempts w',
    capture_batch url widths fmt dark wait w = (Ok tt, w')
    /\ length attempts = length widths
    /\ Forall is_saved attempts
    /\ stdout w' = stdout w ++ reports widths attempts
                   ++ [completed_line (Z.of_nat (length widths)) (length widths)].
Proof.
  intros Hv Hp Hnf Hw Hf Hc.
  destruct (validate_url_parses _ _ Hv) as [parsed Hu].
  destruct (capture_each_width_all_saved url parsed fmt dark wait (env w) widths
              Hu Hp Hnf Hw Hf Hc 0 w eq_refl)
    as (attempts & w' & Hrun & Hlen & Hall & _ & Hout).
  exists attempts. eexists. unfold capture_batch.
  rewrite (bind_ok _ _ _ _ _ Hrun). split; [reflexivity|]. split; [exact Hlen|].
  split; [exact Hall|].
  cbn [stdout set_stdout]. rewrite Hout, <- app_assoc. reflexivity.
Qed.

Lemma capture_each_width_no_playwright (url : string) (parsed : Urllib.ParseResult)
    (fmt : string) (dark : bool) (wait : string) (widths : list Z) :
  Urllib.urlparse url = Ok parsed ->
  forall (success_count : Z) (w : World),
    playwright_installed (env w) = false ->
    exists w',
      capture_each_width url widths fmt dark wait success_count w = (Ok success_count, w')
      /\ files w' = files w
      /\ stdout w' = stdout w ++ reports widths (map (fun _ => Failed playwright_hint) widths).
Proof.
  intros Hu. induction widths as [|width widths IH]; intros success_count w Hp.
  - exists w. cbn. rewrite app_nil_r. auto.
  - cbn [capture_each_width].
    destruct (get_output_filename_ok url parsed width fmt w Hu) as (path & Hg).
    rewrite (bind_ok _ _ _ _ _ Hg). unfold print_info at 1. rewrite bind_print.
    set (w1 := set_stdout _ _).
    assert (Hcap : capture_screenshot url width path dark wait false w1
                   = (Ok false, set_stdout (stdout w1 ++ [error_line playwright_hint]) w1)).
    { pose proof (import_run w1) as Hi. subst w1.
      cbn [env set_stdout set_time] in Hi. rewrite Hp in Hi.
      unfold capture_screenshot. rewrite (bind_ok _ _ _ _ _ Hi). reflexivity. }
    rewrite (bind_ok _ _ _ _ _ Hcap). unfold print_error at 1. rewrite bind_print.
    match goal with
    | |- context [capture_each_width _ _ _ _ _ _ ?w3] =>
        destruct (IH success_count w3) as (w' & Hrun & Hfiles & Hout)
    end.
    { subst w1. exact Hp. }
    exists w'. rewrite Hrun. split; [reflexivity|]. split.
    + rewrite Hfiles. subst w1. reflexivity.
    + rewrite Hout. subst w1. cbn [stdout set_stdout set_time map reports report].
      rewrite <- !app_assoc. reflexivity.
Qed.

(** X29: Without the playwright package the batch loop still goes
    through every width: each is reported as failed, no file is written
    and the summary line reads 0/n. *)
Theorem capture_batch_without_playwright (raw url fmt wait : string) (dark : bool)
    (widths : list Z) (w : World) :
  validate_url raw = Ok (Some url) ->
  playwright_installed (env w) = false ->
  exists w',
    capture_batch url widths fmt dark wait w = (Ok tt, w')
    /\ files w' = files w
    /\ stdout w' = stdout w
                   ++ reports widths (map (fun _ => Failed playwright_hint) widths)
                   ++ [completed_line 0 (length widths)].
Proof.
  intros Hv Hp. destruct (validate_url_parses _ _ Hv) as [parsed Hu].
  destruct (capture_each_width_no_playwright url parsed fmt dark wait widths Hu 0 w Hp)
    as (w' & Hrun & Hfiles & Hout).
  eexists. unfold capture_batch. rewrite (bind_ok _ _ _ _ _ Hrun).
  split; [reflexivity|]. split; [exact Hfiles|].
  cbn [stdout set_stdout]. rewrite Hout, <- app_assoc. reflexivity.
Qed.
End BatchExtras.

Section KeepsInput.
Import PyStr.
Context `{Platform}.

Lemma keeps_ret {A} (a : A) : keeps_input (ret a).
Proof. intros w r w' [= <- <-]. auto. Qed.

Lemma keeps_raise {A} (e : exn) : keeps_input (@raise A e).
Proof. intros w r w' [= <- <-]. auto. Qed.

Lemma keeps_lift {A} (x : result A) : keeps_input (lift x).
Proof. intros w r w' [= <- <-]. auto. Qed.

Lemma keeps_get {A} (f : World -> A) : keeps_input (get f).
Proof. intros w r w' [= <- <-]. auto. Qed.

Lemma keeps_print (text : string) : keeps_input (print text).
Proof. intros w r w' [= <- <-]. auto. Qed.

Lemma keeps_tick : keeps_input tick.
Proof. intros w r w' [= <- <-]. auto. Qed.

Lemma keeps_bind {A B} (c : M A) (k : A -> M B) :
  keeps_input c -> (forall a, keeps_input (k a)) -> keeps_input (bind c k).
Proof.
  intros Hc Hk w r w'. unfold bind.
  destruct (c w) as [[a|e] w1] eqn:Hcw.
  - intros Hr. destruct (Hc _ _ _ Hcw) as [Hs Ht].
    destruct (Hk a _ _ _ Hr) as [Hs' Ht']. split; congruence.
  - intros [= <- <-]. exact (Hc _ _ _ Hcw).
Qed.

Lemma keeps_dispatch {A} (clauses : list (clause A)) (e : exn) :
  Forall (fun cl => forall x, keeps_input (cl.2 x)) clauses ->
  keeps_input (dispatch clauses e).
Proof.
  induction 1 as [|[handles handler] clauses Hh _ IH]; [apply keeps_raise|].
  cbn [dispatch]. destruct (handles e); [apply Hh|exact IH].
Qed.

Lemma keeps_try_except {A} (body : M A) (clauses : list (clause A)) :
  keeps_input body ->
  Forall (fun cl => forall x, keeps_input (cl.2 x)) clauses ->
  keeps_input (try_except body clauses).
Proof.
  intros Hb Hc w r w'. unfold try_except.
  destruct (body w) as [[a|e] w1] eqn:Hbw.
  - intros [= <- <-]. exact (Hb _ _ _ Hbw).
  - intros Hr. destruct (Hb _ _ _ Hbw) as [Hs Ht].
    destruct (keeps_dispatch clauses e Hc _ _ _ Hr) as [Hs' Ht']. split; congruence.
Qed.

Lemma keeps_env_call (fault : Env -> nat -> option exn) : keeps_input (env_call fault).
Proof.
  intros w r w'. rewrite env_call_cases.
  destruct (fault _ _); intros [= <- <-]; auto.
Qed.

Lemma keeps_stat_size (p : Path.t) : keeps_input (stat_size p).
Proof.
  intros w r w'. unfold stat_size. destruct (files w !! _); intros [= <- <-]; auto.
Qed.

Lemma keeps_page_screenshot (p : Path.t) : keeps_input (page_screenshot p).
Proof.
  intros w r w'. rewrite page_screenshot_run.
  destruct (screenshot_error _ _); intros [= <- <-]; auto.
Qed.

Lemma keeps_unlink (p : Path.t) : keeps_input (unlink p).
Proof.
  intros w r w'. unfold unlink. destruct (files w !! _); intros [= <- <-]; auto.
Qed.

Lemma keeps_run_convert (png webp : Path.t) : keeps_input (run_convert png webp).
Proof.
  intros w r w'. unfold run_convert, bind, tick. cbn [env set_time files time].
  destruct (convert_tool _ _); [destruct (files w !! _)| |]; intros [= <- <-]; auto.
Qed.

Ltac keeps :=
  repeat first
    [ apply keeps_ret | apply keeps_raise | apply keeps_lift | apply keeps_get
    | apply keeps_print | apply keeps_tick | apply keeps_env_call
    | apply keeps_stat_size | apply keeps_page_screenshot | apply keeps_unlink
    | apply keeps_run_convert
    | apply keeps_bind; [|intros ?]
    | apply keeps_try_except
    | apply Forall_cons; split; [intros ?; cbn [snd]|]
    | apply Forall_nil; exact I
    | progress unfold print_error, print_info, print_success, print_warning,
        close_browser, open_page, wait_for_timeout, set_viewport_size ].

Lemma keeps_convert (png webp : Path.t) : keeps_input (_convert_to_webp png webp).
Proof. unfold _convert_to_webp. keeps. Qed.

Lemma keeps_screenshot_to (b : bool) (p : Path.t) : keeps_input (screenshot_to b p).
Proof. unfold screenshot_to. destruct b; keeps; try apply keeps_convert. Qed.

Lemma keeps_py_int (s : string) : keeps_input (py_int s).
Proof. unfold py_int. destruct (int s); keeps. Qed.

Lemma keeps_navigate (headless dark : bool) (width : Z) (url wait : string) :
  keeps_input (navigate headless width dark url wait).
Proof.
  unfold navigate.
  destruct (String.eqb wait "networkidle"); [keeps|].
  destruct (String.eqb wait "load"); keeps; try apply keeps_py_int.
Qed.

Lemma keeps_import : keeps_input import_playwright.
Proof.
  intros w r w'. unfold import_playwright.
  destruct (playwright_installed _); intros [= <- <-]; auto.
Qed.

Lemma keeps_get_output_filename (url fmt : string) (width : Z) :
  keeps_input (get_output_filename url width fmt).
Proof. unfold get_output_filename. keeps. Qed.

Lemma keeps_capture_screenshot (url wait : string) (width : Z) (p : Path.t) (dark : bool) :
  keeps_input (capture_screenshot url width p dark wait false).
Proof.
  unfold capture_screenshot. apply keeps_bind.
  - keeps; try apply keeps_import; unfold playwright_missing; keeps.
  - intros [|]; cbn [negb]; [|keeps].
    apply keeps_try_except.
    + apply keeps_bind; [apply keeps_navigate|intros _].
      apply keeps_bind; [apply keeps_screenshot_to|intros _]. keeps.
    + apply Forall_cons. split; [|apply Forall_nil; exact I].
      intros x. cbn [snd]. unfold screenshot_failed. keeps.
Qed.

Lemma keeps_capture_each_width (url fmt wait : string) (dark : bool) (widths : list Z)
    (success_count : Z) :
  keeps_input (capture_each_width url widths fmt dark wait success_count).
Proof.
  revert success_count. induction widths as [|width widths IH]; intros success_count.
  - apply keeps_ret.
  - cbn [capture_each_width].
    apply keeps_bind; [apply keeps_get_output_filename|intros path].
    apply keeps_bind; [keeps|intros _].
    apply keeps_bind; [apply keeps_capture_screenshot|intros [|]].
    + apply keeps_bind; [keeps|intros n]. apply keeps_bind; [keeps|intros _]. apply IH.
    + apply keeps_bind; [keeps|intros _]. apply IH.
Qed.

(** X30: The batch loop never reads from standard input and never
    changes the terminal mode, whatever the browser and the converter
    do. *)
Theorem capture_batch_keeps_input (url fmt wait : string) (dark : bool)
    (widths : list Z) (w : World) :
  stdin (world_after (capture_batch url widths fmt dark wait) w) = stdin w
  /\ tty_raw (world_after (capture_batch url widths fmt dark wait) w) = tty_raw w.
Proof.
  unfold world_after.
  destruct (capture_batch url widths fmt dark wait w) as [r w'] eqn:Hr.
  revert Hr. apply (keeps_bind _ _ (keeps_capture_each_width _ _ _ _ _ _)).
  intros n. keeps.
Qed.

Lemma bind_ext {A B} (c : M A) (k1 k2 : A -> M B) (w : World) :
  (forall a w1, c w = (Ok a, w1) -> k1 a w1 = k2 a w1) ->
  bind c k1 w = bind c k2 w.
Proof.
  intros Hk. unfold bind. destruct (c w) as [[a|e] w1]; [apply Hk|]; reflexivity.
Qed.

Lemma length_span_snd (p : ascii -> bool) (s : string) :
  (String.length (span_until p s).2 <= String.length s)%nat.
Proof.
  induction s as [|c s IH]; [reflexivity|]. cbn [span_until].
  destruct (p c); [reflexivity|].
  destruct (span_until p s) as [a b]. cbn [snd String.length] in *. lia.
Qed.

Lemma length_after_line (s : string) :
  s <> "" -> (String.length (after_line s) < String.length s)%nat.
Proof.
  intros Hs. unfold after_line.
  pose proof (length_span_snd is_newline s) as Hle.
  destruct (span_until is_newline s).2 as [|c r]; cbn [drop String.length] in *.
  - destruct s; [congruence|simpl; lia].
  - lia.
Qed.

(** One round of the loop of [capture_screenshot] that asks for another
    has read a line. *)
Lemma capture_round_reads (output_path : Path.t) (capture_count : Z) (w w1 : World) :
  try_except
    (bind (print (prompt_line "Press Enter to capture screenshot (or type 'q' to finish):"))
       (fun _ =>
        bind (input "") (fun line =>
        let user_input := lower (strip line) in
        if String.eqb user_input "q" then
          bind (print_info "Finishing captures...") (fun _ => ret false)
        else
          let screenshot_path :=
            if capture_count =? 0 then output_path
            else numbered output_path capture_count in
          bind (screenshot_to (has_webp_suffix screenshot_path) screenshot_path) (fun _ =>
          bind (stat_size screenshot_path) (fun st_size =>
          bind (print_success ("Captured: " +:+ size_text (Path.name screenshot_path) st_size))
            (fun _ => ret true))))))
    [ (is_class KeyboardInterrupt, fun _ => bind (print interrupted_line) (fun _ => ret false)) ]
    w = (Ok true, w1) ->
  (String.length (stdin w1) < String.length (stdin w))%nat.
Proof.
  unfold try_except. rewrite bind_print.
  set (w0 := set_stdout _ w).
  unfold bind at 1.
  destruct (input "" w0) as [[line|e] w2] eqn:Hin.
  2:{ cbn [dispatch]. destruct (is_class KeyboardInterrupt e); [|discriminate].
      rewrite bind_print. discriminate. }
  apply input_ok_inv in Hin as (Hne & _ & ->).
  subst w0. cbn [stdin stdout set_stdout] in *.
  cbv zeta.
  destruct (String.eqb (lower (strip line)) "q").
  { unfold print_info. rewrite bind_print. discriminate. }
  match goal with
  | |- context [bind ?c ?k ?w3] =>
      assert (Hk : keeps_input (bind c k));
      [ apply keeps_bind; [apply keeps_screenshot_to|intros _];
        apply keeps_bind; [apply keeps_stat_size|intros ?];
        apply keeps_bind; [apply keeps_print|intros _]; apply keeps_ret
      | destruct (bind c k w3) as [[again|e] w4] eqn:Hrun ]
  end.
  - intros [= -> ->]. destruct (Hk _ _ _ Hrun) as [-> _].
    cbn [stdin set_stdin]. apply length_after_line, Hne.
  - cbn [dispatch]. destruct (is_class KeyboardInterrupt e); [|discriminate].
    rewrite bind_print. discriminate.
Qed.

Lemma capture_loop_fuel (fuel1 fuel2 : nat) (output_path : Path.t) (capture_count : Z)
    (w : World) :
  (String.length (stdin w) < fuel1)%nat ->
  (String.length (stdin w) < fuel2)%nat ->
  capture_loop fuel1 output_path capture_count w
    = capture_loop fuel2 output_path capture_count w.
Proof.
  revert fuel2 capture_count w.
  induction fuel1 as [|fuel1 IH]; intros fuel2 capture_count w H1 H2; [lia|].
  destruct fuel2 as [|fuel2]; [lia|].
  cbn [capture_loop]. apply bind_ext. intros again w1 Hr.
  destruct again; [|reflexivity].
  apply capture_round_reads in Hr. apply IH; lia.
Qed.

Lemma keeps_capture_all_widths (current_url fmt : string) (capture_round : Z)
    (widths : list Z) (total : Z) :
  keeps_input (capture_all_widths current_url fmt capture_round widths total).
Proof.
  revert total. induction widths as [|width widths IH]; intros total; [apply keeps_ret|].
  cbn [capture_all_widths]. apply keeps_bind.
  - apply keeps_try_except.
    + apply keeps_bind; [keeps|intros _].
      apply keeps_bind; [apply keeps_get_output_filename|intros path].
      apply keeps_bind; [apply keeps_screenshot_to|intros _].
      apply keeps_bind; [apply keeps_stat_size|intros n]. keeps.
    + apply Forall_cons. split; [|apply Forall_nil; exact I].
      intros x. cbn [snd]. keeps.
  - intros [|]; [apply IH|apply keeps_ret].
Qed.

(** One round of the loop of [capture_interactive_multiwidth] that is
    followed by another has read a line. *)
Lemma multiwidth_round_reads (widths : list Z) (fmt : string)
    (capture_round total total' : Z) (w w1 : World) :
  try_except
    (bind (print (prompt_line "Press Enter to capture all widths (or type 'q' to finish):"))
       (fun _ =>
        bind (input "") (fun line =>
        let user_input := lower (strip line) in
        if String.eqb user_input "q" then
          bind (print_info "Finishing captures...") (fun _ => ret (inr total))
        else
          bind current_page_url (fun current_url =>
          capture_all_widths current_url fmt capture_round widths total))))
    [ (is_class KeyboardInterrupt, fun _ =>
         bind (print interrupted_line) (fun _ => ret (inr total))) ]
    w = (Ok (inl total'), w1) ->
  (String.length (stdin w1) < String.length (stdin w))%nat.
Proof.
  unfold try_except. rewrite bind_print.
  set (w0 := set_stdout _ w).
  unfold bind at 1.
  destruct (input "" w0) as [[line|e] w2] eqn:Hin.
  2:{ cbn [dispatch]. destruct (is_class KeyboardInterrupt e); [|discriminate].
      rewrite bind_print. discriminate. }
  apply input_ok_inv in Hin as (Hne & _ & ->).
  subst w0. cbn [stdin stdout set_stdout] in *.
  cbv zeta.
  destruct (String.eqb (lower (strip line)) "q").
  { unfold print_info. rewrite bind_print. discriminate. }
  match goal with
  | |- context [bind ?c ?k ?w3] =>
      assert (Hk : keeps_input (bind c k));
      [ apply keeps_bind; [unfold current_page_url; keeps|intros ?];
        apply keeps_capture_all_widths
      | destruct (bind c k w3) as [[again|e] w4] eqn:Hrun ]
  end.
  - intros [= -> ->]. destruct (Hk _ _ _ Hrun) as [-> _].
    cbn [stdin set_stdin]. apply length_after_line, Hne.
  - cbn [dispatch]. destruct (is_class KeyboardInterrupt e); [|discriminate].
    rewrite bind_print. discriminate.
Qed.

Lemma multiwidth_loop_fuel (fuel1 fuel2 : nat) (widths : list Z) (fmt : string)
    (capture_round total : Z) (w : World) :
  (String.length (stdin w) < fuel1)%nat ->
  (String.length (stdin w) < fuel2)%nat ->
  multiwidth_loop fuel1 widths fmt capture_round total w
    = multiwidth_loop fuel2 widths fmt capture_round total w.
Proof.
  revert fuel2 capture_round total w.
  induction fuel1 as [|fuel1 IH]; intros fuel2 capture_round total w H1 H2; [lia|].
  destruct fuel2 as [|fuel2]; [lia|].
  cbn [multiwidth_loop]. apply bind_ext. intros [total'|total'] w1 Hr; [|reflexivity].
  apply multiwidth_round_reads in Hr. apply IH; lia.
Qed.

(** X10: The while True loops of the two interactive sessions end on
    every input: each round reads a line, so once as many rounds are
    allowed as the input has characters, plus one, allowing more changes
    nothing in the result. *)
Theorem interactive_loops_terminate (extra : nat) (w : World) :
  (forall output_path capture_count,
      capture_loop (S (String.length (stdin w)) + extra) output_path capture_count w
      = capture_loop (S (String.length (stdin w))) output_path capture_count w)
  /\ (forall widths fmt capture_round total,
      multiwidth_loop (S (String.length (stdin w)) + extra) widths fmt capture_round total w
      = multiwidth_loop (S (String.length (stdin w))) widths fmt capture_round total w).
Proof.
  split; intros; [apply capture_loop_fuel|apply multiwidth_loop_fuel]; lia.
Qed.
End KeepsInput.

Section SessionExtras.
Import PyStr.
Context `{Platform}.

Lemma capture_loop_quit (fuel : nat) (p : Path.t) (count : Z) (w : World) :
  stdin w <> "" ->
  lower (strip (first_line (stdin w))) = "q" ->
  capture_loop (S fuel) p count w =
    (Ok count,
     set_stdin (after_line (stdin w))
       (set_stdout
          (stdout w ++ [prompt_line "Press Enter to capture screenshot (or type 'q' to finish):";
                        ""; info_line "Finishing captures..."]) w)).
Proof.
  intros Hs Hq. cbn [capture_loop].
  match goal with
  | |- bind _ _ w = (_, ?w1) => rewrite (bind_ok _ _ w w1 false); [reflexivity|]
  end.
  apply try_except_ok. step_print. step_input Hs. rewrite Hq.
  cbn [String.eqb Ascii.eqb Bool.eqb]. unfold print_info. step_print.
  unfold ret. rewrite <- !app_assoc. reflexivity.
Qed.

Lemma multiwidth_loop_quit (fuel : nat) (widths : list Z) (fmt : string)
    (round total : Z) (w : World) :
  stdin w <> "" ->
  lower (strip (first_line (stdin w))) = "q" ->
  multiwidth_loop (S fuel) widths fmt round total w =
    (Ok total,
     set_stdin (after_line (stdin w))
       (set_stdout
          (stdout w ++ [prompt_line "Press Enter to capture all widths (or type 'q' to finish):";
                        ""; info_line "Finishing captures..."]) w)).
Proof.
  intros Hs Hq. cbn [multiwidth_loop].
  match goal with
  | |- bind _ _ w = (_, ?w1) => rewrite (bind_ok _ _ w w1 (inr total)); [reflexivity|]
  end.
  apply try_except_ok. step_print. step_input Hs. rewrite Hq.
  cbn [String.eqb Ascii.eqb Bool.eqb]. unfold print_info. step_print.
  unfold ret. rewrite <- !app_assoc. reflexivity.
Qed.

Lemma capture_loop_eof (fuel : nat) (p : Path.t) (count : Z) (w : World) :
  stdin w = "" ->
  capture_loop (S fuel) p count w =
    (Raise (Exn EOFError "EOF when reading a line"),
     set_stdout
       (stdout w ++ [prompt_line "Press Enter to capture screenshot (or type 'q' to finish):";
                     ""]) w).
Proof.
  intros Hs. cbn [capture_loop].
  match goal with
  | |- bind _ _ w = (Raise ?x, ?w1) => rewrite (bind_raise _ _ w w1 x); [reflexivity|]
  end.
  unfold try_except. step_print. unfold bind, input. norm_world. rewrite Hs.
  cbn [dispatch is_class exn_cls]. rewrite <- !app_assoc. reflexivity.
Qed.

Lemma multiwidth_loop_eof (fuel : nat) (widths : list Z) (fmt : string)
    (round total : Z) (w : World) :
  stdin w = "" ->
  multiwidth_loop (S fuel) widths fmt round total w =
    (Raise (Exn EOFError "EOF when reading a line"),
     set_stdout
       (stdout w ++ [prompt_line "Press Enter to capture all widths (or type 'q' to finish):";
                     ""]) w).
Proof.
  intros Hs. cbn [multiwidth_loop].
  match goal with
  | |- bind _ _ w = (Raise ?x, ?w1) => rewrite (bind_raise _ _ w w1 x); [reflexivity|]
  end.
  unfold try_except. step_print. unfold bind, input. norm_world. rewrite Hs.
  cbn [dispatch is_class exn_cls]. rewrite <- !app_assoc. reflexivity.
Qed.

(** X7: When the first line typed in an interactive session is q (in any
    case, with blanks around it), capture_screenshot and
    capture_interactive_multiwidth close the browser (the call is the
    second and last one they make into the environment, after the page
    load), write no file and return False. *)
Theorem interactive_quit_at_first_prompt (url wait fmt : string) (width : Z)
    (more : list Z) (p : Path.t) (dark : bool) (w : World) :
  playwright_installed (env w) = true ->
  goto_error (env w) (time w) = None ->
  close_error (env w) (S (time w)) = None ->
  wait_ok wait ->
  stdin w <> "" ->
  lower (strip (first_line (stdin w))) = "q" ->
  (exists w',
      capture_screenshot url width p dark wait true w = (Ok false, w')
      /\ time w' = S (S (time w))
      /\ files w' = files w
      /\ stdin w' = after_line (stdin w)
      /\ stdout w' = stdout w ++
           [info_line ("Browser opened at " +:+ str width +:+ "px width");
            warning_line "Navigate, sign in, or interact with page...";
            prompt_line "Press Enter to capture screenshot (or type 'q' to finish):";
            ""; info_line "Finishing captures..."])
  /\ (exists w',
      capture_interactive_multiwidth url (width :: more) fmt dark wait w = (Ok false, w')
      /\ time w' = S (S (time w))
      /\ files w' = files w
      /\ stdin w' = after_line (stdin w)
      /\ stdout w' = stdout w ++
           [info_line ("Browser opened at " +:+ str width +:+ "px width");
            warning_line "Navigate, sign in, or interact with page...";
            info_line ("Will capture at " +:+ str (Z.of_nat (length (width :: more)))
                       +:+ " width(s) per Enter: "
                       +:+ join ", " (map str (width :: more)) +:+ "px");
            prompt_line "Press Enter to capture all widths (or type 'q' to finish):";
            ""; info_line "Finishing captures...";
            NL +:+ Colors.GREEN +:+ "✓ Total captures: " +:+ str 0 +:+ Colors.END]).
Proof.
  intros Hp Hg Hc Hw Hs Hq.
  pose proof (import_run w) as Hi. rewrite Hp in Hi. split.
  - unfold capture_screenshot.
    rewrite (bind_ok _ _ _ _ _ Hi). cbn [negb].
    eexists. split; [|split; [|split; [|split]]].
    + apply try_except_ok.
      rewrite (bind_ok _ _ _ _ _ (navigate_ok _ dark width url wait w Hg Hw)).
      cbv iota. unfold print_info, print_warning. step_print. step_print.
      unfold stdin_bound. rewrite bind_get. norm_world.
      match goal with
      | |- context [bind (capture_loop (S ?f) ?q ?c) ?k ?w1] =>
          rewrite (bind_ok _ _ _ _ _ (capture_loop_quit f q c w1 Hs Hq))
      end. norm_world.
      unfold close_browser.
      match goal with
      | |- context [bind (env_call close_error) ?k ?w1] =>
          rewrite (bind_ok (env_call close_error) k w1 (set_time (S (time w1)) w1) tt)
      end.
      2:{ rewrite env_call_cases. norm_world. rewrite Hc. reflexivity. }
      norm_world. reflexivity.
    + reflexivity.
    + reflexivity.
    + reflexivity.
    + norm_world. rewrite <- !app_assoc. reflexivity.
  - unfold capture_interactive_multiwidth.
    rewrite (bind_ok _ _ _ _ _ Hi). cbn [negb].
    eexists. split; [|split; [|split; [|split]]].
    + apply try_except_ok.
      rewrite (bind_ok _ _ _ _ _ (navigate_ok _ dark width url wait w Hg Hw)).
      unfold print_info, print_warning. step_print. step_print. step_print.
      unfold stdin_bound. rewrite bind_get. norm_world.
      match goal with
      | |- context [bind (multiwidth_loop (S ?f) ?ws ?fm ?r ?c) ?k ?w1] =>
          rewrite (bind_ok _ _ _ _ _ (multiwidth_loop_quit f ws fm r c w1 Hs Hq))
      end. norm_world.
      unfold close_browser.
      match goal with
      | |- context [bind (env_call close_error) ?k ?w1] =>
          rewrite (bind_ok (env_call close_error) k w1 (set_time (S (time w1)) w1) tt)
      end.
      2:{ rewrite env_call_cases. norm_world. rewrite Hc. reflexivity. }
      norm_world. step_print. reflexivity.
    + reflexivity.
    + reflexivity.
    + reflexivity.
    + norm_world. rewrite <- !app_assoc. reflexivity.
Qed.

(** X8: When the input is at its end as an interactive session asks for
    its first line, the EOFError of input() reaches the outer except
    Exception: both capture functions print 'Screenshot failed: EOF when
    reading a line' and return False, without writing a file and without
    reaching context.close() and browser.close(). *)
Theorem interactive_session_at_eof (url wait fmt : string) (width : Z)
    (more : list Z) (p : Path.t) (dark : bool) (w : World) :
  playwright_installed (env w) = true ->
  goto_error (env w) (time w) = None ->
  wait_ok wait ->
  stdin w = "" ->
  (exists w',
      capture_screenshot url width p dark wait true w = (Ok false, w')
      /\ files w' = files w
      /\ time w' = S (time w)
      /\ last (stdout w') = Some (error_line "Screenshot failed: EOF when reading a line"))
  /\ (exists w',
      capture_interactive_multiwidth url (width :: more) fmt dark wait w = (Ok false, w')
      /\ files w' = files w
      /\ time w' = S (time w)
      /\ last (stdout w') = Some (error_line "Screenshot failed: EOF when reading a line")).
Proof.
  intros Hp Hg Hw Hs.
  pose proof (import_run w) as Hi. rewrite Hp in Hi. split.
  - unfold capture_screenshot.
    rewrite (bind_ok _ _ _ _ _ Hi). cbn [negb].
    eexists. split; [|split; [|split]].
    + erewrite try_except_raise.
      2:{ rewrite (bind_ok _ _ _ _ _ (navigate_ok _ dark width url wait w Hg Hw)).
          cbv iota. unfold print_info, print_warning. step_print. step_print.
          unfold stdin_bound. rewrite bind_get. norm_world.
          match goal with
          | |- context [bind (capture_loop (S ?f) ?q ?c) ?k ?w1] =>
              rewrite (bind_raise _ _ _ _ _ (capture_loop_eof f q c w1 Hs))
          end. reflexivity. }
      cbn [dispatch is_Exception exn_cls]. rewrite screenshot_failed_run. reflexivity.
    + reflexivity.
    + reflexivity.
    + norm_world. apply last_snoc.
  - unfold capture_interactive_multiwidth.
    rewrite (bind_ok _ _ _ _ _ Hi). cbn [negb].
    eexists. split; [|split; [|split]].
    + erewrite try_except_raise.
      2:{ rewrite (bind_ok _ _ _ _ _ (navigate_ok _ dark width url wait w Hg Hw)).
          unfold print_info, print_warning. step_print. step_print. step_print.
          unfold stdin_bound. rewrite bind_get. norm_world.
          match goal with
          | |- context [bind (multiwidth_loop (S ?f) ?ws ?fm ?r ?c) ?k ?w1] =>
              rewrite (bind_raise _ _ _ _ _ (multiwidth_loop_eof f ws fm r c w1 Hs))
          end. reflexivity. }
      cbn [dispatch is_Exception exn_cls]. rewrite screenshot_failed_run. reflexivity.
    + reflexivity.
    + reflexivity.
    + norm_world. apply last_snoc.
Qed.

Lemma except_Exception_escape {A} (body : M A) (handler : exn -> M A) (w w' : World)
    (x : exn) :
  (forall e w0, exists a w1, handler e w0 = (Ok a, w1)) ->
  try_except body [ (is_Exception, handler) ] w = (Raise x, w') ->
  is_Exception x = false.
Proof.
  intros Hh. unfold try_except. destruct (body w) as [[a|e] w0]; [discriminate|].
  cbn [dispatch]. destruct (is_Exception e) eqn:He.
  - destruct (Hh e w0) as (a & w1 & ->). discriminate.
  - unfold raise. intros [= <- _]. exact He.
Qed.

(** X14: Whatever the browser, the converter and the input do,
    capture_screenshot and capture_interactive_multiwidth let no
    ordinary exception out: anything they raise is a KeyboardInterrupt
    or a SystemExit. *)
Theorem capture_raises_only_interrupts (url wait fmt : string) (width : Z)
    (widths : list Z) (p : Path.t) (dark interactive : bool) (w : World) (x : exn) :
  value_of (capture_screenshot url width p dark wait interactive) w = Raise x
  \/ value_of (capture_interactive_multiwidth url widths fmt dark wait) w = Raise x ->
  is_Exception x = false.
Proof.
  pose proof (import_run w) as Hi.
  assert (Hh : forall e w0, exists a w1, screenshot_failed e w0 = (Ok a, w1)).
  { intros e w0. rewrite screenshot_failed_run. eauto. }
  unfold value_of. intros [Hr|Hr].
  - unfold capture_screenshot in Hr.
    destruct (playwright_installed (env w)); rewrite (bind_ok _ _ _ _ _ Hi) in Hr;
      cbn [negb] in Hr; [|discriminate].
    match type of Hr with
    | (?c w).1 = _ => destruct (c w) as [r w'] eqn:Hc
    end.
    cbn in Hr. subst r. exact (except_Exception_escape _ _ _ _ _ Hh Hc).
  - unfold capture_interactive_multiwidth in Hr.
    destruct (playwright_installed (env w)); rewrite (bind_ok _ _ _ _ _ Hi) in Hr;
      cbn [negb] in Hr; [|discriminate].
    match type of Hr with
    | (?c w).1 = _ => destruct (c w) as [r w'] eqn:Hc
    end.
    cbn in Hr. subst r. exact (except_Exception_escape _ _ _ _ _ Hh Hc).
Qed.

End SessionExtras.

Section RoundExtras.
Import PyStr.
Context `{Platform}.

Lemma get_output_filename_named (url stem fmt : string) (width : Z) (w : World) :
  sanitize_filename url = Ok stem ->
  contains "/" fmt = false ->
  get_output_filename url width fmt w =
    (Ok (output_file (env w) stem width (time w) fmt), set_time (S (time w)) w).
Proof. apply get_output_filename_plain. Qed.

Lemma capture_all_widths_saved (cur stem fmt : string) (e : Env) (round : Z) :
  sanitize_filename cur = Ok stem ->
  no_faults e ->
  fmt <> "webp" ->
  contains "/" fmt = false ->
  forall (widths : list Z) (total : Z) (w : World),
    env w = e ->
    exists w',
      capture_all_widths cur fmt round widths total w
        = (Ok (inl (total + Z.of_nat (length widths))), w')
      /\ env w' = e /\ stdin w' = stdin w
      /\ (forall k, is_Some (files w !! k) -> is_Some (files w' !! k))
      /\ (forall width, width ∈ widths ->
            exists now,
              let p := output_file e stem width now fmt in
              is_Some (files w' !! Path.to_str
                         (if 0 <? round then numbered p round else p)))
      /\ exists lines, stdout w' = stdout w ++ lines /\ length lines = length widths.
Proof.
  intros Hs Hnf Hf Hsl.
  assert (Hfb : String.eqb fmt "webp" = false) by (apply String.eqb_neq, Hf).
  induction widths as [|width widths IH]; intros total w He.
  - exists w. cbn [capture_all_widths length]. rewrite Z.add_0_r.
    repeat split; auto.
    + intros width Hin. inversion Hin.
    + exists []. rewrite app_nil_r. auto.
  - cbn [capture_all_widths].
    set (p := output_file e stem width (time w) fmt).
    set (p' := if 0 <? round then numbered p round else p).
    set (w1 := set_files (<[Path.to_str p' := image_size e (Path.to_str p')]> (files w))
                 (set_time (S (S (time w))) w)).
    set (w2 := set_stdout
                 (stdout w ++ [success_line ("Captured " +:+ str width +:+ "px: "
                                 +:+ size_text (Path.name p')
                                       (image_size e (Path.to_str p')))]) w1).
    assert (Hbody :
      try_except
        (bind (set_viewport_size width) (fun _ =>
         bind (get_output_filename cur width fmt) (fun output_path =>
         let output_path :=
           if 0 <? round then numbered output_path round else output_path in
         bind (screenshot_to (String.eqb fmt "webp") output_path) (fun _ =>
         bind (stat_size output_path) (fun st_size =>
         bind (print_success ("Captured " +:+ str width +:+ "px: "
                              +:+ size_text (Path.name output_path) st_size))
           (fun _ => ret true))))))
        [ (is_class KeyboardInterrupt,
           fun _ => bind (print interrupted_line) (fun _ => ret false)) ] w
      = (Ok true, w2)).
    { apply try_except_ok. unfold set_viewport_size. rewrite bind_ret.
      rewrite (bind_ok _ _ _ _ _ (get_output_filename_named cur stem fmt width w Hs Hsl)).
      rewrite He. fold p. cbv zeta. fold p'. rewrite Hfb. unfold screenshot_to.
      pose proof (page_screenshot_run p' (set_time (S (time w)) w)) as Hps.
      cbn [env time set_time] in Hps. rewrite He in Hps.
      rewrite (proj1 (proj2 (Hnf _))) in Hps.
      rewrite (bind_ok _ _ _ _ _ Hps).
      erewrite (bind_ok (stat_size p')).
      2:{ apply stat_size_run. cbn [files set_files]. apply lookup_insert_eq. }
      unfold print_success. rewrite bind_print. reflexivity. }
    rewrite (bind_ok _ _ _ _ _ Hbody).
    destruct (IH (total + 1) w2) as (w' & Hrun & He' & Hin' & Hkeep & Hall & lines & Hout & Hlen).
    { subst w2 w1. cbn [env set_stdout set_files set_time]. exact He. }
    exists w'. rewrite Hrun. split; [do 3 f_equal; cbn [length]; lia|].
    split; [exact He'|]. split; [rewrite Hin'; reflexivity|].
    assert (Hp' : is_Some (files w' !! Path.to_str p')).
    { apply Hkeep. subst w2 w1. cbn [files set_stdout set_files].
      rewrite lookup_insert_eq. eexists; reflexivity. }
    split; [|split].
    + intros k Hk. apply Hkeep. subst w2 w1. cbn [files set_stdout set_files].
      destruct (decide (Path.to_str p' = k)) as [->|Hne].
      * rewrite lookup_insert_eq. eexists; reflexivity.
      * rewrite lookup_insert_ne by exact Hne. exact Hk.
    + intros wd Hin. apply elem_of_cons in Hin as [->|Hin]; [|exact (Hall wd Hin)].
      exists (time w). exact Hp'.
    + eexists (_ :: lines). split; [|cbn [length]; rewrite Hlen; reflexivity].
      rewrite Hout. subst w2 w1. cbn [stdout set_stdout set_files set_time].
      rewrite <- app_assoc. reflexivity.
Qed.

Lemma multiwidth_loop_round (fuel : nat) (widths : list Z) (fmt stem : string)
    (round total : Z) (w : World) :
  stdin w <> "" ->
  lower (strip (first_line (stdin w))) <> "q" ->
  sanitize_filename (page_url (env w) (time w)) = Ok stem ->
  no_faults (env w) ->
  fmt <> "webp" ->
  contains "/" fmt = false ->
  exists w',
    multiwidth_loop (S fuel) widths fmt round total w
      = multiwidth_loop fuel widths fmt (round + 1) (total + Z.of_nat (length widths)) w'
    /\ env w' = env w
    /\ stdin w' = after_line (stdin w)
    /\ (forall k, is_Some (files w !! k) -> is_Some (files w' !! k))
    /\ (forall width, width ∈ widths ->
          exists now,
            let p := output_file (env w) stem width now fmt in
            is_Some (files w' !! Path.to_str
                       (if 0 <? round then numbered p round else p))).
Proof.
  intros Hs Hq Hstem Hnf Hf Hsl. cbn [multiwidth_loop].
  set (w1 := set_time (S (time w))
               (set_stdin (after_line (stdin w))
                  (set_stdout
                     (stdout w ++ [prompt_line
                        "Press Enter to capture all widths (or type 'q' to finish):"; ""])
                     w))).
  destruct (capture_all_widths_saved (page_url (env w) (time w)) stem fmt (env w) round
              Hstem Hnf Hf Hsl widths total w1 eq_refl)
    as (w' & Hrun & He & Hin & Hkeep & Hall & _).
  exists w'.
  rewrite (bind_ok _ _ w w' (inl (total + Z.of_nat (length widths)))).
  { repeat split; auto. }
  apply try_except_ok. step_print. step_input Hs.
  apply String.eqb_neq in Hq. rewrite Hq.
  unfold current_page_url. rewrite bind_assoc. unfold bind at 1, tick. norm_world.
  rewrite bind_get. norm_world. rewrite <- Hrun. subst w1.
  rewrite <- !app_assoc. reflexivity.
Qed.

(** X6: In an interactive multi-width session in which nothing fails and
    the format is png or jpeg, one Enter followed by q captures every
    requested width once, into files named after the page the browser
    shows at that moment (page.url) rather than after the URL the
    session was started with; the session prints the total and returns
    True. *)
Theorem multiwidth_session_captures_every_width (url fmt wait stem : string)
    (dark : bool) (width : Z) (more : list Z) (w : World) :
  playwright_installed (env w) = true ->
  no_faults (env w) ->
  wait_ok wait ->
  fmt = "png" \/ fmt = "jpeg" ->
  sanitize_filename (page_url (env w) (S (time w))) = Ok stem ->
  stdin w <> "" ->
  lower (strip (first_line (stdin w))) <> "q" ->
  after_line (stdin w) <> "" ->
  lower (strip (first_line (after_line (stdin w)))) = "q" ->
  exists w',
    capture_interactive_multiwidth url (width :: more) fmt dark wait w = (Ok true, w')
    /\ stdin w' = after_line (after_line (stdin w))
    /\ last (stdout w') =
         Some (NL +:+ Colors.GREEN +:+ "✓ Total captures: "
               +:+ str (Z.of_nat (length (width :: more))) +:+ Colors.END)
    /\ forall wd, wd ∈ width :: more ->
         exists now,
           is_Some (files w' !! Path.to_str (output_file (env w) stem wd now fmt)).
Proof.
  intros Hp Hnf Hw Hfmt Hstem Hs Hq Hs2 Hq2.
  assert (Hf : fmt <> "webp") by (destruct Hfmt as [-> | ->]; discriminate).
  assert (Hsl : contains "/" fmt = false) by (destruct Hfmt as [-> | ->]; reflexivity).
  pose proof (import_run w) as Hi. rewrite Hp in Hi.
  unfold capture_interactive_multiwidth.
  rewrite (bind_ok _ _ _ _ _ Hi). cbn [negb].
  set (widths := width :: more).
  set (w1 := set_stdout
               (stdout w ++
                [info_line ("Browser opened at " +:+ str width +:+ "px width");
                 warning_line "Navigate, sign in, or interact with page...";
                 info_line ("Will capture at " +:+ str (Z.of_nat (length widths))
                            +:+ " width(s) per Enter: "
                            +:+ join ", " (map str widths) +:+ "px")])
               (set_time (S (time w)) w)).
  destruct (stdin w) as [|c s] eqn:Hin; [congruence|].
  destruct (multiwidth_loop_round (S (String.length s)) widths fmt stem 0 0 w1)
    as (w2 & Hloop & He2 & Hin2 & _ & Hall).
  { subst w1. cbn [stdin set_stdout set_time]. rewrite Hin. discriminate. }
  { subst w1. cbn [stdin set_stdout set_time]. rewrite Hin. exact Hq. }
  { subst w1. cbn [env time set_stdout set_time]. exact Hstem. }
  { subst w1. cbn [env set_stdout set_time]. exact Hnf. }
  { exact Hf. }
  { exact Hsl. }
  assert (Hin1 : stdin w1 = String c s) by (subst w1; cbn [stdin set_stdout set_time]; exact Hin).
  rewrite Hin1 in Hin2.
  pose proof (multiwidth_loop_quit (String.length s) widths fmt (0 + 1)
                (0 + Z.of_nat (length widths)) w2) as Hquit.
  rewrite Hin2 in Hquit. specialize (Hquit Hs2 Hq2).
  rewrite Hquit in Hloop.
  eexists. split; [|split; [|split]].
  - apply try_except_ok.
    rewrite (bind_ok _ _ _ _ _ (navigate_ok _ dark width url wait w
                                 (proj1 (Hnf _)) Hw)).
    unfold print_info, print_warning. step_print. step_print. step_print.
    unfold stdin_bound. rewrite bind_get. norm_world. rewrite Hin.
    cbn [String.length]. rewrite <- !app_assoc. cbn [app]. fold widths. fold w1.
    rewrite (bind_ok _ _ _ _ _ Hloop).
    unfold close_browser.
    match goal with
    | |- context [bind (env_call close_error) ?k ?w3] =>
        rewrite (bind_ok (env_call close_error) k w3 (set_time (S (time w3)) w3) tt)
    end.
    2:{ rewrite env_call_cases. norm_world. rewrite He2. subst w1.
        cbn [env set_stdout set_time]. rewrite (proj2 (proj2 (Hnf _))). reflexivity. }
    step_print. reflexivity.
  - reflexivity.
  - norm_world. apply last_snoc.
  - intros wd Hwd. destruct (Hall wd Hwd) as (now & Hsome). exists now.
    cbn in Hsome. subst w1. cbn [env set_stdout set_time] in Hsome. exact Hsome.
Qed.

End RoundExtras.

Section MenuEnds.
Import PyStr.
Context `{Platform}.

Lemma length_drop (n : nat) (s : string) :
  (String.length (drop n s) <= String.length s)%nat.
Proof.
  revert s. induction n as [|n IH]; intros [|c s]; cbn [drop String.length]; try lia.
  specialize (IH s). lia.
Qed.

(** In raw mode the reader takes at least the first character. *)
Lemma read_key_consumes (w w1 : World) (key : string) :
  stdin w <> "" ->
  read_key w = (Ok key, w1) ->
  (String.length (stdin w1) < String.length (stdin w))%nat /\ tty_raw w1 = true.
Proof.
  destruct w as [e t s r o f]. cbn [stdin]. destruct s as [|c s]; [congruence|]. intros _.
  unfold read_key, bind, setraw, stdin_read.
  cbn [stdin set_tty_raw set_stdin take drop env tty_raw fst snd].
  pose proof (length_drop 2 s) as Hle.
  repeat match goal with
         | |- context [if ?b then _ else _] => destruct b
         end; unfold ret; intros [= <- <-];
    cbn [stdin tty_raw set_stdin set_tty_raw String.length]; (split; [|reflexivity]);
    try lia; change (match s with String _ (String _ r1) => r1 | _ => EmptyString end)
      with (drop 2 s); lia.
Qed.

Lemma get_key_consumes (w w' : World) (key : string) :
  get_key w = (Ok key, w') ->
  (String.length (stdin w') < String.length (stdin w))%nat.
Proof.
  unfold get_key, try_except, bind, tcgetattr.
  assert (Hfall : forall w0,
             stdin w0 = stdin w ->
             bind (input "") (fun line => ret (strip line)) w0 = (Ok key, w') ->
             (String.length (stdin w') < String.length (stdin w))%nat).
  { intros w0 H0. unfold bind.
    destruct (input "" w0) as [[line|e] w1] eqn:Hin; [|discriminate].
    apply input_ok_inv in Hin as (Hne & _ & ->). unfold ret. intros [= _ <-].
    cbn [stdin set_stdin]. rewrite H0 in *. apply length_after_line, Hne. }
  destruct (stdin_isatty (env w)); [destruct (truthy (stdin w)) eqn:Ht|].
  - unfold try_finally, tcsetattr.
    destruct (read_key w) as [[k|e] w1] eqn:Hr.
    + intros [= _ <-]. cbn [stdin set_tty_raw].
      apply (read_key_consumes w w1 k); [|exact Hr].
      intros He. rewrite He in Ht. discriminate.
    + destruct (read_key_returns w) as (k & w2 & Hk). congruence.
  - cbn [dispatch any_exception]. apply Hfall. reflexivity.
  - cbn [dispatch any_exception]. apply Hfall. reflexivity.
Qed.

(** At the end of the input the reader raises, with or without a
    terminal. *)
Lemma get_key_eof (w : World) :
  stdin w = "" ->
  get_key w = (Raise (Exn EOFError "EOF when reading a line"),
               set_stdout (stdout w ++ [""]) w).
Proof.
  destruct w as [e t s r o f]. cbn [stdin]. intros ->.
  unfold get_key, try_except, bind, tcgetattr. cbn [env stdin truthy String.eqb negb].
  destruct (stdin_isatty e); reflexivity.
Qed.

(** X21: interactive_mode ends with the input.  When the input is at its
    end, on a terminal or not, the menu is drawn once more, get_key falls
    back to input() and its EOFError leaves the menu.  On any input the
    loop needs no more rounds than the input has characters: every key
    it reads takes at least one of them. *)
Theorem menu_ends_with_the_input (fuel : nat) (selected : Z) (w : World) :
  (stdin w = "" ->
     exists w',
       menu_loop (S fuel) selected w
         = (Raise (Exn EOFError "EOF when reading a line"), w')
       /\ tty_raw w' = tty_raw w
       /\ files w' = files w)
  /\ ((String.length (stdin w) < fuel)%nat ->
      value_of (menu_loop fuel selected) w <> Ok None).
Proof.
  split.
  - intros Hs. cbn [menu_loop].
    destruct (print_menu_run options selected w) as (lines & _ & Hp).
    rewrite (bind_ok _ _ _ _ _ Hp).
    rewrite (bind_raise _ _ _ _ _ (get_key_eof (set_stdout (stdout w ++ lines) w) Hs)).
    eexists. split; [reflexivity|]. split; reflexivity.
  - revert selected w. induction fuel as [|fuel IH]; intros selected w Hlen; [lia|].
    unfold value_of. cbn [menu_loop].
    destruct (print_menu_run options selected w) as (lines & _ & Hp).
    rewrite (bind_ok _ _ _ _ _ Hp).
    set (w1 := set_stdout (stdout w ++ lines) w).
    destruct (get_key w1) as [[key|e] w2] eqn:Hk.
    2:{ rewrite (bind_raise _ _ _ _ _ Hk). discriminate. }
    rewrite (bind_ok _ _ _ _ _ Hk).
    apply get_key_consumes in Hk. subst w1. cbn [stdin set_stdout] in Hk.
    destruct (menu_step options selected key) as [selected'|choice|].
    + apply IH. lia.
    + unfold bind. destruct (handle_menu_selection choice w2) as [[handled|e] w3];
        discriminate.
    + rewrite bind_print. discriminate.
Qed.

End MenuEnds.

(** ** The further properties at sample inputs *)

Lemma menu_ends_with_the_input_witness :
  exists w',
    @menu_loop sample_platform 1 0 (sample_world true ConvertWorks "")
      = (Raise (Exn EOFError "EOF when reading a line"), w')
    /\ tty_raw w' = false
    /\ files w' = ∅.
Proof.
  apply (proj1 (@menu_ends_with_the_input sample_platform 0 0
                  (sample_world true ConvertWorks ""))).
  reflexivity.
Defined.

Lemma menu_quit_exits_witness :
  exists w',
    @menu_loop sample_platform 1 2 (sample_world true ConvertWorks CTRL_C)
      = (Raise (Exn (SystemExit 0) ""), w')
    /\ stdin w' = ""
    /\ tty_raw w' = tty_raw (sample_world true ConvertWorks CTRL_C)
    /\ last (stdout w') = Some NL.
Proof.
  apply (@menu_quit_exits sample_platform 0 2 (sample_world true ConvertWorks CTRL_C) "").
  - reflexivity.
  - left. reflexivity.
Defined.

Lemma get_key_unknown_escape_witness :
  value_of get_key (sample_world true ConvertWorks (Colors.ESC +:+ "[C"))
    = Ok (Colors.ESC +:+ "[C")
  /\ stdin (world_after get_key (sample_world true ConvertWorks (Colors.ESC +:+ "[C"))) = ""
  /\ forall selected, menu_step options selected (Colors.ESC +:+ "[C") = Browsing selected.
Proof.
  apply (get_key_unknown_escape (sample_world true ConvertWorks (Colors.ESC +:+ "[C"))
           "[" "C" ""); [reflexivity|reflexivity|discriminate|discriminate].
Defined.

Lemma menu_up_down_inverse_witness :
  exists above below,
    menu_step options 2 "up" = Browsing above
    /\ menu_step options above "down" = Browsing 2
    /\ menu_step options 2 "down" = Browsing below
    /\ menu_step options below "up" = Browsing 2.
Proof.
  apply (menu_up_down_inverse 2). simpl. lia.
Defined.

Lemma validate_url_accepts_plain_witness :
  @validate_url sample_platform "example.com:8080" = Ok (Some "https://example.com:8080").
Proof.
  apply (@validate_url_accepts_plain sample_platform "example.com:8080");
    [discriminate|reflexivity].
Defined.

Lemma validate_url_rejects_without_host_witness :
  @validate_url sample_platform "/about" = Ok None.
Proof.
  apply (@validate_url_rejects_without_host sample_platform "/about").
  right. exists "/"%char, "about". split; [reflexivity|left; reflexivity].
Defined.

Lemma validate_url_http_scheme_witness :
  has_http_prefix "https://example.com" = true
  /\ exists p, @Urllib.urlparse sample_platform "https://example.com" = Ok p
       /\ (Urllib.scheme p = "http" \/ Urllib.scheme p = "https")
       /\ Urllib.netloc p <> "".
Proof.
  apply (@validate_url_http_scheme sample_platform "example.com" "https://example.com").
  reflexivity.
Defined.

Lemma sanitize_filename_no_dot_witness :
  @sanitize_filename sample_platform "https://www.example.co.uk" = Ok "example-co-uk"
  /\ PyStr.contains "." "example-co-uk" = false.
Proof.
  split; [reflexivity|].
  apply (@sanitize_filename_no_dot sample_platform "https://www.example.co.uk").
  reflexivity.
Defined.

Lemma get_output_filename_valid_witness :
  exists stem,
    @sanitize_filename sample_platform "https://example.com" = Ok stem
    /\ @get_output_filename sample_platform "https://example.com" 375 "png"
         (sample_world false ConvertWorks "") =
        (Ok {| Path.parent := "/home/user" +:+ "/Desktop";
               Path.name := stem +:+ "_" +:+ PyStr.str 375 +:+ "px_"
                            +:+ "2025-01-01_120000" +:+ "." +:+ "png" |},
         set_time 1 (sample_world false ConvertWorks "")).
Proof.
  destruct (@get_output_filename_valid sample_platform "example.com" "https://example.com"
              "png" 375 (sample_world false ConvertWorks "") eq_refl
              ltac:(discriminate) eq_refl eq_refl) as (stem & Hs & Hg & _).
  exists stem. split; [exact Hs|exact Hg].
Defined.

Lemma custom_width_prompt_witness :
  value_of (menu_widths 2)
    (sample_world false ConvertWorks ("375, 1920" +:+ NL)) = Ok (Some [375; 1920])
  /\ printed (menu_widths 2)
       (sample_world false ConvertWorks ("375, 1920" +:+ NL)) = [width_prompt; "> "].
Proof.
  apply (proj1 (custom_width_prompt
                  (sample_world false ConvertWorks ("375, 1920" +:+ NL))
                  ltac:(discriminate)) [375; 1920]).
  repeat constructor.
Defined.

Lemma request_widths_nonempty_witness :
  exists r,
    value_of (@cli_request sample_platform "https://example.com"
                (sample_args (Some "nothing") "png"))
             (sample_world false ConvertWorks "") = Ok r
    /\ req_widths r <> [].
Proof.
  eexists. split; [vm_compute; reflexivity|].
  apply (proj1 (@request_widths_nonempty sample_platform) "https://example.com"
           (sample_args (Some "nothing") "png") (sample_world false ConvertWorks "")).
  vm_compute. reflexivity.
Defined.

Lemma request_format_valid_witness :
  exists r,
    value_of (@cli_request sample_platform "https://example.com"
                (sample_args None "tiff"))
             (sample_world false ConvertWorks "") = Ok r
    /\ is_format (req_format r) = true.
Proof.
  eexists. split; [vm_compute; reflexivity|].
  apply (proj1 (@request_format_valid sample_platform) "https://example.com"
           (sample_args None "tiff") (sample_world false ConvertWorks "")).
  vm_compute. reflexivity.
Defined.

Lemma cli_mode_invalid_url_witness :
  @cli_mode sample_platform "/about" (sample_args None "png")
    (sample_world false ConvertWorks "") =
    (Raise (Exn (SystemExit 1) ""),
     set_stdout (stdout (sample_world false ConvertWorks "")
                 ++ [error_line ("Invalid URL: " +:+ "/about")])
       (sample_world false ConvertWorks "")).
Proof.
  apply (@cli_mode_invalid_url sample_platform "/about"). reflexivity.
Defined.

Lemma advanced_options_no_valid_widths_witness :
  value_of (@advanced_options sample_platform "https://example.com")
    (sample_world false ConvertWorks ("wide, 12px" +:+ NL +:+ NL)) = Ok false
  /\ error_line "No valid widths"
     ∈ printed (@advanced_options sample_platform "https://example.com")
         (sample_world false ConvertWorks ("wide, 12px" +:+ NL +:+ NL)).
Proof.
  destruct (@advanced_options_no_valid_widths sample_platform "https://example.com"
              (sample_world false ConvertWorks ("wide, 12px" +:+ NL +:+ NL))
              ltac:(discriminate) ltac:(discriminate) eq_refl)
    as (Hv & _ & Hin & _).
  split; [exact Hv|exact Hin].
Defined.

Lemma handle_menu_selection_invalid_url_witness :
  @handle_menu_selection sample_platform 0
    (sample_world false ConvertWorks ("/about" +:+ NL +:+ NL)) =
    (Ok false,
     set_stdin (after_line (after_line ("/about" +:+ NL +:+ NL)))
       (set_stdout ([] ++ [clear_screen; cyan "Enter URL:"; "> ";
                           error_line "Invalid URL";
                           "Press Enter to continue..."])
          (sample_world false ConvertWorks ("/about" +:+ NL +:+ NL)))).
Proof.
  apply (@handle_menu_selection_invalid_url sample_platform 0
           (sample_world false ConvertWorks ("/about" +:+ NL +:+ NL)));
    [discriminate|discriminate|reflexivity].
Defined.

Lemma convert_to_webp_outcomes_witness :
  value_of (_convert_to_webp shot_png shot_webp) (png_world ConvertMissing) = Ok tt
  /\ files (world_after (_convert_to_webp shot_png shot_webp) (png_world ConvertMissing))
     = files (png_world ConvertMissing).
Proof.
  destruct (convert_to_webp_outcomes shot_png shot_webp (png_world ConvertMissing) 204800
              eq_refl ltac:(discriminate)) as (Hv & Hf & _).
  split; [exact Hv|exact Hf].
Defined.

Lemma capture_without_playwright_witness :
  @capture_screenshot sample_platform "https://example.com" 375 shot_png false
    "networkidle" false bare_world
    = (Ok false, set_stdout (stdout bare_world ++ [error_line playwright_hint]) bare_world)
  /\ @capture_interactive_multiwidth sample_platform "https://example.com" [375] "png"
       false "networkidle" bare_world
    = (Ok false, set_stdout (stdout bare_world ++ [error_line playwright_hint]) bare_world).
Proof.
  apply (@capture_without_playwright sample_platform). reflexivity.
Defined.

Lemma capture_screenshot_goto_fails_witness :
  @capture_screenshot sample_platform "https://example.com" 375 shot_png false
    "networkidle" false (set_time 5 flaky_world) =
    (Ok false,
     set_stdout (stdout (set_time 5 flaky_world)
                 ++ [error_line ("Screenshot failed: " +:+ "Timeout 60000ms exceeded.")])
       (set_time 6 (set_time 5 flaky_world))).
Proof.
  apply (@capture_screenshot_goto_fails sample_platform "https://example.com" "networkidle"
           375 shot_png false false (set_time 5 flaky_world)
           (Exn PlaywrightError "Timeout 60000ms exceeded.")); reflexivity.
Defined.

Lemma capture_screenshot_bad_wait_witness :
  @capture_screenshot sample_platform "https://example.com" 375 shot_png false
    "it's" false (sample_world false ConvertWorks "") =
    (Ok false,
     set_stdout
       (stdout (sample_world false ConvertWorks "")
        ++ [error_line ("Screenshot failed: invalid literal for int() with base 10: "
                        +:+ String PyStr.DQUOTE ("it's" +:+ String PyStr.DQUOTE ""))])
       (set_time 1 (sample_world false ConvertWorks ""))).
Proof.
  exact (@capture_screenshot_bad_wait sample_platform "https://example.com" "it's" 375
           shot_png false false (sample_world false ConvertWorks "")
           eq_refl eq_refl ltac:(discriminate) ltac:(discriminate) eq_refl).
Defined.

Lemma capture_interactive_multiwidth_no_widths_witness :
  @capture_interactive_multiwidth sample_platform "https://example.com" [] "png" false
    "networkidle" (sample_world false ConvertWorks "") =
    (Ok false,
     set_stdout (stdout (sample_world false ConvertWorks "")
                 ++ [error_line "Screenshot failed: list index out of range"])
       (set_time 1 (sample_world false ConvertWorks ""))).
Proof.
  apply (@capture_interactive_multiwidth_no_widths sample_platform); reflexivity.
Defined.

Lemma capture_batch_all_saved_witness :
  exists attempts w',
    @capture_batch sample_platform "https://example.com" [375; 1920] "webp" false "2000"
      (sample_world false ConvertWorks "") = (Ok tt, w')
    /\ length attempts = length [375; 1920]
    /\ Forall is_saved attempts
    /\ stdout w' = stdout (sample_world false ConvertWorks "")
                   ++ @reports sample_platform [375; 1920] attempts
                   ++ [completed_line (Z.of_nat (length [375; 1920])) (length [375; 1920])].
Proof.
  apply (@capture_batch_all_saved sample_platform "example.com" "https://example.com"
           "webp" "2000" false [375; 1920] (sample_world false ConvertWorks "")).
  - reflexivity.
  - reflexivity.
  - intros n. repeat split.
  - right. right. exists 2000. reflexivity.
  - reflexivity.
  - intros _ n. reflexivity.
Defined.

Lemma capture_batch_without_playwright_witness :
  exists w',
    @capture_batch sample_platform "https://example.com" [375; 1920] "png" false
      "networkidle" bare_world = (Ok tt, w')
    /\ files w' = files bare_world
    /\ stdout w' = stdout bare_world
                   ++ @reports sample_platform [375; 1920]
                        (map (fun _ => Failed playwright_hint) [375; 1920])
                   ++ [completed_line 0 (length [375; 1920])].
Proof.
  apply (@capture_batch_without_playwright sample_platform "example.com"
           "https://example.com"); reflexivity.
Defined.

Lemma interactive_quit_at_first_prompt_witness :
  exists w',
    @capture_screenshot sample_platform "https://example.com" 375 shot_png false
      "networkidle" true (sample_world false ConvertWorks (" Q " +:+ NL)) = (Ok false, w')
    /\ time w' = 2%nat
    /\ files w' = files (sample_world false ConvertWorks (" Q " +:+ NL))
    /\ stdin w' = "".
Proof.
  destruct (proj1 (@interactive_quit_at_first_prompt sample_platform "https://example.com"
              "networkidle" "png" 375 [] shot_png false
              (sample_world false ConvertWorks (" Q " +:+ NL))
              eq_refl eq_refl eq_refl (or_introl eq_refl) ltac:(discriminate) eq_refl))
    as (w' & Hrun & Ht & Hf & Hin & _).
  exists w'. split; [exact Hrun|]. split; [exact Ht|]. split; [exact Hf|exact Hin].
Defined.

Lemma interactive_session_at_eof_witness :
  exists w',
    @capture_interactive_multiwidth sample_platform "https://example.com" [375; 1920]
      "png" false "load" (sample_world false ConvertWorks "") = (Ok false, w')
    /\ files w' = files (sample_world false ConvertWorks "")
    /\ time w' = 1%nat
    /\ last (stdout w') = Some (error_line "Screenshot failed: EOF when reading a line").
Proof.
  apply (proj2 (@interactive_session_at_eof sample_platform "https://example.com"
                  "load" "png" 375 [1920] shot_png false
                  (sample_world false ConvertWorks "")
                  eq_refl eq_refl (or_intror (or_introl eq_refl)) eq_refl)).
Defined.

Lemma capture_raises_only_interrupts_witness :
  value_of (@capture_screenshot sample_platform "https://example.com" 375 shot_png false
              "networkidle" false) interrupted_world = Raise (Exn KeyboardInterrupt "")
  /\ is_Exception (Exn KeyboardInterrupt "") = false.
Proof.
  split; [reflexivity|].
  apply (@capture_raises_only_interrupts sample_platform "https://example.com"
           "networkidle" "png" 375 [375] shot_png false false interrupted_world).
  left. reflexivity.
Defined.

Lemma multiwidth_session_captures_every_width_witness :
  exists w',
    @capture_interactive_multiwidth sample_platform "https://example.org" [375; 1920]
      "png" false "networkidle" (sample_world false ConvertWorks (NL +:+ "q" +:+ NL))
      = (Ok true, w')
    /\ stdin w' = ""
    /\ forall wd, wd ∈ [375; 1920] ->
         exists now,
           is_Some (files w' !! Path.to_str
                      (output_file (sample_env false ConvertWorks) "example-com" wd now "png")).
Proof.
  destruct (@multiwidth_session_captures_every_width sample_platform "https://example.org"
              "png" "networkidle" "example-com" false 375 [1920]
              (sample_world false ConvertWorks (NL +:+ "q" +:+ NL)))
    as (w' & Hrun & Hin & _ & Hfiles).
  - reflexivity.
  - intros n. repeat split.
  - left. reflexivity.
  - left. reflexivity.
  - reflexivity.
  - discriminate.
  - discriminate.
  - discriminate.
  - reflexivity.
  - exists w'. split; [exact Hrun|]. split; [exact Hin|exact Hfiles].
Defined.

Lemma get_key_fallback_eof_witness :
  exists e, value_of get_key (sample_world false ConvertWorks "") = Raise e
            /\ exn_cls e = EOFError.
Proof.
  apply (get_key_fallback_eof (sample_world false ConvertWorks "")); reflexivity.
Defined.
